(** * Store Credit Register

    A shallow embedding of [app.py], the Streamlit application that records
    deposit ("B") and withdrawal ("K") transactions in a SQLite table, and
    the properties of its data-entry, persistence and reporting flows.

    Conventions of the embedding:
    - Python [float] is IEEE binary64: Rocq's primitive [float], with the
      same operations and rounding.
    - Python [int] is unbounded: [Z].
    - Python [str] is a sequence of code points: [pystr]. Dates and times
      are the ASCII texts produced by [strftime] and compared bytewise by
      SQLite: [string].
    - [st.session_state] is the record [session]; the table [entries] is
      the record [Db.store]; both are threaded explicitly through a script
      run.
    - One script run is driven by the state of the front end: the values
      typed into the widgets since the previous run and the one button that
      was pressed, if any (a Streamlit button is true only in the run its
      press triggers).
    - [st.rerun()] and [st.stop()] end the run at once; they are not caught
      by [except Exception].
    - The SQL statements are taken to succeed: the [except] branches for a
      database error are not part of the embedding.
    - Streamlit refuses an assignment to the session-state entry of a
      widget that was already created in the run: the assignment raises,
      and the exception is an ordinary [Exception]. *)

From Stdlib Require Import ZArith NArith List String Ascii Bool Lia.
From Stdlib Require Import Permutation Sorted.
From Stdlib Require OrderedTypeEx.
From Stdlib Require Import PrimFloat.
Import ListNotations.

Set Implicit Arguments.

(** ** Python text *)

Definition pystr := list N.

(** [str.isspace] on one code point: the Unicode white space of CPython. *)
Definition isspace (c : N) : bool :=
  ((9 <=? c) && (c <=? 13) || (28 <=? c) && (c <=? 32)
   || (c =? 133) || (c =? 160) || (c =? 5760)
   || (8192 <=? c) && (c <=? 8202)
   || (c =? 8232) || (c =? 8233) || (c =? 8239) || (c =? 8287)
   || (c =? 12288))%N.

Fixpoint lstrip (s : pystr) : pystr :=
  match s with
  | [] => []
  | c :: s' => if isspace c then lstrip s' else s
  end.

Definition rstrip (s : pystr) : pystr := rev (lstrip (rev s)).

(** [s.strip()] *)
Definition strip (s : pystr) : pystr := rstrip (lstrip s).

(** Python truthiness of a [str]: non-empty. *)
Definition truthy (s : pystr) : bool :=
  match s with [] => false | _ :: _ => true end.

(** A text literal as code points (ASCII only). *)
Definition text (s : string) : pystr :=
  map N_of_ascii (list_ascii_of_string s).

(** ** Constants (lines 10-16) *)

Definition MAX_CHARGE_PERCENTAGE : float := 10.0%float.
Definition MAX_AMOUNT : float := 1000000.0%float.

(** ** What a run shows to the user

    Only the messages of [st.error], [st.success] and [st.warning] are
    kept; metrics, tables and captions carry no state. *)

Inductive message : Type :=
| ErrCannotBeNegative (field_name : string)
    (* st.error(f"{field_name} cannot be negative") *)
| ErrExceedsMaximumAllowed (field_name : string)
    (* st.error(f"{field_name} exceeds maximum allowed (...)") *)
| ErrPercentageCannotBeNegative (field_name : string)
| ErrPercentageExceedsMaximum (field_name : string)
| ErrCustomerNameRequired
    (* st.error("Customer name is required") *)
| OkEntrySaved
| ErrUnexpected
    (* st.error(f"Unexpected error: {str(e)}") *)
| OkEntryUpdated
| OkEntryDeleted
| WarnAreYouSure.

(** The error kinds the messages stand for. *)
Inductive error_kind : Type := OutOfRange | MissingField.

Definition kind_of (m : message) : option error_kind :=
  match m with
  | ErrCannotBeNegative _ | ErrExceedsMaximumAllowed _
  | ErrPercentageCannotBeNegative _ | ErrPercentageExceedsMaximum _ =>
      Some OutOfRange
  | ErrCustomerNameRequired => Some MissingField
  | _ => None
  end.

(** How a script run ends. *)
Inductive control : Type :=
| Finished   (* fell off the end of the function *)
| Rerun      (* st.rerun() *)
| Stop.      (* st.stop() *)

(** ** Validation (lines 110-128)

    A validator returns its verdict together with what it rendered. *)

Definition validate_amount (amount : float) (field_name : string)
  : bool * list message :=
  if (amount <? 0)%float then (false, [ErrCannotBeNegative field_name])
  else if (MAX_AMOUNT <? amount)%float
       then (false, [ErrExceedsMaximumAllowed field_name])
       else (true, []).


(** ** The table [entries] (lines 29-61) *)

Inductive ctype : Type := Office | Others.
Inductive pmode : Type := Cash | UPI.

Module Db.

Record row : Type := mkRow {
  id : Z;
  entry_date : string;
  entry_time : string;
  customer_type : ctype;
  customer_name : pystr;
  payment_mode : pmode;
  b_amount : float;
  b_charges : float;
  k_amount : float;
  k_charges : float;
  grand_charges : float;
  remarks : pystr
}.

(** The rows in rowid order, and the largest rowid ever handed out
    (AUTOINCREMENT). *)
Record store : Type := mkStore {
  rows : list row;
  seq : Z
}.

Definition empty : store := {| rows := []; seq := 0 |}.

Definition ids (db : store) : list Z := map id (rows db).

(** INSERT INTO entries (...) VALUES (...) (lines 388-403) *)
Definition insert (date time : string) (ct : ctype) (name : pystr)
           (pm : pmode) (b_amt b_chg k_amt k_chg total : float)
           (rm : pystr) (db : store) : store :=
  let new_id := (seq db + 1)%Z in
  {| rows := rows db ++
             [mkRow new_id date time ct name pm b_amt b_chg k_amt k_chg
                    total rm];
     seq := new_id |}.

(** UPDATE entries SET ... WHERE id=? (lines 539-547) *)
Definition update (name : pystr) (ct : ctype) (pm : pmode)
           (b_amt b_chg k_amt k_chg total : float) (rm : pystr) (eid : Z)
           (db : store) : store :=
  {| rows := map (fun r =>
                    if (id r =? eid)%Z
                    then mkRow (id r) (entry_date r) (entry_time r)
                               ct name pm b_amt b_chg k_amt k_chg total rm
                    else r) (rows db);
     seq := seq db |}.

(** DELETE FROM entries WHERE id=? (line 570) *)
Definition delete (eid : Z) (db : store) : store :=
  {| rows := filter (fun r => negb (id r =? eid)%Z) (rows db);
     seq := seq db |}.

(** The primary key: ids are unique and were handed out by the sequence. *)
Definition well_formed (db : store) : Prop :=
  NoDup (ids db) /\ Forall (fun i => (i <= seq db)%Z) (ids db).

End Db.

(** ** Session state (lines 131-164) *)

(** One line item: a dict with "amount", "charge_pct" and, once the form has
    been rendered, "id". *)
Record line : Type := mkLine {
  amount : float;
  charge_pct : float;
  line_id : option Z
}.

Record session : Type := mkSession {
  customer_name : pystr;
  customer_type : ctype;
  payment_mode : pmode;
  remarks : pystr;
  b_entries : list line;
  k_entries : list line;
  confirm_delete : bool;
  delete_id : option Z;
  b_counter : Z;
  k_counter : Z
}.

(** [initialize_session_state] on a fresh session: a copy of [defaults]. *)
Definition initial_session : session :=
  {| customer_name := [];
     customer_type := Office;
     payment_mode := Cash;
     remarks := [];
     b_entries := [mkLine 0 0 None];
     k_entries := [mkLine 0 0 None];
     confirm_delete := false;
     delete_id := None;
     b_counter := 1;
     k_counter := 1 |}.

(** The assignments of [reset_form] (lines 155-164), all carried out. *)
Definition reset_form (ss : session) : session :=
  {| customer_name := [];
     customer_type := Office;
     payment_mode := Cash;
     remarks := [];
     b_entries := [mkLine 0 0 (Some 0%Z)];
     k_entries := [mkLine 0 0 (Some 0%Z)];
     confirm_delete := confirm_delete ss;
     delete_id := delete_id ss;
     b_counter := 1;
     k_counter := 1 |}.

Definition set_form (ct : ctype) (pm : pmode) (name : pystr) (ss : session)
  : session :=
  {| customer_name := name; customer_type := ct; payment_mode := pm;
     remarks := remarks ss;
     b_entries := b_entries ss; k_entries := k_entries ss;
     confirm_delete := confirm_delete ss; delete_id := delete_id ss;
     b_counter := b_counter ss; k_counter := k_counter ss |}.

Definition set_remarks (rm : pystr) (ss : session) : session :=
  {| customer_name := customer_name ss; customer_type := customer_type ss;
     payment_mode := payment_mode ss; remarks := rm;
     b_entries := b_entries ss; k_entries := k_entries ss;
     confirm_delete := confirm_delete ss; delete_id := delete_id ss;
     b_counter := b_counter ss; k_counter := k_counter ss |}.

Definition set_b (entries : list line) (counter : Z) (ss : session) : session :=
  {| customer_name := customer_name ss; customer_type := customer_type ss;
     payment_mode := payment_mode ss; remarks := remarks ss;
     b_entries := entries; k_entries := k_entries ss;
     confirm_delete := confirm_delete ss; delete_id := delete_id ss;
     b_counter := counter; k_counter := k_counter ss |}.

Definition set_k (entries : list line) (counter : Z) (ss : session) : session :=
  {| customer_name := customer_name ss; customer_type := customer_type ss;
     payment_mode := payment_mode ss; remarks := remarks ss;
     b_entries := b_entries ss; k_entries := entries;
     confirm_delete := confirm_delete ss; delete_id := delete_id ss;
     b_counter := b_counter ss; k_counter := counter |}.

Definition set_delete (flag : bool) (d : option Z) (ss : session) : session :=
  {| customer_name := customer_name ss; customer_type := customer_type ss;
     payment_mode := payment_mode ss; remarks := remarks ss;
     b_entries := b_entries ss; k_entries := k_entries ss;
     confirm_delete := flag; delete_id := d;
     b_counter := b_counter ss; k_counter := k_counter ss |}.

(** [key] is the key of a widget created so far in the run. *)
Definition created (keys : list string) (key : string) : bool :=
  existsb (String.eqb key) keys.

(** [reset_form] called in a run in which the widgets with the keys [keys]
    were already created: the session it leaves and whether it raised.
    Lines 157-160 assign the entries of widget keys; the first of them
    whose widget exists raises and the assignments after it are not
    reached. *)
Definition reset_form_in_run (keys : list string) (ss : session)
  : session * bool :=
  if created keys "customer_name" then (ss, true)
  else
    let ss1 := set_form (customer_type ss) (payment_mode ss) [] ss in
    if created keys "customer_type" then (ss1, true)
    else
      let ss2 := set_form Office (payment_mode ss1) (customer_name ss1) ss1 in
      if created keys "payment_mode" then (ss2, true)
      else
        let ss3 := set_form (customer_type ss2) Cash (customer_name ss2) ss2 in
        if created keys "remarks" then (ss3, true)
        else (reset_form ss, false).

(** The keyed widgets of the "New Entry" tab that exist when the save
    button is reached (lines 204-206 and 369). *)
Definition new_entry_widget_keys : list string :=
  ["customer_type"; "payment_mode"; "customer_name"; "remarks"]%string.

(** ** The front end *)

(** The buttons of the script. Those of the line items carry the id that is
    part of their widget key ([f"b_del_{unique_key}"]). *)
Inductive button : Type :=
| BtnRemoveB (key : Z)
| BtnAddB
| BtnRemoveK (key : Z)
| BtnAddK
| BtnSave
| BtnUpdate
| BtnDelete
| BtnYesDelete
| BtnCancel.

Definition button_eqb (x y : button) : bool :=
  match x, y with
  | BtnRemoveB a, BtnRemoveB b => (a =? b)%Z
  | BtnRemoveK a, BtnRemoveK b => (a =? b)%Z
  | BtnAddB, BtnAddB | BtnAddK, BtnAddK | BtnSave, BtnSave
  | BtnUpdate, BtnUpdate | BtnDelete, BtnDelete
  | BtnYesDelete, BtnYesDelete | BtnCancel, BtnCancel => true
  | _, _ => false
  end.

(** What the user did since the previous run. [None] in a "typed" field
    means the widget was left alone. Line-item widgets are addressed by the
    id in their key.

    The edit widgets of the "All Entries" tab have the fixed keys
    "edit_name" ... "edit_rm", whatever the entry selected, and a keyed
    widget shows its default only when it has no state yet. An [edit_]
    field is the state of its widget: [None] when the widget has none and
    so shows the selected entry, [Some v] when it holds [v], typed by the
    user or left from the entry that was shown before. *)
Record frontend : Type := mkFrontend {
  now_date : string;                    (* now.strftime("%Y-%m-%d") *)
  now_time : string;                    (* now.strftime("%H:%M:%S") *)
  pressed : option button;
  typed_customer_type : option ctype;
  typed_payment_mode : option pmode;
  typed_customer_name : option pystr;
  typed_remarks : option pystr;
  typed_b_amt : Z -> option float;
  typed_b_chg : Z -> option float;
  typed_k_amt : Z -> option float;
  typed_k_chg : Z -> option float;
  (* the "All Entries" tab *)
  start_date : string;
  end_date : string;
  selected : option Z;
  edit_name : option pystr;
  edit_ct : option ctype;
  edit_pm : option pmode;
  edit_ba : option float;
  edit_bc : option float;
  edit_ka : option float;
  edit_kc : option float;
  edit_rm : option pystr
}.

(** [st.button]: true in the run triggered by pressing this very button. *)
Definition st_button (fe : frontend) (b : button) : bool :=
  match pressed fe with
  | Some p => button_eqb p b
  | None => false
  end.

(** A widget showing its default [value] unless it holds something else. *)
Definition widget (A : Type) (value : A) (typed : option A) : A :=
  match typed with
  | Some v => v
  | None => value
  end.

(** [st.number_input]: a typed number is committed only when it lies within
    [min_value, max_value]; otherwise the widget keeps its value. *)
Definition number_input (min_value : float) (max_value : option float)
           (value : float) (typed : option float) : float :=
  match typed with
  | Some v =>
      if ((min_value <=? v)%float &&
          match max_value with
          | Some hi => (v <=? hi)%float
          | None => true
          end)%bool
      then v else value
  | None => value
  end.

(** ** The "New Entry" tab (lines 200-414)

    The deposit block (lines 211-281) and the withdrawal block (lines
    286-355) are the same code over [b_entries]/[b_counter] and
    [k_entries]/[k_counter]; [render_section] is that block. *)

Definition has_id (e : line) : bool :=
  match line_id e with Some _ => true | None => false end.

(** Lines 215-218: entries without an id take the next counter value. *)
Fixpoint assign_ids (entries : list line) (counter : Z) : list line * Z :=
  match entries with
  | [] => ([], counter)
  | e :: rest =>
      match line_id e with
      | Some _ =>
          let (rest', c) := assign_ids rest counter in (e :: rest', c)
      | None =>
          let (rest', c) := assign_ids rest (counter + 1) in
          (mkLine (amount e) (charge_pct e) (Some counter) :: rest', c)
      end
  end.

(** [e.get("id", i)] *)
Definition unique_key (e : line) (i : nat) : Z :=
  match line_id e with
  | Some k => k
  | None => Z.of_nat i
  end.

(** The charge of one line (line 249). *)
Definition charge (e : line) : float :=
  (amount e * charge_pct e / 100)%float.

(** One pass of the widgets over a line: both numbers are read back from
    their inputs (lines 228-247). *)
Definition read_line (typed_amt typed_chg : Z -> option float)
           (e : line) (i : nat) : line :=
  let key := unique_key e i in
  {| amount := number_input 0 (Some MAX_AMOUNT) (amount e) (typed_amt key);
     charge_pct := number_input 0 (Some MAX_CHARGE_PERCENTAGE)
                                (charge_pct e) (typed_chg key);
     line_id := line_id e |}.

(** The loop of lines 221-260 from index [i] on, with the running totals
    [amt] and [chg]; [len] is [len(st.session_state.b_entries)]. Returns the
    entries as updated in place, [entries_to_remove] and the totals. *)
Fixpoint render_lines (typed_amt typed_chg : Z -> option float)
         (remove_pressed : Z -> bool) (len : nat)
         (i : nat) (entries : list line) (amt chg : float)
  : list line * list nat * float * float :=
  match entries with
  | [] => ([], [], amt, chg)
  | e :: rest =>
      let e' := read_line typed_amt typed_chg e i in
      let ch := charge e' in
      let marked := ((1 <? len)%nat && remove_pressed (unique_key e i))%bool in
      let '(rest', to_remove, amt', chg') :=
        render_lines typed_amt typed_chg remove_pressed len (S i) rest
                     (amt + amount e')%float (chg + ch)%float in
      (e' :: rest', if marked then i :: to_remove else to_remove, amt', chg')
  end.

(** [list.pop(idx)]; every index used below is in range. *)
Definition pop (A : Type) (idx : nat) (l : list A) : list A :=
  firstn idx l ++ skipn (S idx) l.

(** Lines 263-264: [for idx in reversed(entries_to_remove): pop(idx)]. *)
Definition remove_marked (entries_to_remove : list nat) (entries : list line)
  : list line :=
  fold_left (fun l idx => pop idx l) (rev entries_to_remove) entries.

Record section_result : Type := mkSection {
  sec_entries : list line;
  sec_counter : Z;
  sec_amt : float;       (* b_amt *)
  sec_chg : float;       (* b_chg *)
  sec_rerun : bool       (* st.rerun() was called *)
}.

Definition render_section (typed_amt typed_chg : Z -> option float)
           (remove_pressed : Z -> bool) (add_pressed : bool)
           (entries : list line) (counter : Z) : section_result :=
  let (entries1, counter1) := assign_ids entries counter in
  let '(entries2, to_remove, amt, chg) :=
    render_lines typed_amt typed_chg remove_pressed (List.length entries1)
                 0 entries1 0 0 in
  let entries3 := remove_marked to_remove entries2 in
  match to_remove with
  | _ :: _ => mkSection entries3 counter1 amt chg true
  | [] =>
      if add_pressed
      then mkSection (entries3 ++ [mkLine 0 0 (Some counter1)])
                     (counter1 + 1) amt chg true
      else mkSection entries3 counter1 amt chg false
  end.

(** The result of rendering a tab. *)
Record result : Type := mkResult {
  r_session : session;
  r_db : Db.store;
  r_shown : list message;
  r_control : control
}.

(** Lines 371-414: the "Save Entry" branch. After the INSERT and the
    success message, [reset_form()] is called with the widgets of the form
    in place: it raises, and [except Exception] shows the error and stops
    the run (lines 412-414). *)
Definition save_entry (fe : frontend) (b_amt b_chg k_amt k_chg : float)
           (ss : session) (db : Db.store) : result :=
  let total_charges := (b_chg + k_chg)%float in
  if negb (truthy (strip (customer_name ss)))
  then mkResult ss db [ErrCustomerNameRequired] Stop
  else
    let (ok_b, shown_b) := validate_amount b_amt "Total B Amount" in
    if negb ok_b then mkResult ss db shown_b Stop
    else
      let (ok_k, shown_k) := validate_amount k_amt "Total K Amount" in
      if negb ok_k then mkResult ss db (shown_b ++ shown_k) Stop
      else
        let db' := Db.insert (now_date fe) (now_time fe)
                             (customer_type ss) (strip (customer_name ss))
                             (payment_mode ss)
                             b_amt b_chg k_amt k_chg total_charges
                             (strip (remarks ss)) db in
        let (ss', raised) := reset_form_in_run new_entry_widget_keys ss in
        if raised
        then mkResult ss' db'
                      (shown_b ++ shown_k ++ [OkEntrySaved; ErrUnexpected])
                      Stop
        else mkResult ss' db' (shown_b ++ shown_k ++ [OkEntrySaved]) Rerun.

Definition render_new_entry_tab (fe : frontend) (ss : session)
           (db : Db.store) : result :=
  let ss := set_form (widget (customer_type ss) (typed_customer_type fe))
                     (widget (payment_mode ss) (typed_payment_mode fe))
                     (widget (customer_name ss) (typed_customer_name fe))
                     ss in
  let b := render_section (typed_b_amt fe) (typed_b_chg fe)
                          (fun key => st_button fe (BtnRemoveB key))
                          (st_button fe BtnAddB)
                          (b_entries ss) (b_counter ss) in
  let ss := set_b (sec_entries b) (sec_counter b) ss in
  if sec_rerun b then mkResult ss db [] Rerun
  else
    let k := render_section (typed_k_amt fe) (typed_k_chg fe)
                            (fun key => st_button fe (BtnRemoveK key))
                            (st_button fe BtnAddK)
                            (k_entries ss) (k_counter ss) in
    let ss := set_k (sec_entries k) (sec_counter k) ss in
    if sec_rerun k then mkResult ss db [] Rerun
    else
      let ss := set_remarks (widget (remarks ss) (typed_remarks fe)) ss in
      if st_button fe BtnSave
      then save_entry fe (sec_amt b) (sec_chg b) (sec_amt k) (sec_chg k) ss db
      else mkResult ss db [] Finished.

(** ** Queries *)

(** [ORDER BY]: an insertion sort of the scanned rows; [before x y] says
    that [x] may precede [y]. SQL fixes the order of the result only up to
    rows that tie, and SQLite returns ties in an order that depends on how
    it scans the table. This function leaves ties in rowid order, which is
    one of the outcomes allowed ([ordered_result] below are all of them):
    what is stated of a listing either does not depend on the order of
    ties or is stated of every allowed outcome. *)
Fixpoint insert_by (A : Type) (before : A -> A -> bool) (x : A) (l : list A)
  : list A :=
  match l with
  | [] => [x]
  | y :: l' => if before x y then x :: l else y :: insert_by before x l'
  end.

Definition order_by (A : Type) (before : A -> A -> bool) (l : list A)
  : list A :=
  fold_right (insert_by before) [] l.

(** [result] is an outcome that [ORDER BY] may give on [rows]: the same
    rows, sorted. *)
Definition ordered_result (A : Type) (before : A -> A -> bool)
           (rows result : list A) : Prop :=
  Permutation rows result /\
  StronglySorted (fun x y => before x y = true) result.

(** [ORDER BY entry_date DESC, id DESC] *)
Definition date_desc_id_desc (x y : Db.row) : bool :=
  match (Db.entry_date y ?= Db.entry_date x)%string with
  | Lt => true
  | Eq => (Db.id y <=? Db.id x)%Z
  | Gt => false
  end.

(** [ORDER BY entry_date DESC, entry_time DESC] *)
Definition date_desc_time_desc (x y : Db.row) : bool :=
  match (Db.entry_date y ?= Db.entry_date x)%string with
  | Lt => true
  | Eq => (Db.entry_time y <=? Db.entry_time x)%string
  | Gt => false
  end.

(** The two WHERE clauses of the reports (lines 609-613). *)
Inductive condition : Type :=
| OnDate (d : string)                 (* entry_date = ? *)
| Between (lo hi : string).           (* entry_date BETWEEN ? AND ? *)

Definition matches (c : condition) (r : Db.row) : bool :=
  match c with
  | OnDate d => (Db.entry_date r =? d)%string
  | Between lo hi =>
      ((lo <=? Db.entry_date r)%string && (Db.entry_date r <=? hi)%string)%bool
  end.

(** Lines 476-483: [SELECT * FROM entries WHERE entry_date BETWEEN ? AND ?
    ORDER BY entry_date DESC, id DESC]. *)
Definition list_by_range (lo hi : string) (db : Db.store) : list Db.row :=
  order_by date_desc_id_desc (filter (matches (Between lo hi)) (Db.rows db)).

(** The columns of the export (lines 658-667). *)
Record export_row : Type := mkExport {
  ex_Date : string;
  ex_Time : string;
  ex_Customer : pystr;
  ex_Type : ctype;
  ex_Mode : pmode;
  ex_B_Amount : float;
  ex_K_Amount : float;
  ex_Charges : float;
  ex_Remarks : pystr
}.

Definition project (r : Db.row) : export_row :=
  {| ex_Date := Db.entry_date r;
     ex_Time := Db.entry_time r;
     ex_Customer := Db.customer_name r;
     ex_Type := Db.customer_type r;
     ex_Mode := Db.payment_mode r;
     ex_B_Amount := Db.b_amount r;
     ex_K_Amount := Db.k_amount r;
     ex_Charges := Db.grand_charges r;
     ex_Remarks := Db.remarks r |}.

(** Lines 657-671: the export query. *)
Definition export_rows (c : condition) (db : Db.store) : list export_row :=
  map project (order_by date_desc_time_desc (filter (matches c) (Db.rows db))).

(** ** The "All Entries" tab (lines 462-585) *)

(** [st.selectbox]: the chosen option, or the first one when nothing valid
    is chosen. *)
Definition selectbox (options : list Z) (first : Z) (choice : option Z) : Z :=
  match choice with
  | Some v => if existsb (Z.eqb v) options then v else first
  | None => first
  end.

(** Lines 528-552: the "Update Entry" branch, with the values of the edit
    widgets. *)
Definition update_entry (eid : Z) (en : pystr) (ct : ctype) (pm : pmode)
           (b_amt b_chg k_amt k_chg : float) (rm : pystr)
           (ss : session) (db : Db.store) : result :=
  if negb (truthy (strip en))
  then mkResult ss db [ErrCustomerNameRequired] Stop
  else mkResult ss
                (Db.update en ct pm b_amt b_chg k_amt k_chg
                           (b_chg + k_chg)%float rm eid db)
                [OkEntryUpdated] Rerun.

(** Lines 554-582: the delete column for the selected entry [eid]. *)
Definition delete_flow (fe : frontend) (eid : Z) (ss : session)
           (db : Db.store) : result :=
  if negb (confirm_delete ss)
  then
    if st_button fe BtnDelete
    then mkResult (set_delete true (Some eid) ss) db [] Rerun
    else mkResult ss db [] Finished
  else
    match delete_id ss with
    | Some d =>
        if (d =? eid)%Z
        then
          if st_button fe BtnYesDelete
          then mkResult (set_delete false None ss) (Db.delete eid db)
                        [WarnAreYouSure; OkEntryDeleted] Rerun
          else if st_button fe BtnCancel
               then mkResult (set_delete false None ss) db
                             [WarnAreYouSure] Rerun
               else mkResult ss db [WarnAreYouSure] Finished
        else mkResult ss db [] Finished
    | None => mkResult ss db [] Finished
    end.

Definition render_all_entries_tab (fe : frontend) (ss : session)
           (db : Db.store) : result :=
  let df_all := list_by_range (start_date fe) (end_date fe) db in
  match df_all with
  | [] => mkResult ss db [] Stop
  | first :: _ =>
      let eid := selectbox (map Db.id df_all) (Db.id first) (selected fe) in
      let row := match find (fun r => (Db.id r =? eid)%Z) df_all with
                 | Some r => r
                 | None => first
                 end in
      let en := widget (Db.customer_name row) (edit_name fe) in
      let ct := widget (Db.customer_type row) (edit_ct fe) in
      let pm := widget (Db.payment_mode row) (edit_pm fe) in
      let b_amt := number_input 0 (Some MAX_AMOUNT) (Db.b_amount row)
                                (edit_ba fe) in
      let b_chg := number_input 0 None (Db.b_charges row) (edit_bc fe) in
      let k_amt := number_input 0 (Some MAX_AMOUNT) (Db.k_amount row)
                                (edit_ka fe) in
      let k_chg := number_input 0 None (Db.k_charges row) (edit_kc fe) in
      let rm := widget (Db.remarks row) (edit_rm fe) in
      if st_button fe BtnUpdate
      then update_entry eid en ct pm b_amt b_chg k_amt k_chg rm ss db
      else delete_flow fe eid ss db
  end.

(** ** One run of the script (lines 167-197)

    The tabs are rendered one after the other and a rerun or a stop ends
    the run. The "Today" and "Summary" tabs only read the table and touch
    no state, so they are left out of [main]; the query behind the export
    of the "Summary" tab is [export_rows]. *)
Definition main (fe : frontend) (ss : session) (db : Db.store) : result :=
  let r := render_new_entry_tab fe ss db in
  match r_control r with
  | Finished =>
      let r' := render_all_entries_tab fe (r_session r) (r_db r) in
      mkResult (r_session r') (r_db r') (r_shown r ++ r_shown r')
               (r_control r')
  | _ => r
  end.

(** A session: the script is run once per front-end event. *)
Fixpoint run (events : list frontend) (ss : session) (db : Db.store)
  : session * Db.store :=
  match events with
  | [] => (ss, db)
  | fe :: rest =>
      let r := main fe ss db in
      run rest (r_session r) (r_db r)
  end.

(** The delete-confirmation state held in [confirm_delete]/[delete_id]. *)
Inductive confirm_state : Type :=
| Idle
| PendingConfirm (eid : option Z).

Definition confirm_state_of (ss : session) : confirm_state :=
  if confirm_delete ss then PendingConfirm (delete_id ss) else Idle.

(** A front end in which nothing is typed and nothing is pressed. *)
Definition quiet (date time lo hi : string) : frontend :=
  {| now_date := date; now_time := time; pressed := None;
     typed_customer_type := None; typed_payment_mode := None;
     typed_customer_name := None; typed_remarks := None;
     typed_b_amt := fun _ => None; typed_b_chg := fun _ => None;
     typed_k_amt := fun _ => None; typed_k_chg := fun _ => None;
     start_date := lo; end_date := hi; selected := None;
     edit_name := None; edit_ct := None; edit_pm := None;
     edit_ba := None; edit_bc := None; edit_ka := None; edit_kc := None;
     edit_rm := None |}.

(** The same front end with the button [b] pressed. *)
Definition press (b : button) (fe : frontend) : frontend :=
  {| now_date := now_date fe; now_time := now_time fe; pressed := Some b;
     typed_customer_type := typed_customer_type fe;
     typed_payment_mode := typed_payment_mode fe;
     typed_customer_name := typed_customer_name fe;
     typed_remarks := typed_remarks fe;
     typed_b_amt := typed_b_amt fe; typed_b_chg := typed_b_chg fe;
     typed_k_amt := typed_k_amt fe; typed_k_chg := typed_k_chg fe;
     start_date := start_date fe; end_date := end_date fe;
     selected := selected fe;
     edit_name := edit_name fe; edit_ct := edit_ct fe; edit_pm := edit_pm fe;
     edit_ba := edit_ba fe; edit_bc := edit_bc fe; edit_ka := edit_ka fe;
     edit_kc := edit_kc fe; edit_rm := edit_rm fe |}.

(** The same front end with no button pressed. *)
Definition release (fe : frontend) : frontend :=
  {| now_date := now_date fe; now_time := now_time fe; pressed := None;
     typed_customer_type := typed_customer_type fe;
     typed_payment_mode := typed_payment_mode fe;
     typed_customer_name := typed_customer_name fe;
     typed_remarks := typed_remarks fe;
     typed_b_amt := typed_b_amt fe; typed_b_chg := typed_b_chg fe;
     typed_k_amt := typed_k_amt fe; typed_k_chg := typed_k_chg fe;
     start_date := start_date fe; end_date := end_date fe;
     selected := selected fe;
     edit_name := edit_name fe; edit_ct := edit_ct fe; edit_pm := edit_pm fe;
     edit_ba := edit_ba fe; edit_bc := edit_bc fe; edit_ka := edit_ka fe;
     edit_kc := edit_kc fe; edit_rm := edit_rm fe |}.

(** The float sum of a list in list order, as [total += x] computes it. *)
Definition total (xs : list float) : float := fold_left PrimFloat.add xs 0%float.

(** ** Predicates and sample data of the properties *)

Definition two_lines : list line :=
  [mkLine 100 1 (Some 1%Z); mkLine 300 3 (Some 2%Z)].

(** Customer names. *)
Definition name_A : pystr := text "Asha".

(** A form with the given deposit lines, one empty withdrawal line and a
    customer name. *)
Definition form_with (name : pystr) (b : list line) : session :=
  {| customer_name := name; customer_type := Office; payment_mode := Cash;
     remarks := [];
     b_entries := b; k_entries := [mkLine 0 0 (Some 0%Z)];
     confirm_delete := false; delete_id := None;
     b_counter := 10; k_counter := 1 |}.

Definition today : frontend :=
  quiet "2024-01-01" "10:00:00" "2024-01-01" "2024-01-31".

Definition lines_1000001 : list line :=
  [mkLine 1000000 0 (Some 1%Z); mkLine 1 0 (Some 2%Z)].

Definition lines_1000000 : list line :=
  [mkLine 1000000 0 (Some 1%Z)].


(** A store with one entry, id 1. *)
Definition db_one : Db.store :=
  Db.insert "2024-01-01" "10:00:00" Office name_A Cash 500 10 0 0 10 []
            Db.empty.

Definition spaced_name : pystr := text "  Asha ".

(** The user selects an entry in the "All Entries" tab and edits its name
    or its deposit charges. *)
Definition select_and_edit (choice : option Z) (name : option pystr)
           (b_chg : option float) (fe : frontend) : frontend :=
  {| now_date := now_date fe; now_time := now_time fe; pressed := pressed fe;
     typed_customer_type := typed_customer_type fe;
     typed_payment_mode := typed_payment_mode fe;
     typed_customer_name := typed_customer_name fe;
     typed_remarks := typed_remarks fe;
     typed_b_amt := typed_b_amt fe; typed_b_chg := typed_b_chg fe;
     typed_k_amt := typed_k_amt fe; typed_k_chg := typed_k_chg fe;
     start_date := start_date fe; end_date := end_date fe;
     selected := choice;
     edit_name := name; edit_ct := edit_ct fe; edit_pm := edit_pm fe;
     edit_ba := edit_ba fe; edit_bc := b_chg; edit_ka := edit_ka fe;
     edit_kc := edit_kc fe; edit_rm := edit_rm fe |}.

(** The ids carried by the lines of a collection. *)
Definition ids_of (entries : list line) : list Z :=
  flat_map (fun o => match o with Some k => [k] | None => [] end)
           (map line_id entries).

(** A collection in good order: not empty, ids pairwise distinct and all
    below the counter. *)
Definition collection_ok (entries : list line) (counter : Z) : Prop :=
  entries <> [] /\
  NoDup (ids_of entries) /\
  Forall (fun k => (k < counter)%Z) (ids_of entries).

Definition session_ok (ss : session) : Prop :=
  collection_ok (b_entries ss) (b_counter ss) /\
  collection_ok (k_entries ss) (k_counter ss).

(** At most one "remove" button is down in a run. *)
Definition one_key (remove_pressed : Z -> bool) : Prop :=
  forall k1 k2,
    remove_pressed k1 = true -> remove_pressed k2 = true -> k1 = k2.

Definition nothing_typed : Z -> option float := fun _ => None.
Definition not_pressed : Z -> bool := fun _ => false.

(** From ([entries], [counter]) to ([entries'], [counter']) the counter did
    not step back and every id is either kept or new, taken at or above
    the old counter. *)
Definition grows (entries : list line) (counter : Z)
           (entries' : list line) (counter' : Z) : Prop :=
  (counter <= counter')%Z /\
  forall k, In k (ids_of entries') ->
            In k (ids_of entries) \/ (counter <= k < counter')%Z.

(** The user types a customer name in the "New Entry" tab. *)
Definition type_customer_name (name : pystr) (fe : frontend) : frontend :=
  {| now_date := now_date fe; now_time := now_time fe; pressed := pressed fe;
     typed_customer_type := typed_customer_type fe;
     typed_payment_mode := typed_payment_mode fe;
     typed_customer_name := Some name;
     typed_remarks := typed_remarks fe;
     typed_b_amt := typed_b_amt fe; typed_b_chg := typed_b_chg fe;
     typed_k_amt := typed_k_amt fe; typed_k_chg := typed_k_chg fe;
     start_date := start_date fe; end_date := end_date fe;
     selected := selected fe;
     edit_name := edit_name fe; edit_ct := edit_ct fe; edit_pm := edit_pm fe;
     edit_ba := edit_ba fe; edit_bc := edit_bc fe; edit_ka := edit_ka fe;
     edit_kc := edit_kc fe; edit_rm := edit_rm fe |}.

(** A session: the form is shown, a deposit line is added and the entry
    is saved. Each press is followed by a further run. *)
Definition add_a_line : list frontend :=
  [today; press BtnAddB today; today].

Definition add_and_save : list frontend :=
  add_a_line ++ [press BtnSave (type_customer_name name_A today); today].

(** A store with two entries, ids 1 and 2. *)
Definition db_two : Db.store :=
  Db.insert "2024-01-02" "11:00:00" Others name_A UPI 300 3 0 0 3 [] db_one.

(** The user selects an entry in the "All Entries" tab. *)
Definition select (choice : Z) (fe : frontend) : frontend :=
  select_and_edit (Some choice) None None fe.

(** Delete is requested for entry 1; then entry 2 is selected. *)
Definition request_delete_1 : list frontend :=
  [press BtnDelete (select 1 today); select 1 today].

Definition then_select_2 : list frontend :=
  request_delete_1 ++ [select 2 today].

Definition then_press_delete_on_2 : list frontend :=
  then_select_2 ++ [press BtnDelete (select 2 today)].

Definition name_B : pystr := text "Bala".

(** Two entries saved on a night when the wall clock is set back an hour
    (01:59:50, then 01:00:10 of the same date). *)
Definition night (time : string) : frontend :=
  quiet "2024-11-03" time "2024-11-01" "2024-11-30".

Definition saves_across_clock_change : list frontend :=
  [press BtnSave (type_customer_name name_A (night "01:59:50"));
   night "01:59:51";
   press BtnSave (type_customer_name name_B (night "01:00:10"));
   night "01:00:11"].

Definition db_night : Db.store :=
  snd (run saves_across_clock_change initial_session Db.empty).

(** Within one date, entries with larger ids have later times. *)
Definition times_follow_ids (db : Db.store) : Prop :=
  forall x y,
    In x (Db.rows db) -> In y (Db.rows db) ->
    Db.entry_date x = Db.entry_date y ->
    (Db.id x < Db.id y)%Z ->
    (Db.entry_time x <? Db.entry_time y)%string = true.

(** A session in which the deletion of entry 1 awaits confirmation. *)
Definition pending_1 : session := set_delete true (Some 1%Z) initial_session.

(** A store with two entries of the same date, the second one later. *)
Definition db_day : Db.store :=
  Db.insert "2024-01-01" "11:00:00" Others name_A UPI 300 3 0 0 3 [] db_one.

(** ** The "Today's Entries" tab (lines 417-459) *)

(** [ORDER BY id DESC] *)
Definition id_desc (x y : Db.row) : bool := (Db.id y <=? Db.id x)%Z.

(** The rows of lines 425-438, before the projection:
    [WHERE entry_date=? ORDER BY id DESC]. *)
Definition rows_of_date (today : string) (db : Db.store) : list Db.row :=
  order_by id_desc (filter (matches (OnDate today)) (Db.rows db)).

(** The columns shown (lines 427-434). *)
Record today_row : Type := mkToday {
  td_Time : string;
  td_Customer : pystr;
  td_Type : ctype;
  td_Mode : pmode;
  td_B_Amount : float;
  td_K_Amount : float;
  td_Charges : float;
  td_Remarks : pystr
}.

Definition project_today (r : Db.row) : today_row :=
  {| td_Time := Db.entry_time r;
     td_Customer := Db.customer_name r;
     td_Type := Db.customer_type r;
     td_Mode := Db.payment_mode r;
     td_B_Amount := Db.b_amount r;
     td_K_Amount := Db.k_amount r;
     td_Charges := Db.grand_charges r;
     td_Remarks := Db.remarks r |}.

Definition today_entries (today : string) (db : Db.store) : list today_row :=
  map project_today (rows_of_date today db).

(** ** The "Summary & Export" tab (lines 587-726)

    The counts, the groups and the export are embedded; the SQL sums of the
    amounts are not. *)

Inductive report_type : Type := Daily | DateRange.

(** Lines 600-613: the WHERE clause chosen by the report type. *)
Definition query_condition (kind : report_type)
           (report_date from_date to_date : string) : condition :=
  match kind with
  | DateRange => Between from_date to_date
  | Daily => OnDate report_date
  end.

(** [COUNT( * )] of the summary (line 620). *)
Definition summary_count (c : condition) (db : Db.store) : nat :=
  List.length (filter (matches c) (Db.rows db)).

Definition pmode_eqb (x y : pmode) : bool :=
  match x, y with
  | Cash, Cash | UPI, UPI => true
  | _, _ => false
  end.

(** Lines 639-647: [GROUP BY payment_mode] with [COUNT( * )]; a mode without
    entries has no group. *)
Definition breakdown (c : condition) (db : Db.store) : list (pmode * nat) :=
  flat_map
    (fun pm =>
       let n := List.length
                  (filter (fun r => (matches c r &&
                                     pmode_eqb (Db.payment_mode r) pm)%bool)
                          (Db.rows db)) in
       match n with
       | O => []
       | S _ => [(pm, n)]
       end)
    [Cash; UPI].

(** ** The PDF report (lines 64-107)

    The canvas is the list of the drawing calls made on it. The page size
    A4 comes from the PDF library and is a parameter. *)

Definition PDF_LEFT_MARGIN : Z := 40.
Definition PDF_TOP_MARGIN : float := 40%float.
Definition PDF_BOTTOM_MARGIN : float := 50%float.
Definition PDF_HEADER_POSITIONS : list Z := [40; 110; 230; 300; 360; 430]%Z.

(** What a [drawString] writes. *)
Inductive cell : Type :=
| Title (report_date : string)      (* f"Store Daily Report - {report_date}" *)
| Header (h : string)
| CellTime (t : string)             (* str(r["Time"]) *)
| CellCustomer (name : pystr)       (* str(r["Customer"])[:15] *)
| CellMode (m : pmode)              (* str(r["Mode"]) *)
| CellMoney (v : float).            (* f"{v:.2f}" *)

Inductive canvas_op : Type :=
| SetFont (name : string) (size : Z)
| DrawString (x : Z) (y : float) (c : cell)
| DrawLine (x1 : Z) (y1 : float) (x2 : float) (y2 : float)
| ShowPage
| Save.

Definition headers : list string :=
  ["Time"; "Customer"; "Mode"; "B Amt"; "K Amt"; "Charges"]%string.

(** [PDF_HEADER_POSITIONS[i]] *)
Definition header_position (i : nat) : Z := nth i PDF_HEADER_POSITIONS 0%Z.

(** Lines 80-81: [for i, h in enumerate(headers)]. *)
Fixpoint draw_headers (i : nat) (hs : list string) (y : float)
  : list canvas_op :=
  match hs with
  | [] => []
  | h :: rest =>
      DrawString (header_position i) y (Header h) :: draw_headers (S i) rest y
  end.

(** Lines 94-99: the six cells of one row. *)
Definition row_cells (r : export_row) : list cell :=
  [CellTime (ex_Time r);
   CellCustomer (firstn 15 (ex_Customer r));
   CellMode (ex_Mode r);
   CellMoney (ex_B_Amount r);
   CellMoney (ex_K_Amount r);
   CellMoney (ex_Charges r)].

Fixpoint draw_cells (i : nat) (cs : list cell) (y : float) : list canvas_op :=
  match cs with
  | [] => []
  | c :: rest => DrawString (header_position i) y c :: draw_cells (S i) rest y
  end.

(** Lines 87-100: the loop over the rows, with the cursor [y]. *)
Fixpoint draw_rows (height : float) (rows : list export_row) (y : float)
  : list canvas_op :=
  match rows with
  | [] => []
  | r :: rest =>
      if (y <? PDF_BOTTOM_MARGIN)%float
      then
        let y' := (height - PDF_TOP_MARGIN)%float in
        ShowPage :: SetFont "Helvetica" 9
                 :: draw_cells 0 (row_cells r) y'
                 ++ draw_rows height rest (y' - 14)%float
      else
        draw_cells 0 (row_cells r) y ++ draw_rows height rest (y - 14)%float
  end.

Definition generate_pdf (width height : float) (df : list export_row)
           (report_date : string) : list canvas_op :=
  let y0 := (height - PDF_TOP_MARGIN)%float in
  let y1 := (y0 - 30)%float in
  let y2 := (y1 - 15)%float in
  let y3 := (y2 - 15)%float in
  [SetFont "Helvetica-Bold" 14;
   DrawString PDF_LEFT_MARGIN y0 (Title report_date);
   SetFont "Helvetica" 9]
  ++ draw_headers 0 headers y1
  ++ [DrawLine PDF_LEFT_MARGIN y2 (width - 40)%float y2]
  ++ draw_rows height df y3
  ++ [Save].

(** What was written, in drawing order. *)
Definition cells_drawn (ops : list canvas_op) : list cell :=
  flat_map (fun op => match op with
                      | DrawString _ _ c => [c]
                      | _ => []
                      end) ops.

(** The heights at which the cells of the rows were written. *)
Definition row_heights (ops : list canvas_op) : list float :=
  flat_map (fun op => match op with
                      | DrawString _ y (CellTime _ | CellCustomer _
                                        | CellMode _ | CellMoney _) => [y]
                      | _ => []
                      end) ops.

Definition pages (ops : list canvas_op) : nat :=
  S (List.length (filter (fun op => match op with
                                    | ShowPage => true
                                    | _ => false
                                    end) ops)).

(** ** Further predicates of the properties *)

(** The check the number input makes on a typed value. *)
Definition in_bounds (lo hi v : float) : bool :=
  ((lo <=? v)%float && (v <=? hi)%float)%bool.

Definition line_in_bounds (e : line) : bool :=
  (in_bounds 0 MAX_AMOUNT (amount e) &&
   in_bounds 0 MAX_CHARGE_PERCENTAGE (charge_pct e))%bool.

(** The lines that do not carry the id [k]. *)
Definition keeps (k : Z) (e : line) : bool :=
  match line_id e with
  | Some k' => negb (k' =? k)%Z
  | None => true
  end.

(** Every row keeps [grand_charges = b_charges + k_charges]. *)
Definition charges_add_up (db : Db.store) : Prop :=
  forall r, In r (Db.rows db) ->
            Db.grand_charges r = (Db.b_charges r + Db.k_charges r)%float.

(** The first row with the given id. *)
Definition lookup (eid : Z) (db : Db.store) : option Db.row :=
  find (fun r => (Db.id r =? eid)%Z) (Db.rows db).


(** The row a save appends (lines 394-403). *)
Definition saved_row (fe : frontend) (ss : session)
           (b_amt b_chg k_amt k_chg : float) (db : Db.store) : Db.row :=
  Db.mkRow (Db.seq db + 1) (now_date fe) (now_time fe) (customer_type ss)
           (strip (customer_name ss)) (payment_mode ss)
           b_amt b_chg k_amt k_chg (b_chg + k_chg)%float
           (strip (remarks ss)).

(** A report of one row whose customer name has 21 characters. *)
Definition long_name : pystr := text "Ramachandra Deshpande".

Definition report_of_one : list export_row :=
  [mkExport "2024-01-01" "10:00:00" long_name Office Cash 500 0 10 []].

(** What the widgets of a line show when only the line with id [k] was
    typed into. *)
Definition retyped (typed_amt typed_chg : Z -> option float) (k : Z)
           (e : line) : line :=
  if keeps k e then e
  else {| amount := number_input 0 (Some MAX_AMOUNT) (amount e) (typed_amt k);
          charge_pct := number_input 0 (Some MAX_CHARGE_PERCENTAGE)
                                     (charge_pct e) (typed_chg k);
          line_id := line_id e |}.

(** Every entry has a customer name that is not blank. *)
Definition names_not_blank (db : Db.store) : Prop :=
  forall r, In r (Db.rows db) -> truthy (strip (Db.customer_name r)) = true.

(** The edit widgets of the "All Entries" tab show the values of [row],
    whether they hold them or have no state and take them as defaults. *)
Definition edit_form_shows (row : Db.row) (fe : frontend) : Prop :=
  widget (Db.customer_name row) (edit_name fe) = Db.customer_name row /\
  widget (Db.customer_type row) (edit_ct fe) = Db.customer_type row /\
  widget (Db.payment_mode row) (edit_pm fe) = Db.payment_mode row /\
  number_input 0 (Some MAX_AMOUNT) (Db.b_amount row) (edit_ba fe)
  = Db.b_amount row /\
  number_input 0 None (Db.b_charges row) (edit_bc fe) = Db.b_charges row /\
  number_input 0 (Some MAX_AMOUNT) (Db.k_amount row) (edit_ka fe)
  = Db.k_amount row /\
  number_input 0 None (Db.k_charges row) (edit_kc fe) = Db.k_charges row /\
  widget (Db.remarks row) (edit_rm fe) = Db.remarks row.

(** The edit widgets hold the values of [row]. *)
Definition holding (row : Db.row) (fe : frontend) : frontend :=
  {| now_date := now_date fe; now_time := now_time fe; pressed := pressed fe;
     typed_customer_type := typed_customer_type fe;
     typed_payment_mode := typed_payment_mode fe;
     typed_customer_name := typed_customer_name fe;
     typed_remarks := typed_remarks fe;
     typed_b_amt := typed_b_amt fe; typed_b_chg := typed_b_chg fe;
     typed_k_amt := typed_k_amt fe; typed_k_chg := typed_k_chg fe;
     start_date := start_date fe; end_date := end_date fe;
     selected := selected fe;
     edit_name := Some (Db.customer_name row);
     edit_ct := Some (Db.customer_type row);
     edit_pm := Some (Db.payment_mode row);
     edit_ba := Some (Db.b_amount row); edit_bc := Some (Db.b_charges row);
     edit_ka := Some (Db.k_amount row); edit_kc := Some (Db.k_charges row);
     edit_rm := Some (Db.remarks row) |}.

(** The first entry of [db_two]. *)
Definition entry_1 : Db.row :=
  Db.mkRow 1 "2024-01-01" "10:00:00" Office name_A Cash 500 10 0 0 10 [].

(** ** Properties *)

Unset Implicit Arguments.

(** *** Line totals *)

Lemma render_lines_totals :
  forall typed_amt typed_chg remove_pressed len entries i amt chg
         entries' to_remove amt' chg',
    render_lines typed_amt typed_chg remove_pressed len i entries amt chg
    = (entries', to_remove, amt', chg') ->
    amt' = fold_left PrimFloat.add (map amount entries') amt /\
    chg' = fold_left PrimFloat.add (map charge entries') chg.
Proof.
  induction entries as [|e rest IH]; intros i amt chg entries' rm amt' chg' H.
  - cbn in H. inversion H; subst. split; reflexivity.
  - cbn [render_lines] in H.
    destruct (render_lines typed_amt typed_chg remove_pressed len (S i) rest
                (amt + amount (read_line typed_amt typed_chg e i))%float
                (chg + charge (read_line typed_amt typed_chg e i))%float)
      as [[[rest' rm'] a'] c'] eqn:E.
    inversion H; subst; clear H.
    apply IH in E. destruct E as [Ha Hc]. split; cbn; assumption.
Qed.

Lemma remove_marked_nil : forall entries, remove_marked [] entries = entries.
Proof. reflexivity. Qed.

(** C1. The charge of a line is amount * charge_pct / 100, and whenever a
    block of the form shows its totals (no rerun), the total amount and the
    total charges are the sums, taken line by line, of the amounts and of
    the charges of its lines; on the lines (100, 1%) and (300, 3%) this is
    10 and not the 8 that 400 at the average 2% would give. *)
Theorem totals_are_sums_of_lines :
  (forall e, charge e = (amount e * charge_pct e / 100)%float) /\
  (forall typed_amt typed_chg remove_pressed add_pressed entries counter,
      let s := render_section typed_amt typed_chg remove_pressed add_pressed
                              entries counter in
      sec_rerun s = false ->
      sec_amt s = total (map amount (sec_entries s)) /\
      sec_chg s = total (map charge (sec_entries s))) /\
  (let s := render_section (fun _ => None) (fun _ => None) (fun _ => false)
                           false two_lines 3 in
   sec_amt s = 400%float /\ sec_chg s = 10%float /\
   (sec_amt s * ((1 + 3) / 2) / 100)%float = 8%float).
Proof.
  split; [reflexivity|]. split.
  - intros typed_amt typed_chg remove_pressed add_pressed entries counter.
    unfold render_section.
    destruct (assign_ids entries counter) as [entries1 counter1].
    destruct (render_lines typed_amt typed_chg remove_pressed
                (List.length entries1) 0 entries1 0 0)
      as [[[entries2 rm] amt] chg] eqn:E.
    apply render_lines_totals in E. destruct E as [Ha Hc].
    destruct rm as [|j rm]; cbn.
    + destruct add_pressed; cbn; [discriminate|].
      intros _. split; assumption.
    + discriminate.
  - vm_compute. repeat split.
Qed.

Lemma totals_are_sums_of_lines_witness :
  let s := render_section (fun _ => None) (fun _ => None) (fun _ => false)
                          false two_lines 3 in
  sec_rerun s = false /\
  sec_amt s = total (map amount (sec_entries s)) /\
  sec_chg s = total (map charge (sec_entries s)).
Proof.
  split; [reflexivity|].
  apply (proj1 (proj2 totals_are_sums_of_lines)). reflexivity.
Defined.

(** *** Pressing a button that is not a line button *)

Lemma render_lines_not_pressed :
  forall typed_amt typed_chg remove_pressed len entries i amt chg,
    (forall key, remove_pressed key = false) ->
    snd (fst (fst (render_lines typed_amt typed_chg remove_pressed len
                                i entries amt chg))) = [].
Proof.
  induction entries as [|e rest IH]; intros i amt chg Hno; cbn.
  - reflexivity.
  - specialize (IH (S i)
                   (amt + amount (read_line typed_amt typed_chg e i))%float
                   (chg + charge (read_line typed_amt typed_chg e i))%float
                   Hno).
    destruct (render_lines typed_amt typed_chg remove_pressed len (S i) rest _ _)
      as [[[rest' rm] a'] c'].
    cbn in *. rewrite Hno, andb_false_r. assumption.
Qed.

Lemma render_section_not_pressed :
  forall typed_amt typed_chg remove_pressed entries counter,
    (forall key, remove_pressed key = false) ->
    sec_rerun (render_section typed_amt typed_chg remove_pressed false
                              entries counter) = false.
Proof.
  intros typed_amt typed_chg remove_pressed entries counter Hno.
  unfold render_section.
  destruct (assign_ids entries counter) as [entries1 counter1].
  pose proof (render_lines_not_pressed typed_amt typed_chg remove_pressed
                (List.length entries1) entries1 0 0 0 Hno) as H.
  destruct (render_lines typed_amt typed_chg remove_pressed
              (List.length entries1) 0 entries1 0 0)
    as [[[entries2 rm] amt] chg].
  cbn in H. subst rm. reflexivity.
Qed.

(** With "Save Entry" pressed, the tab reaches [save_entry] with the totals
    of the two blocks. *)
Lemma save_pressed_reaches_save_entry :
  forall fe ss db,
    pressed fe = Some BtnSave ->
    exists b_amt b_chg k_amt k_chg ss',
      customer_name ss' = widget (customer_name ss) (typed_customer_name fe) /\
      render_new_entry_tab fe ss db
      = save_entry fe b_amt b_chg k_amt k_chg ss' db.
Proof.
  intros fe ss db Hp.
  unfold render_new_entry_tab, st_button. rewrite Hp. cbn [button_eqb].
  rewrite render_section_not_pressed by reflexivity.
  cbn [set_b b_entries k_entries b_counter k_counter set_form].
  rewrite render_section_not_pressed by reflexivity.
  do 5 eexists. split; [|reflexivity]. reflexivity.
Qed.

(** C3. Saving a new entry whose customer name is empty once trimmed shows
    the "name is required" error (a MissingField), stops the run and leaves
    the store as it was. *)
Theorem create_blank_name_is_rejected :
  forall fe ss db,
    pressed fe = Some BtnSave ->
    strip (widget (customer_name ss) (typed_customer_name fe)) = [] ->
    let r := render_new_entry_tab fe ss db in
    r_db r = db /\
    r_shown r = [ErrCustomerNameRequired] /\
    kind_of ErrCustomerNameRequired = Some MissingField /\
    r_control r = Stop.
Proof.
  intros fe ss db Hp Hblank.
  destruct (save_pressed_reaches_save_entry fe ss db Hp)
    as (b_amt & b_chg & k_amt & k_chg & ss' & Hname & Heq).
  cbv zeta. rewrite Heq. unfold save_entry. rewrite Hname, Hblank. cbn.
  repeat split.
Qed.

Lemma create_blank_name_is_rejected_witness :
  let fe := press BtnSave today in
  let ss := form_with (text "   ") two_lines in
  let r := render_new_entry_tab fe ss Db.empty in
  pressed fe = Some BtnSave /\
  strip (widget (customer_name ss) (typed_customer_name fe)) = [] /\
  r_db r = Db.empty /\ r_shown r = [ErrCustomerNameRequired] /\
  kind_of ErrCustomerNameRequired = Some MissingField /\ r_control r = Stop.
Proof.
  split; [reflexivity|]. split; [reflexivity|].
  apply (create_blank_name_is_rejected (press BtnSave today)
           (form_with (text "   ") two_lines) Db.empty); reflexivity.
Defined.

(** *** The amount bound *)

(** C4. The amount bound is inclusive at MAX_AMOUNT = 1,000,000: an amount
    below 0 or above the bound is refused with an OutOfRange message;
    saving an entry whose deposit total, or whose withdrawal total, is
    1,000,001 stops with that message and writes nothing, while with a
    total of exactly 1,000,000 the row is inserted. *)
Theorem amount_bound_is_inclusive :
  MAX_AMOUNT = 1000000%float /\
  (forall v f, (v <? 0)%float = true ->
               validate_amount v f = (false, [ErrCannotBeNegative f]) /\
               kind_of (ErrCannotBeNegative f) = Some OutOfRange) /\
  (forall v f, (v <? 0)%float = false -> (MAX_AMOUNT <? v)%float = true ->
               validate_amount v f = (false, [ErrExceedsMaximumAllowed f]) /\
               kind_of (ErrExceedsMaximumAllowed f) = Some OutOfRange) /\
  (forall f, validate_amount 1000001 f = (false, [ErrExceedsMaximumAllowed f])) /\
  (forall f, validate_amount 1000000 f = (true, [])) /\
  (forall fe b_chg k_amt k_chg ss db,
      truthy (strip (customer_name ss)) = true ->
      save_entry fe 1000001 b_chg k_amt k_chg ss db
      = mkResult ss db [ErrExceedsMaximumAllowed "Total B Amount"] Stop) /\
  (forall fe b_amt b_chg k_chg ss db,
      truthy (strip (customer_name ss)) = true ->
      fst (validate_amount b_amt "Total B Amount") = true ->
      save_entry fe b_amt b_chg 1000001 k_chg ss db
      = mkResult ss db [ErrExceedsMaximumAllowed "Total K Amount"] Stop) /\
  (forall fe b_chg k_amt k_chg ss db,
      truthy (strip (customer_name ss)) = true ->
      fst (validate_amount k_amt "Total K Amount") = true ->
      r_db (save_entry fe 1000000 b_chg k_amt k_chg ss db)
      = Db.insert (now_date fe) (now_time fe) (customer_type ss)
                  (strip (customer_name ss)) (payment_mode ss)
                  1000000 b_chg k_amt k_chg (b_chg + k_chg)%float
                  (strip (remarks ss)) db) /\
  (forall fe b_amt b_chg k_chg ss db,
      truthy (strip (customer_name ss)) = true ->
      fst (validate_amount b_amt "Total B Amount") = true ->
      r_db (save_entry fe b_amt b_chg 1000000 k_chg ss db)
      = Db.insert (now_date fe) (now_time fe) (customer_type ss)
                  (strip (customer_name ss)) (payment_mode ss)
                  b_amt b_chg 1000000 k_chg (b_chg + k_chg)%float
                  (strip (remarks ss)) db) /\
  (let r := render_new_entry_tab (press BtnSave today)
                                 (form_with name_A lines_1000001) Db.empty in
   r_db r = Db.empty /\ r_control r = Stop /\
   r_shown r = [ErrExceedsMaximumAllowed "Total B Amount"]) /\
  (let r := render_new_entry_tab (press BtnSave today)
                                 (form_with name_A lines_1000000) Db.empty in
   map Db.b_amount (Db.rows (r_db r)) = [1000000%float]).
Proof.
  split; [reflexivity|].
  split; [intros v f H; unfold validate_amount; rewrite H; split; reflexivity|].
  split; [intros v f H0 H1; unfold validate_amount; rewrite H0, H1;
          split; reflexivity|].
  split; [reflexivity|]. split; [reflexivity|].
  split.
  { intros fe b_chg k_amt k_chg ss db Hname. unfold save_entry.
    rewrite Hname. reflexivity. }
  split.
  { intros fe b_amt b_chg k_chg ss db Hname Hb. unfold save_entry.
    rewrite Hname. cbn [negb].
    unfold validate_amount in Hb |- * at 1.
    destruct (b_amt <? 0)%float; [discriminate|].
    destruct (MAX_AMOUNT <? b_amt)%float; [discriminate|]. reflexivity. }
  split.
  { intros fe b_chg k_amt k_chg ss db Hname Hk. unfold save_entry.
    rewrite Hname. cbn [negb].
    change (validate_amount 1000000 "Total B Amount") with (true, @nil message).
    cbv iota beta. cbn [negb].
    unfold validate_amount in *.
    destruct (k_amt <? 0)%float; [discriminate|].
    destruct (MAX_AMOUNT <? k_amt)%float; [discriminate|]. reflexivity. }
  split.
  { intros fe b_amt b_chg k_chg ss db Hname Hb. unfold save_entry.
    rewrite Hname. cbn [negb].
    unfold validate_amount in Hb |- * at 1.
    destruct (b_amt <? 0)%float; [discriminate|].
    destruct (MAX_AMOUNT <? b_amt)%float; [discriminate|]. reflexivity. }
  split; vm_compute; repeat split.
Qed.

Lemma amount_bound_is_inclusive_witness :
  ((-1 <? 0)%float = true /\
   validate_amount (-1) "Amount" = (false, [ErrCannotBeNegative "Amount"])) /\
  ((2000000 <? 0)%float = false /\ (MAX_AMOUNT <? 2000000)%float = true /\
   validate_amount 2000000 "Amount"
   = (false, [ErrExceedsMaximumAllowed "Amount"])) /\
  (truthy (strip (customer_name (form_with name_A lines_1000001))) = true /\
   r_db (save_entry today 1000001 0 0 0 (form_with name_A lines_1000001)
                    Db.empty) = Db.empty) /\
  (fst (validate_amount 0 "Total B Amount") = true /\
   r_db (save_entry today 0 0 1000001 0 (form_with name_A lines_1000001)
                    Db.empty) = Db.empty) /\
  (truthy (strip (customer_name (form_with name_A lines_1000000))) = true /\
   fst (validate_amount 0 "Total K Amount") = true /\
   map Db.b_amount
       (Db.rows (r_db (save_entry today 1000000 0 0 0
                                  (form_with name_A lines_1000000) Db.empty)))
   = [1000000%float]) /\
  (map Db.k_amount
       (Db.rows (r_db (save_entry today 0 0 1000000 0
                                  (form_with name_A lines_1000000) Db.empty)))
   = [1000000%float]).
Proof.
  destruct amount_bound_is_inclusive
    as (_ & Hneg & Hmax & _ & _ & Hfail_b & Hfail_k & Hok_b & Hok_k & _).
  split; [split; [reflexivity|apply Hneg; reflexivity]|].
  split; [split; [reflexivity|split; [reflexivity|
            apply Hmax; reflexivity]]|].
  split; [split; [reflexivity|rewrite Hfail_b; reflexivity]|].
  split; [split; [reflexivity|rewrite Hfail_k; reflexivity]|].
  split.
  - split; [reflexivity|]. split; [reflexivity|].
    rewrite Hok_b; reflexivity.
  - rewrite Hok_k; reflexivity.
Defined.

(** *** Validators and the guards of the write paths *)


Lemma new_entry_tab_writes_through_save :
  forall fe ss db,
    let r := render_new_entry_tab fe ss db in
    r_db r = db \/
    exists b_amt b_chg k_amt k_chg ss',
      r = save_entry fe b_amt b_chg k_amt k_chg ss' db.
Proof.
  intros fe ss db. cbv zeta. unfold render_new_entry_tab.
  destruct (sec_rerun (render_section (typed_b_amt fe) _ _ _ _ _));
    [left; reflexivity|].
  destruct (sec_rerun (render_section (typed_k_amt fe) _ _ _ _ _));
    [left; reflexivity|].
  destruct (st_button fe BtnSave); [right|left; reflexivity].
  do 5 eexists. reflexivity.
Qed.



(** *** Updating an entry that is not in the table *)

Lemma update_absent_is_identity :
  forall en ct pm b_amt b_chg k_amt k_chg total rm eid db,
    ~ In eid (Db.ids db) ->
    Db.update en ct pm b_amt b_chg k_amt k_chg total rm eid db = db.
Proof.
  intros en ct pm b_amt b_chg k_amt k_chg tot rm eid [rows seq].
  unfold Db.update, Db.ids. cbn. intros Hnotin. f_equal.
  induction rows as [|r rows IH]; cbn in *; [reflexivity|].
  destruct (Z.eqb_spec (Db.id r) eid) as [E|E].
  - exfalso. apply Hnotin. left. exact E.
  - f_equal. apply IH. intro H. apply Hnotin. right. exact H.
Qed.

(** C5 (counterexample). Updating the entry with id 1 after it was deleted
    reports success. *)
Lemma update_of_deleted_id_reports_success :
  let db := Db.delete 1 db_one in
  Db.ids db_one = [1%Z] /\ ~ In 1%Z (Db.ids db) /\
  update_entry 1 name_A Office Cash 500 10 0 0 [] initial_session db
  = mkResult initial_session db [OkEntryUpdated] Rerun.
Proof.
  cbv zeta. split; [reflexivity|]. split; [|reflexivity].
  vm_compute. intros [].
Qed.

(** C5 (amended). Updating an id that is absent from the table changes no
    row and shows the success message: the UPDATE matches nothing and no
    error is reported. *)
Theorem update_of_absent_id_is_silent :
  forall eid en ct pm b_amt b_chg k_amt k_chg rm ss db,
    ~ In eid (Db.ids db) ->
    truthy (strip en) = true ->
    update_entry eid en ct pm b_amt b_chg k_amt k_chg rm ss db
    = mkResult ss db [OkEntryUpdated] Rerun.
Proof.
  intros eid en ct pm b_amt b_chg k_amt k_chg rm ss db Habsent Hname.
  unfold update_entry. rewrite Hname. cbn [negb].
  rewrite update_absent_is_identity by assumption. reflexivity.
Qed.

Lemma update_of_absent_id_is_silent_witness :
  ~ In 7%Z (Db.ids db_one) /\
  truthy (strip name_A) = true /\
  update_entry 7 name_A Others UPI 1 2 3 4 [] initial_session db_one
  = mkResult initial_session db_one [OkEntryUpdated] Rerun.
Proof.
  assert (Habsent : ~ In 7%Z (Db.ids db_one)).
  { vm_compute. intros [H|[]]. discriminate H. }
  split; [exact Habsent|]. split; [reflexivity|].
  apply (update_of_absent_id_is_silent 7 name_A Others UPI 1 2 3 4 []
           initial_session db_one Habsent). reflexivity.
Defined.

(** *** Trimming of the customer name *)

Lemma lstrip_idempotent : forall s, lstrip (lstrip s) = lstrip s.
Proof.
  induction s as [|c s IH]; cbn; [reflexivity|].
  destruct (isspace c) eqn:E; [exact IH|]. cbn. rewrite E. reflexivity.
Qed.

Lemma lstrip_app_nonspace :
  forall c s, isspace c = false -> lstrip (s ++ [c]) = lstrip s ++ [c].
Proof.
  intros c s Hc. induction s as [|d s IH]; cbn.
  - rewrite Hc. reflexivity.
  - destruct (isspace d); [exact IH|reflexivity].
Qed.

Lemma lstrip_head :
  forall s c t, lstrip s = c :: t -> isspace c = false.
Proof.
  induction s as [|d s IH]; cbn; intros c t H; [discriminate|].
  destruct (isspace d) eqn:E; [eauto|]. inversion H; subst. exact E.
Qed.

Lemma lstrip_rstrip_of_lstripped :
  forall s, lstrip (rstrip (lstrip s)) = rstrip (lstrip s).
Proof.
  intros s. destruct (lstrip s) as [|c t] eqn:E; [reflexivity|].
  pose proof (lstrip_head s c t E) as Hc.
  unfold rstrip. cbn [rev]. rewrite lstrip_app_nonspace by assumption.
  rewrite rev_app_distr. cbn. rewrite Hc. reflexivity.
Qed.

Lemma strip_idempotent : forall s, strip (strip s) = strip s.
Proof.
  intros s. unfold strip. rewrite lstrip_rstrip_of_lstripped.
  unfold rstrip. rewrite rev_involutive, lstrip_idempotent. reflexivity.
Qed.

(** The create path stores the customer name trimmed and non-empty. *)
Lemma create_stores_trimmed_name :
  forall fe b_amt b_chg k_amt k_chg ss db r,
    In r (Db.rows (r_db (save_entry fe b_amt b_chg k_amt k_chg ss db))) ->
    In r (Db.rows db) \/
    (strip (Db.customer_name r) = Db.customer_name r /\
     Db.customer_name r <> []).
Proof.
  intros fe b_amt b_chg k_amt k_chg ss db r. unfold save_entry.
  remember (strip (customer_name ss)) as nm eqn:E.
  destruct nm as [|c t]; cbn [truthy negb]; [left; assumption|].
  destruct (validate_amount b_amt "Total B Amount") as [[|] shown_b];
    cbn [negb]; [|left; assumption].
  destruct (validate_amount k_amt "Total K Amount") as [[|] shown_k];
    cbn [negb]; [|left; assumption].
  cbn [r_db Db.insert Db.rows]. intros H. apply in_app_or in H.
  destruct H as [H|[H|[]]]; [left; exact H|right].
  subst r. cbn [Db.customer_name]. split; [|discriminate].
  rewrite E. apply strip_idempotent.
Qed.

(** C10 (the update path at a failing input). Renaming entry 1 to
    "  Asha " in the "All Entries" tab stores the name with its blanks: the
    name check trims, the UPDATE does not. *)
Theorem update_stores_untrimmed_name :
  let fe := press BtnUpdate
                  (select_and_edit (Some 1%Z) (Some spaced_name) None today) in
  let r := render_all_entries_tab fe initial_session db_one in
  r_shown r = [OkEntryUpdated] /\
  map Db.customer_name (Db.rows (r_db r)) = [spaced_name] /\
  strip spaced_name = name_A /\
  strip spaced_name <> spaced_name.
Proof.
  vm_compute. repeat split. discriminate.
Qed.

(** *** Ids and sizes of the line collections *)

Lemma ids_of_app : forall a b, ids_of (a ++ b) = ids_of a ++ ids_of b.
Proof. intros a b. unfold ids_of. rewrite map_app, flat_map_app. reflexivity. Qed.

Lemma ids_of_cons_some :
  forall e k rest, line_id e = Some k -> ids_of (e :: rest) = k :: ids_of rest.
Proof. intros e k rest H. unfold ids_of. cbn. rewrite H. reflexivity. Qed.

Lemma ids_of_cons_none :
  forall e rest, line_id e = None -> ids_of (e :: rest) = ids_of rest.
Proof. intros e rest H. unfold ids_of. cbn. rewrite H. reflexivity. Qed.

Lemma assign_ids_counter :
  forall entries counter, (counter <= snd (assign_ids entries counter))%Z.
Proof.
  induction entries as [|e rest IH]; intros c; cbn; [lia|].
  destruct (line_id e).
  - specialize (IH c). destruct (assign_ids rest c). cbn in *. lia.
  - specialize (IH (c + 1)%Z). destruct (assign_ids rest (c + 1)).
    cbn in *. lia.
Qed.

Lemma assign_ids_length :
  forall entries counter,
    List.length (fst (assign_ids entries counter)) = List.length entries.
Proof.
  induction entries as [|e rest IH]; intros c; cbn; [reflexivity|].
  destruct (line_id e).
  - specialize (IH c). destruct (assign_ids rest c). cbn in *. lia.
  - specialize (IH (c + 1)%Z). destruct (assign_ids rest (c + 1)).
    cbn in *. lia.
Qed.

Lemma assign_ids_has_id :
  forall entries counter,
    Forall (fun e => has_id e = true) (fst (assign_ids entries counter)).
Proof.
  induction entries as [|e rest IH]; intros c; cbn; [constructor|].
  destruct (line_id e) eqn:E.
  - specialize (IH c). destruct (assign_ids rest c). cbn in *.
    constructor; [unfold has_id; rewrite E; reflexivity|assumption].
  - specialize (IH (c + 1)%Z). destruct (assign_ids rest (c + 1)).
    cbn in *. constructor; [reflexivity|assumption].
Qed.

Lemma assign_ids_ids :
  forall entries counter k,
    In k (ids_of (fst (assign_ids entries counter))) ->
    In k (ids_of entries) \/
    (counter <= k < snd (assign_ids entries counter))%Z.
Proof.
  induction entries as [|e rest IH]; intros c k; cbn [assign_ids].
  - cbn. intros [].
  - destruct (line_id e) as [k0|] eqn:E.
    + specialize (IH c k). destruct (assign_ids rest c) as [rest' c'].
      cbn [fst snd] in *. rewrite !(ids_of_cons_some _ _ _ E).
      intros [H|H]; [left; left; exact H|].
      destruct (IH H) as [H'|H']; [left; right; exact H'|right; exact H'].
    + specialize (IH (c + 1)%Z k).
      pose proof (assign_ids_counter rest (c + 1)) as Hc.
      destruct (assign_ids rest (c + 1)) as [rest' c'].
      cbn [fst snd] in *. rewrite (ids_of_cons_none _ _ E).
      rewrite (ids_of_cons_some _ c _) by reflexivity.
      intros [H|H]; [right; lia|].
      destruct (IH H) as [H'|H']; [left; exact H'|right; lia].
Qed.

Lemma assign_ids_NoDup :
  forall entries counter,
    NoDup (ids_of entries) ->
    Forall (fun k => (k < counter)%Z) (ids_of entries) ->
    NoDup (ids_of (fst (assign_ids entries counter))).
Proof.
  induction entries as [|e rest IH]; intros c Hnd Hlt; cbn [assign_ids].
  - constructor.
  - destruct (line_id e) as [k0|] eqn:E.
    + rewrite (ids_of_cons_some _ _ _ E) in Hnd, Hlt.
      inversion Hnd as [|? ? Hnotin Hnd']; subst.
      inversion Hlt as [|? ? Hk0 Hlt']; subst.
      specialize (IH c Hnd' Hlt').
      pose proof (assign_ids_ids rest c k0) as Hids.
      destruct (assign_ids rest c) as [rest' c']. cbn [fst snd] in *.
      rewrite (ids_of_cons_some _ _ _ E). constructor; [|exact IH].
      intro Hin. destruct (Hids Hin) as [H|H]; [contradiction|lia].
    + rewrite (ids_of_cons_none _ _ E) in Hnd, Hlt.
      assert (Hlt' : Forall (fun k => (k < c + 1)%Z) (ids_of rest)).
      { eapply Forall_impl; [|exact Hlt]. cbn. intros; lia. }
      specialize (IH (c + 1)%Z Hnd Hlt').
      pose proof (assign_ids_ids rest (c + 1) c) as Hids.
      destruct (assign_ids rest (c + 1)) as [rest' c']. cbn [fst snd] in *.
      rewrite (ids_of_cons_some _ c _) by reflexivity.
      constructor; [|exact IH].
      intro Hin. destruct (Hids Hin) as [H|H]; [|lia].
      rewrite Forall_forall in Hlt. specialize (Hlt _ H). cbn in Hlt. lia.
Qed.

Lemma assign_ids_fixed :
  forall entries counter,
    Forall (fun e => has_id e = true) entries ->
    assign_ids entries counter = (entries, counter).
Proof.
  induction entries as [|e rest IH]; intros c H; cbn; [reflexivity|].
  inversion H as [|? ? He Hrest]; subst. unfold has_id in He.
  destruct (line_id e); [|discriminate]. rewrite IH by assumption.
  reflexivity.
Qed.

Lemma render_lines_line_ids :
  forall typed_amt typed_chg remove_pressed len entries i amt chg,
    map line_id (fst (fst (fst (render_lines typed_amt typed_chg
                                  remove_pressed len i entries amt chg))))
    = map line_id entries.
Proof.
  induction entries as [|e rest IH]; intros i amt chg; cbn; [reflexivity|].
  specialize (IH (S i)
                 (amt + amount (read_line typed_amt typed_chg e i))%float
                 (chg + charge (read_line typed_amt typed_chg e i))%float).
  destruct (render_lines typed_amt typed_chg remove_pressed len (S i) rest _ _)
    as [[[rest' rm] a'] c'].
  cbn in *. rewrite IH. reflexivity.
Qed.

(** With a single line the remove buttons are not rendered. *)
Lemma render_lines_single :
  forall typed_amt typed_chg remove_pressed len entries i amt chg,
    (len <= 1)%nat ->
    render_lines typed_amt typed_chg remove_pressed len i entries amt chg
    = render_lines typed_amt typed_chg not_pressed len i entries amt chg.
Proof.
  intros typed_amt typed_chg remove_pressed len entries i amt chg Hlen.
  assert (Hoff : (1 <? len)%nat = false) by (apply Nat.ltb_ge; exact Hlen).
  revert i amt chg.
  induction entries as [|e rest IH]; intros i amt chg; cbn [render_lines];
    [reflexivity|].
  rewrite IH, Hoff. reflexivity.
Qed.

(** The indices marked for removal: none, or one, in range, only when
    there are at least two lines, and of a line whose button is down. *)
Lemma render_lines_marks :
  forall typed_amt typed_chg remove_pressed len,
    one_key remove_pressed ->
    forall entries i amt chg,
      Forall (fun e => has_id e = true) entries ->
      NoDup (ids_of entries) ->
      let to_remove :=
        snd (fst (fst (render_lines typed_amt typed_chg remove_pressed len
                                    i entries amt chg))) in
      to_remove = [] \/
      exists j k, to_remove = [j] /\ (1 < len)%nat /\
                  (i <= j < i + List.length entries)%nat /\
                  In k (ids_of entries) /\ remove_pressed k = true.
Proof.
  intros typed_amt typed_chg remove_pressed len Hone.
  induction entries as [|e rest IH]; intros i amt chg Hid Hnd;
    cbn [render_lines].
  - left. reflexivity.
  - inversion Hid as [|? ? He Hrest]; subst.
    unfold has_id in He. destruct (line_id e) as [k|] eqn:E; [|discriminate].
    rewrite (ids_of_cons_some _ _ _ E) in *.
    inversion Hnd as [|? ? Hnotin Hnd']; subst.
    pose proof (IH (S i)
                   (amt + amount (read_line typed_amt typed_chg e i))%float
                   (chg + charge (read_line typed_amt typed_chg e i))%float
                   Hrest Hnd') as IH'.
    cbv zeta in IH'.
    destruct (render_lines typed_amt typed_chg remove_pressed len (S i) rest
                _ _) as [[[rest' rm] a'] c'].
    cbn [fst snd List.length] in *.
    assert (Hkey : unique_key e i = k) by (unfold unique_key; rewrite E; reflexivity).
    rewrite Hkey.
    destruct (1 <? len)%nat eqn:Hlen; cbn [andb].
    + destruct (remove_pressed k) eqn:Hp.
      * right. exists i, k.
        split; [|split; [apply Nat.ltb_lt; exact Hlen|
                         split; [lia|split; [left; reflexivity|exact Hp]]]].
        destruct IH' as [->|(j & k' & -> & _ & _ & Hin & Hp')];
          [reflexivity|exfalso].
        apply Hnotin. rewrite (Hone k k' Hp Hp'). exact Hin.
      * destruct IH' as [->|(j & k' & -> & Hl & Hj & Hin & Hp')];
          [left; reflexivity|].
        right. exists j, k'. repeat split; try assumption; try lia.
        right. exact Hin.
    + destruct IH' as [->|(j & k' & -> & Hl & Hj & Hin & Hp')];
        [left; reflexivity|].
      apply Nat.ltb_ge in Hlen. lia.
Qed.

Lemma render_lines_length :
  forall typed_amt typed_chg remove_pressed len entries i amt chg,
    List.length (fst (fst (fst (render_lines typed_amt typed_chg
                                  remove_pressed len i entries amt chg))))
    = List.length entries.
Proof.
  intros. rewrite <- (length_map line_id), render_lines_line_ids.
  apply length_map.
Qed.

Lemma render_lines_ids_of :
  forall typed_amt typed_chg remove_pressed len entries i amt chg,
    ids_of (fst (fst (fst (render_lines typed_amt typed_chg
                             remove_pressed len i entries amt chg))))
    = ids_of entries.
Proof. intros. unfold ids_of. rewrite render_lines_line_ids. reflexivity. Qed.

(** [pop] either leaves the list alone (index out of range) or drops one
    element. *)
Lemma pop_cases :
  forall (A : Type) idx (l : list A),
    (List.length l <= idx)%nat /\ pop idx l = l \/
    exists x, (idx < List.length l)%nat /\
              l = firstn idx l ++ x :: skipn (S idx) l.
Proof.
  intros A idx l. unfold pop.
  destruct (le_lt_dec (List.length l) idx) as [Hge|Hlt].
  - left. split; [exact Hge|].
    rewrite firstn_all2 by exact Hge. rewrite skipn_all2 by lia.
    apply app_nil_r.
  - right. revert idx Hlt.
    induction l as [|y l IH]; intros idx Hlt; cbn in Hlt; [lia|].
    destruct idx as [|idx].
    + exists y. split; [cbn; lia|reflexivity].
    + destruct (IH idx) as (x & Hx & Heq); [lia|].
      exists x. split; [cbn; lia|]. cbn [firstn skipn app] in *.
      f_equal. exact Heq.
Qed.

Lemma pop_length :
  forall (A : Type) idx (l : list A),
    (idx < List.length l)%nat ->
    S (List.length (pop idx l)) = List.length l.
Proof.
  intros A idx l Hlt.
  destruct (pop_cases _ idx l) as [[Hge _]|(x & _ & Heq)]; [lia|].
  rewrite Heq at 2. unfold pop. rewrite !length_app. cbn. lia.
Qed.

Lemma pop_ids_incl :
  forall idx l k, In k (ids_of (pop idx l)) -> In k (ids_of l).
Proof.
  intros idx l k H.
  destruct (pop_cases _ idx l) as [[_ Heq]|(x & _ & Heq)].
  - rewrite Heq in H. exact H.
  - rewrite Heq. unfold pop in H. rewrite ids_of_app in *.
    apply in_app_or in H. apply in_or_app.
    destruct H as [H|H]; [left; exact H|right].
    change (x :: skipn (S idx) l) with ([x] ++ skipn (S idx) l).
    rewrite ids_of_app. apply in_or_app. right. exact H.
Qed.

Lemma pop_ids_NoDup :
  forall idx l, NoDup (ids_of l) -> NoDup (ids_of (pop idx l)).
Proof.
  intros idx l H.
  destruct (pop_cases _ idx l) as [[_ Heq]|(x & _ & Heq)].
  - rewrite Heq. exact H.
  - rewrite Heq in H. unfold pop. rewrite ids_of_app in *.
    destruct (line_id x) as [k|] eqn:E.
    + rewrite (ids_of_cons_some _ _ _ E) in H.
      apply NoDup_remove_1 in H. exact H.
    + rewrite (ids_of_cons_none _ _ E) in H. exact H.
Qed.

Lemma remove_marked_ids_incl :
  forall to_remove l k,
    In k (ids_of (remove_marked to_remove l)) -> In k (ids_of l).
Proof.
  intros to_remove l k. unfold remove_marked.
  generalize (rev to_remove) as idxs. intros idxs. revert l.
  induction idxs as [|idx idxs IH]; intros l; cbn; [tauto|].
  intros H. apply IH in H. eapply pop_ids_incl. exact H.
Qed.

(** A block keeps its collection in good order. *)
Lemma render_section_ok :
  forall typed_amt typed_chg remove_pressed add_pressed entries counter,
    one_key remove_pressed ->
    collection_ok entries counter ->
    let s := render_section typed_amt typed_chg remove_pressed add_pressed
                            entries counter in
    collection_ok (sec_entries s) (sec_counter s).
Proof.
  intros typed_amt typed_chg remove_pressed add_pressed entries counter
         Hone (Hne & Hnd & Hlt).
  cbv zeta. unfold render_section.
  pose proof (assign_ids_length entries counter) as Hlen1.
  pose proof (assign_ids_has_id entries counter) as Hid1.
  pose proof (assign_ids_NoDup entries counter Hnd Hlt) as Hnd1.
  pose proof (assign_ids_counter entries counter) as Hc1.
  pose proof (assign_ids_ids entries counter) as Hids1.
  destruct (assign_ids entries counter) as [entries1 counter1].
  cbn [fst snd] in *.
  assert (Hlt1 : Forall (fun k => (k < counter1)%Z) (ids_of entries1)).
  { apply Forall_forall. intros k Hk.
    destruct (Hids1 k Hk) as [H|H]; [|lia].
    rewrite Forall_forall in Hlt. specialize (Hlt k H). cbn in Hlt. lia. }
  pose proof (render_lines_ids_of typed_amt typed_chg remove_pressed
                (List.length entries1) entries1 0 0 0) as Hids2.
  pose proof (render_lines_length typed_amt typed_chg remove_pressed
                (List.length entries1) entries1 0 0 0) as Hlen2.
  pose proof (render_lines_marks typed_amt typed_chg remove_pressed
                (List.length entries1) Hone entries1 0 0 0 Hid1 Hnd1)
    as Hmarks.
  cbv zeta in Hmarks.
  destruct (render_lines typed_amt typed_chg remove_pressed
              (List.length entries1) 0 entries1 0 0)
    as [[[entries2 rm] amt] chg].
  cbn [fst snd] in *.
  assert (Hne2 : entries2 <> []).
  { intro E. subst entries2. cbn in Hlen2. destruct entries; [tauto|].
    cbn in Hlen1. lia. }
  destruct Hmarks as [->|(j & k & -> & Hl & Hj & _)].
  - rewrite remove_marked_nil. destruct add_pressed; cbn.
    + split; [destruct entries2; discriminate|].
      rewrite ids_of_app, Hids2.
      change (ids_of [mkLine 0 0 (Some counter1)]) with [counter1].
      split.
      * apply NoDup_app; [exact Hnd1|constructor; [tauto|constructor]|].
        intros a Ha [<-|[]]. rewrite Forall_forall in Hlt1.
        specialize (Hlt1 _ Ha). cbn in Hlt1. lia.
      * apply Forall_app. split.
        -- eapply Forall_impl; [|exact Hlt1]. cbn. intros; lia.
        -- constructor; [lia|constructor].
    + split; [exact Hne2|]. rewrite Hids2. split; assumption.
  - cbn. unfold remove_marked. cbn.
    split; [|split].
    + intro E. pose proof (pop_length _ j entries2) as Hp.
      rewrite E in Hp. cbn in Hp. lia.
    + apply pop_ids_NoDup. rewrite Hids2. exact Hnd1.
    + apply Forall_forall. intros a Ha. apply pop_ids_incl in Ha.
      rewrite Hids2 in Ha. rewrite Forall_forall in Hlt1. exact (Hlt1 _ Ha).
Qed.

(** The counter of a block never steps back, and every id present after
    the block was already there or was handed out by this run. *)
Lemma render_section_monotone :
  forall typed_amt typed_chg remove_pressed add_pressed entries counter,
    let s := render_section typed_amt typed_chg remove_pressed add_pressed
                            entries counter in
    (counter <= sec_counter s)%Z /\
    forall k, In k (ids_of (sec_entries s)) ->
              In k (ids_of entries) \/ (counter <= k < sec_counter s)%Z.
Proof.
  intros typed_amt typed_chg remove_pressed add_pressed entries counter.
  cbv zeta. unfold render_section.
  pose proof (assign_ids_counter entries counter) as Hc1.
  pose proof (assign_ids_ids entries counter) as Hids1.
  destruct (assign_ids entries counter) as [entries1 counter1].
  cbn [fst snd] in *.
  pose proof (render_lines_ids_of typed_amt typed_chg remove_pressed
                (List.length entries1) entries1 0 0 0) as Hids2.
  destruct (render_lines typed_amt typed_chg remove_pressed
              (List.length entries1) 0 entries1 0 0)
    as [[[entries2 rm] amt] chg].
  cbn [fst snd] in *.
  assert (Hsub : forall k, In k (ids_of (remove_marked rm entries2)) ->
                           In k (ids_of entries) \/
                           (counter <= k < counter1)%Z).
  { intros k Hk. apply remove_marked_ids_incl in Hk. rewrite Hids2 in Hk.
    exact (Hids1 k Hk). }
  destruct rm as [|j rm]; [destruct add_pressed|]; cbn [sec_entries sec_counter].
  - split; [lia|]. intros k Hk. rewrite ids_of_app in Hk.
    apply in_app_or in Hk. destruct Hk as [Hk|[<-|[]]]; [|right; lia].
    destruct (Hsub k Hk) as [H|H]; [left; exact H|right; lia].
  - split; [lia|exact Hsub].
  - split; [lia|exact Hsub].
Qed.

Lemma one_key_b : forall fe, one_key (fun key => st_button fe (BtnRemoveB key)).
Proof.
  intros fe k1 k2. unfold st_button.
  destruct (pressed fe) as [[]|]; cbn; try discriminate.
  intros H1 H2. apply Z.eqb_eq in H1, H2. congruence.
Qed.

Lemma one_key_k : forall fe, one_key (fun key => st_button fe (BtnRemoveK key)).
Proof.
  intros fe k1 k2. unfold st_button.
  destruct (pressed fe) as [[]|]; cbn; try discriminate.
  intros H1 H2. apply Z.eqb_eq in H1, H2. congruence.
Qed.

Lemma reset_form_ok : forall ss, session_ok (reset_form ss).
Proof.
  intros ss. split; (split; [discriminate|split]).
  all: try (constructor; [intros []|constructor]).
  all: constructor; [reflexivity|constructor].
Qed.

Lemma initial_session_ok : session_ok initial_session.
Proof.
  split; (split; [discriminate|split]); constructor.
Qed.

(** The save branch leaves the session as it is, whether it saves or not:
    the reset that follows a save raises before its first assignment. *)
Lemma save_entry_keeps_session :
  forall fe b_amt b_chg k_amt k_chg ss db,
    r_session (save_entry fe b_amt b_chg k_amt k_chg ss db) = ss.
Proof.
  intros fe b_amt b_chg k_amt k_chg ss db. unfold save_entry.
  destruct (negb (truthy (strip (customer_name ss)))); [reflexivity|].
  destruct (validate_amount b_amt "Total B Amount") as [[|] shown_b];
    [|reflexivity].
  destruct (validate_amount k_amt "Total K Amount") as [[|] shown_k];
    reflexivity.
Qed.

Lemma save_entry_ok :
  forall fe b_amt b_chg k_amt k_chg ss db,
    session_ok ss ->
    session_ok (r_session (save_entry fe b_amt b_chg k_amt k_chg ss db)).
Proof.
  intros fe b_amt b_chg k_amt k_chg ss db Hok.
  rewrite save_entry_keeps_session. exact Hok.
Qed.

Lemma new_entry_tab_ok :
  forall fe ss db,
    session_ok ss ->
    session_ok (r_session (render_new_entry_tab fe ss db)).
Proof.
  intros fe ss db [Hb Hk]. unfold render_new_entry_tab.
  cbn [set_form b_entries b_counter k_entries k_counter set_b].
  pose proof (render_section_ok (typed_b_amt fe) (typed_b_chg fe) _
                (st_button fe BtnAddB) _ _ (one_key_b fe) Hb) as Hb'.
  pose proof (render_section_ok (typed_k_amt fe) (typed_k_chg fe) _
                (st_button fe BtnAddK) _ _ (one_key_k fe) Hk) as Hk'.
  cbv zeta in Hb', Hk'.
  destruct (sec_rerun (render_section (typed_b_amt fe) _ _ _ _ _)).
  { split; [exact Hb'|exact Hk]. }
  destruct (sec_rerun (render_section (typed_k_amt fe) _ _ _ _ _)).
  { split; [exact Hb'|exact Hk']. }
  destruct (st_button fe BtnSave).
  - apply save_entry_ok. split; [exact Hb'|exact Hk'].
  - split; [exact Hb'|exact Hk'].
Qed.

(** The "All Entries" tab leaves the form alone. *)
Lemma all_entries_tab_keeps_form :
  forall fe ss db,
    let ss' := r_session (render_all_entries_tab fe ss db) in
    b_entries ss' = b_entries ss /\ b_counter ss' = b_counter ss /\
    k_entries ss' = k_entries ss /\ k_counter ss' = k_counter ss.
Proof.
  intros fe ss db. cbv zeta. unfold render_all_entries_tab.
  destruct (list_by_range (start_date fe) (end_date fe) db) as [|first rest];
    [repeat split|].
  destruct (st_button fe BtnUpdate).
  - unfold update_entry. destruct (negb (truthy _)); repeat split.
  - unfold delete_flow.
    destruct (negb (confirm_delete ss));
      [destruct (st_button fe BtnDelete); repeat split|].
    destruct (delete_id ss) as [d|]; [|repeat split].
    destruct (d =? _)%Z; [|repeat split].
    destruct (st_button fe BtnYesDelete); [repeat split|].
    destruct (st_button fe BtnCancel); repeat split.
Qed.

Lemma main_ok :
  forall fe ss db, session_ok ss -> session_ok (r_session (main fe ss db)).
Proof.
  intros fe ss db Hok. unfold main.
  pose proof (new_entry_tab_ok fe ss db Hok) as Hnew.
  destruct (r_control (render_new_entry_tab fe ss db)); try exact Hnew.
  cbn [r_session].
  destruct (all_entries_tab_keeps_form fe
              (r_session (render_new_entry_tab fe ss db))
              (r_db (render_new_entry_tab fe ss db)))
    as (Hb & Hbc & Hk & Hkc).
  unfold session_ok. rewrite Hb, Hbc, Hk, Hkc. exact Hnew.
Qed.

Lemma run_ok :
  forall events ss db,
    session_ok ss -> session_ok (fst (run events ss db)).
Proof.
  induction events as [|fe rest IH]; intros ss db Hok; cbn; [exact Hok|].
  apply IH. apply main_ok. exact Hok.
Qed.

Lemma render_section_single :
  forall typed_amt typed_chg remove_pressed add_pressed entries counter,
    List.length entries = 1%nat ->
    render_section typed_amt typed_chg remove_pressed add_pressed
                   entries counter
    = render_section typed_amt typed_chg not_pressed add_pressed
                     entries counter.
Proof.
  intros typed_amt typed_chg remove_pressed add_pressed entries counter Hlen.
  unfold render_section.
  pose proof (assign_ids_length entries counter) as Hlen1.
  destruct (assign_ids entries counter) as [entries1 counter1].
  cbn [fst] in Hlen1.
  rewrite render_lines_single by lia. reflexivity.
Qed.

(** C6. In either collection, pressing the remove button of the only line
    does what pressing nothing does (with nothing typed the line stays as
    it is), and along every sequence of runs that starts from a fresh
    session both collections keep at least one line. *)
Theorem collections_keep_one_line :
  (forall typed_amt typed_chg remove_pressed add_pressed entries counter,
      List.length entries = 1%nat ->
      render_section typed_amt typed_chg remove_pressed add_pressed
                     entries counter
      = render_section typed_amt typed_chg not_pressed add_pressed
                       entries counter) /\
  (forall remove_pressed a p k counter,
      sec_entries (render_section nothing_typed nothing_typed remove_pressed
                                  false [mkLine a p (Some k)] counter)
      = [mkLine a p (Some k)]) /\
  (forall fe ss db key,
      List.length (b_entries ss) = 1%nat ->
      pressed fe = Some (BtnRemoveB key) ->
      render_new_entry_tab fe ss db = render_new_entry_tab (release fe) ss db) /\
  (forall fe ss db key,
      List.length (k_entries ss) = 1%nat ->
      pressed fe = Some (BtnRemoveK key) ->
      render_new_entry_tab fe ss db = render_new_entry_tab (release fe) ss db) /\
  (forall events db,
      let ss := fst (run events initial_session db) in
      (1 <= List.length (b_entries ss))%nat /\
      (1 <= List.length (k_entries ss))%nat).
Proof.
  split; [exact render_section_single|].
  split.
  { intros remove_pressed a p k counter.
    rewrite render_section_single by reflexivity. reflexivity. }
  split.
  { intros fe ss db key Hlen Hp. unfold render_new_entry_tab, st_button.
    rewrite Hp. cbn [release pressed button_eqb set_form b_entries b_counter
                     typed_b_amt typed_b_chg typed_k_amt typed_k_chg
                     typed_customer_type typed_payment_mode
                     typed_customer_name typed_remarks].
    rewrite (render_section_single _ _ (fun key0 => (key =? key0)%Z))
      by exact Hlen.
    reflexivity. }
  split.
  { intros fe ss db key Hlen Hp. unfold render_new_entry_tab, st_button.
    rewrite Hp. cbn [release pressed button_eqb set_form b_entries b_counter
                     k_entries k_counter set_b
                     typed_b_amt typed_b_chg typed_k_amt typed_k_chg
                     typed_customer_type typed_payment_mode
                     typed_customer_name typed_remarks].
    rewrite (render_section_single _ _ (fun key0 => (key =? key0)%Z))
      by exact Hlen.
    reflexivity. }
  intros events db. cbv zeta.
  destruct (run_ok events initial_session db initial_session_ok)
    as [(Hb & _) (Hk & _)].
  split.
  - destruct (b_entries (fst (run events initial_session db)));
      [tauto|cbn; lia].
  - destruct (k_entries (fst (run events initial_session db)));
      [tauto|cbn; lia].
Qed.

Lemma collections_keep_one_line_witness :
  let fe := press (BtnRemoveB 0) today in
  let ss := reset_form initial_session in
  List.length (b_entries ss) = 1%nat /\
  pressed fe = Some (BtnRemoveB 0) /\
  render_new_entry_tab fe ss Db.empty
  = render_new_entry_tab (release fe) ss Db.empty /\
  b_entries (r_session (render_new_entry_tab fe ss Db.empty)) = b_entries ss.
Proof.
  cbv zeta. split; [reflexivity|]. split; [reflexivity|].
  split; [|reflexivity].
  apply (proj1 (proj2 (proj2 collections_keep_one_line))
               (press (BtnRemoveB 0) today) (reset_form initial_session)
               Db.empty 0%Z); reflexivity.
Defined.

(** *** Adding and removing lines; the id counters *)

Lemma read_line_untyped :
  forall e i, read_line nothing_typed nothing_typed e i = e.
Proof. intros [a p o] i. reflexivity. Qed.

Lemma render_lines_untyped :
  forall remove_pressed len entries i amt chg,
    fst (fst (fst (render_lines nothing_typed nothing_typed remove_pressed
                                len i entries amt chg))) = entries.
Proof.
  induction entries as [|e rest IH]; intros i amt chg; cbn [render_lines];
    [reflexivity|].
  specialize (IH (S i)
                 (amt + amount (read_line nothing_typed nothing_typed e i))%float
                 (chg + charge (read_line nothing_typed nothing_typed e i))%float).
  destruct (render_lines nothing_typed nothing_typed remove_pressed len (S i)
              rest _ _) as [[[rest' rm] a'] c'].
  cbn [fst] in *. rewrite IH, read_line_untyped. reflexivity.
Qed.

(** Pressing the remove button of a freshly added last line marks exactly
    its index. *)
Lemma render_lines_marks_last :
  forall typed_amt typed_chg c1 len entries i amt chg,
    Forall (fun e => has_id e = true) entries ->
    (forall k, In k (ids_of entries) -> k <> c1) ->
    (1 < len)%nat ->
    snd (fst (fst (render_lines typed_amt typed_chg
                                (fun key => (c1 =? key)%Z) len i
                                (entries ++ [mkLine 0 0 (Some c1)])
                                amt chg)))
    = [(i + List.length entries)%nat].
Proof.
  intros typed_amt typed_chg c1 len entries i amt chg Hid Hne Hlen.
  assert (Hon : (1 <? len)%nat = true) by (apply Nat.ltb_lt; exact Hlen).
  revert i amt chg.
  induction entries as [|e rest IH]; intros i amt chg;
    cbn [app render_lines List.length].
  - cbn [unique_key line_id fst snd]. rewrite Hon, Z.eqb_refl. cbn.
    f_equal. lia.
  - inversion Hid as [|? ? He Hrest]; subst.
    unfold has_id in He. destruct (line_id e) as [k|] eqn:E; [|discriminate].
    assert (Hk : (c1 =? unique_key e i)%Z = false).
    { unfold unique_key. rewrite E. apply Z.eqb_neq. intro Heq.
      apply (Hne k); [|congruence].
      rewrite (ids_of_cons_some _ _ _ E). left. reflexivity. }
    assert (Hne' : forall k', In k' (ids_of rest) -> k' <> c1).
    { intros k' Hin. apply Hne. rewrite (ids_of_cons_some _ _ _ E).
      right. exact Hin. }
    specialize (IH Hrest Hne' (S i)
                   (amt + amount (read_line typed_amt typed_chg e i))%float
                   (chg + charge (read_line typed_amt typed_chg e i))%float).
    destruct (render_lines typed_amt typed_chg (fun key => (c1 =? key)%Z)
                len (S i) (rest ++ [mkLine 0 0 (Some c1)]) _ _)
      as [[[rest' rm] a'] c'].
    cbn [fst snd] in *. rewrite Hk, andb_false_r, IH. f_equal. lia.
Qed.

Lemma pop_last :
  forall (A : Type) (l : list A) x, pop (List.length l) (l ++ [x]) = l.
Proof.
  intros A l x. unfold pop.
  rewrite firstn_app, firstn_all, Nat.sub_diag. cbn [firstn].
  rewrite skipn_all2 by (rewrite length_app; cbn; lia).
  rewrite !app_nil_r. reflexivity.
Qed.

Lemma has_id_of_line_ids :
  forall a b,
    map line_id a = map line_id b ->
    Forall (fun e => has_id e = true) a ->
    Forall (fun e => has_id e = true) b.
Proof.
  intros a b Heq Ha.
  assert (H : forall l, Forall (fun e => has_id e = true) l <->
                        Forall (fun o => match o with
                                         | Some _ => true
                                         | None => false
                                         end = true) (map line_id l)).
  { intros l. rewrite Forall_map. reflexivity. }
  apply H. rewrite <- Heq. apply H. exact Ha.
Qed.

(** A block in which no line button is down. *)
Lemma render_section_quiet :
  forall typed_amt typed_chg entries counter,
    let s0 := render_section typed_amt typed_chg not_pressed false
                             entries counter in
    render_section typed_amt typed_chg not_pressed true entries counter
    = mkSection (sec_entries s0 ++ [mkLine 0 0 (Some (sec_counter s0))])
                (sec_counter s0 + 1) (sec_amt s0) (sec_chg s0) true /\
    Forall (fun e => has_id e = true) (sec_entries s0) /\
    List.length (sec_entries s0) = List.length entries /\
    (Forall (fun k => (k < counter)%Z) (ids_of entries) ->
     Forall (fun k => (k < sec_counter s0)%Z) (ids_of (sec_entries s0))).
Proof.
  intros typed_amt typed_chg entries counter. cbv zeta.
  unfold render_section.
  pose proof (assign_ids_length entries counter) as Hlen1.
  pose proof (assign_ids_has_id entries counter) as Hid1.
  pose proof (assign_ids_counter entries counter) as Hc1.
  pose proof (assign_ids_ids entries counter) as Hids1.
  destruct (assign_ids entries counter) as [entries1 counter1].
  cbn [fst snd] in *.
  pose proof (render_lines_not_pressed typed_amt typed_chg not_pressed
                (List.length entries1) entries1 0 0 0
                (fun _ => eq_refl)) as Hrm.
  pose proof (render_lines_line_ids typed_amt typed_chg not_pressed
                (List.length entries1) entries1 0 0 0) as Hmap.
  pose proof (render_lines_length typed_amt typed_chg not_pressed
                (List.length entries1) entries1 0 0 0) as Hlen2.
  destruct (render_lines typed_amt typed_chg not_pressed
              (List.length entries1) 0 entries1 0 0)
    as [[[entries2 rm] amt] chg].
  cbn [fst snd] in *. subst rm. rewrite remove_marked_nil.
  cbn [sec_entries sec_counter sec_amt sec_chg].
  split; [reflexivity|]. split; [|split].
  - apply (has_id_of_line_ids entries1); [symmetry; exact Hmap|exact Hid1].
  - lia.
  - intros Hlt. apply Forall_forall. intros k Hk.
    unfold ids_of in Hk. rewrite Hmap in Hk.
    destruct (Hids1 k Hk) as [H|H]; [|lia].
    rewrite Forall_forall in Hlt. specialize (Hlt k H). cbn in Hlt. lia.
Qed.

(** Add a line, then remove it: the collection is back to what it was
    without the add, and the counter has moved on. *)
Lemma add_then_remove_restores :
  forall typed_amt typed_chg entries counter,
    entries <> [] ->
    Forall (fun k => (k < counter)%Z) (ids_of entries) ->
    let s0 := render_section typed_amt typed_chg not_pressed false
                             entries counter in
    let s1 := render_section typed_amt typed_chg not_pressed true
                             entries counter in
    let s2 := render_section nothing_typed nothing_typed
                             (fun key => (sec_counter s0 =? key)%Z) false
                             (sec_entries s1) (sec_counter s1) in
    sec_entries s1 = sec_entries s0 ++ [mkLine 0 0 (Some (sec_counter s0))] /\
    sec_counter s1 = (sec_counter s0 + 1)%Z /\
    sec_entries s2 = sec_entries s0 /\
    sec_counter s2 = (sec_counter s0 + 1)%Z.
Proof.
  intros typed_amt typed_chg entries counter Hne Hlt. cbv zeta.
  destruct (render_section_quiet typed_amt typed_chg entries counter)
    as (Hadd & Hid2 & Hlen2 & Hlt2).
  specialize (Hlt2 Hlt). rewrite Hadd.
  remember (render_section typed_amt typed_chg not_pressed false
                           entries counter) as s0 eqn:Es0.
  clear Es0 Hadd.
  destruct s0 as [entries2 counter1 amt chg rr].
  cbn [sec_entries sec_counter] in *.
  split; [reflexivity|]. split; [reflexivity|].
  assert (Hfresh : forall k, In k (ids_of entries2) -> k <> counter1).
  { intros k Hk. rewrite Forall_forall in Hlt2. specialize (Hlt2 k Hk).
    cbn in Hlt2. lia. }
  assert (Hne2 : (1 <= List.length entries2)%nat).
  { destruct entries; [tauto|]. cbn in Hlen2. lia. }
  unfold render_section.
  rewrite assign_ids_fixed
    by (apply Forall_app; split; [exact Hid2|repeat constructor]).
  pose proof (render_lines_untyped (fun key => (counter1 =? key)%Z)
                (List.length (entries2 ++ [mkLine 0 0 (Some counter1)]))
                (entries2 ++ [mkLine 0 0 (Some counter1)]) 0 0 0) as Hsame.
  pose proof (render_lines_marks_last nothing_typed nothing_typed counter1
                (List.length (entries2 ++ [mkLine 0 0 (Some counter1)]))
                entries2 0 0 0 Hid2 Hfresh) as Hlast.
  rewrite length_app in Hlast at 1. cbn [List.length] in Hlast.
  specialize (Hlast ltac:(lia)).
  destruct (render_lines nothing_typed nothing_typed
              (fun key => (counter1 =? key)%Z)
              (List.length (entries2 ++ [mkLine 0 0 (Some counter1)])) 0
              (entries2 ++ [mkLine 0 0 (Some counter1)]) 0 0)
    as [[[entries3 rm] amt'] chg'].
  cbn [fst snd] in *. subst entries3 rm.
  cbn [Nat.add sec_entries sec_counter]. unfold remove_marked.
  cbn [rev app fold_left].
  rewrite pop_last. split; reflexivity.
Qed.

Lemma grows_refl : forall entries counter, grows entries counter entries counter.
Proof. intros entries counter. split; [lia|]. intros k H. left. exact H. Qed.

Lemma grows_trans :
  forall e1 c1 e2 c2 e3 c3,
    grows e1 c1 e2 c2 -> grows e2 c2 e3 c3 -> grows e1 c1 e3 c3.
Proof.
  intros e1 c1 e2 c2 e3 c3 [H12 I12] [H23 I23]. split; [lia|].
  intros k Hk. destruct (I23 k Hk) as [H|H]; [|right; lia].
  destruct (I12 k H) as [H'|H']; [left; exact H'|right; lia].
Qed.

Lemma new_entry_tab_grows :
  forall fe ss db,
    let ss' := r_session (render_new_entry_tab fe ss db) in
    grows (b_entries ss) (b_counter ss) (b_entries ss') (b_counter ss') /\
    grows (k_entries ss) (k_counter ss) (k_entries ss') (k_counter ss').
Proof.
  intros fe ss db. cbv zeta. unfold render_new_entry_tab.
  cbn [set_form b_entries b_counter k_entries k_counter set_b].
  pose proof (render_section_monotone (typed_b_amt fe) (typed_b_chg fe)
                (fun key => st_button fe (BtnRemoveB key))
                (st_button fe BtnAddB) (b_entries ss) (b_counter ss)) as Hb.
  pose proof (render_section_monotone (typed_k_amt fe) (typed_k_chg fe)
                (fun key => st_button fe (BtnRemoveK key))
                (st_button fe BtnAddK) (k_entries ss) (k_counter ss)) as Hk.
  cbv zeta in Hb, Hk. fold (grows (b_entries ss) (b_counter ss)) in Hb.
  destruct (sec_rerun (render_section (typed_b_amt fe) _ _ _ _ _)).
  { split; [exact Hb|apply grows_refl]. }
  destruct (sec_rerun (render_section (typed_k_amt fe) _ _ _ _ _)).
  { split; [exact Hb|exact Hk]. }
  destruct (st_button fe BtnSave); [|split; [exact Hb|exact Hk]].
  rewrite save_entry_keeps_session. split; [exact Hb|exact Hk].
Qed.

Lemma main_grows :
  forall fe ss db,
    let ss' := r_session (main fe ss db) in
    grows (b_entries ss) (b_counter ss) (b_entries ss') (b_counter ss') /\
    grows (k_entries ss) (k_counter ss) (k_entries ss') (k_counter ss').
Proof.
  intros fe ss db. cbv zeta. unfold main.
  pose proof (new_entry_tab_grows fe ss db) as H. cbv zeta in H.
  destruct (r_control (render_new_entry_tab fe ss db)); try exact H.
  cbn [r_session].
  destruct (all_entries_tab_keeps_form fe
              (r_session (render_new_entry_tab fe ss db))
              (r_db (render_new_entry_tab fe ss db)))
    as (Hb & Hbc & Hk & Hkc).
  rewrite Hb, Hbc, Hk, Hkc. exact H.
Qed.

Lemma run_grows :
  forall events ss db,
    let ss' := fst (run events ss db) in
    grows (b_entries ss) (b_counter ss) (b_entries ss') (b_counter ss') /\
    grows (k_entries ss) (k_counter ss) (k_entries ss') (k_counter ss').
Proof.
  induction events as [|fe rest IH]; intros ss db; cbn.
  - split; apply grows_refl.
  - destruct (main_grows fe ss db) as [Hb Hk].
    destruct (IH (r_session (main fe ss db)) (r_db (main fe ss db)))
      as [Hb' Hk'].
    split; eapply grows_trans; eassumption.
Qed.

(** C7. Adding a line and then removing it gives back the collection as it
    was, while the counter has moved on by one. In every run, and so along
    every sequence of runs of a session, saves included, the counter of a
    collection never steps back and each id in the collection is either
    kept or new, taken at or above the old counter: no id is handed out
    twice. Ids stay distinct and below their counter throughout. *)
Theorem ids_are_never_reused :
  (forall typed_amt typed_chg entries counter,
      entries <> [] ->
      Forall (fun k => (k < counter)%Z) (ids_of entries) ->
      let s0 := render_section typed_amt typed_chg not_pressed false
                               entries counter in
      let s1 := render_section typed_amt typed_chg not_pressed true
                               entries counter in
      let s2 := render_section nothing_typed nothing_typed
                               (fun key => (sec_counter s0 =? key)%Z) false
                               (sec_entries s1) (sec_counter s1) in
      sec_entries s1 = sec_entries s0 ++ [mkLine 0 0 (Some (sec_counter s0))] /\
      sec_counter s1 = (sec_counter s0 + 1)%Z /\
      sec_entries s2 = sec_entries s0 /\
      sec_counter s2 = (sec_counter s0 + 1)%Z) /\
  (forall fe ss db,
      let ss' := r_session (main fe ss db) in
      grows (b_entries ss) (b_counter ss) (b_entries ss') (b_counter ss') /\
      grows (k_entries ss) (k_counter ss) (k_entries ss') (k_counter ss')) /\
  (forall events ss db,
      let ss' := fst (run events ss db) in
      grows (b_entries ss) (b_counter ss) (b_entries ss') (b_counter ss') /\
      grows (k_entries ss) (k_counter ss) (k_entries ss') (k_counter ss')) /\
  (forall events ss db,
      session_ok ss -> session_ok (fst (run events ss db))).
Proof.
  split; [exact add_then_remove_restores|].
  split; [exact main_grows|]. split; [exact run_grows|exact run_ok].
Qed.

Lemma ids_are_never_reused_witness :
  let s0 := render_section nothing_typed nothing_typed not_pressed false
                           two_lines 3 in
  let s1 := render_section nothing_typed nothing_typed not_pressed true
                           two_lines 3 in
  let s2 := render_section nothing_typed nothing_typed
                           (fun key => (sec_counter s0 =? key)%Z) false
                           (sec_entries s1) (sec_counter s1) in
  let saved := run add_and_save initial_session Db.empty in
  (two_lines <> [] /\
   Forall (fun k => (k < 3)%Z) (ids_of two_lines) /\
   sec_entries s2 = sec_entries s0 /\
   sec_counter s2 = (sec_counter s0 + 1)%Z) /\
  (session_ok initial_session /\ session_ok (fst saved)) /\
  (Db.ids (snd saved) = [1%Z] /\
   ids_of (b_entries (fst saved)) = [1; 2]%Z /\
   (b_counter initial_session <= b_counter (fst saved))%Z).
Proof.
  cbv zeta.
  assert (Hne : two_lines <> []) by discriminate.
  assert (Hlt : Forall (fun k => (k < 3)%Z) (ids_of two_lines)).
  { repeat constructor. }
  assert (Hinit : session_ok initial_session).
  { split; (split; [discriminate|split]); constructor. }
  destruct ids_are_never_reused as (Hadd & _ & Hrun & Hok).
  split.
  - split; [exact Hne|]. split; [exact Hlt|].
    apply (Hadd nothing_typed nothing_typed two_lines 3%Z Hne Hlt).
  - split.
    + split; [exact Hinit|].
      apply (Hok add_and_save initial_session Db.empty Hinit).
    + split; [reflexivity|]. split; [reflexivity|].
      apply (proj1 (proj1 (Hrun add_and_save initial_session Db.empty))).
Defined.

(** *** The delete confirmation *)

Lemma delete_removes_one_row :
  forall eid db,
    NoDup (Db.ids db) ->
    In eid (Db.ids db) ->
    S (List.length (Db.rows (Db.delete eid db))) = List.length (Db.rows db) /\
    forall r, In r (Db.rows (Db.delete eid db)) <->
              In r (Db.rows db) /\ Db.id r <> eid.
Proof.
  intros eid [rows seq]. unfold Db.ids, Db.delete. cbn [Db.rows].
  intros Hnd Hin. split.
  - induction rows as [|r rows IH]; cbn in *; [contradiction|].
    inversion Hnd as [|? ? Hnotin Hnd']; subst.
    destruct (Z.eqb_spec (Db.id r) eid) as [E|E]; cbn.
    + f_equal. clear IH Hin Hnd.
      induction rows as [|r' rows IH]; cbn in *; [reflexivity|].
      destruct (Z.eqb_spec (Db.id r') eid) as [E'|E']; cbn.
      * exfalso. apply Hnotin. left. congruence.
      * f_equal. apply IH.
        -- intro H. apply Hnotin. right. exact H.
        -- inversion Hnd'; assumption.
    + f_equal. apply IH; [exact Hnd'|].
      destruct Hin as [H|H]; [contradiction|exact H].
  - intros r. rewrite filter_In. rewrite negb_true_iff, Z.eqb_neq. tauto.
Qed.

Lemma new_entry_tab_keeps_confirm :
  forall fe ss db,
    let ss' := r_session (render_new_entry_tab fe ss db) in
    confirm_delete ss' = confirm_delete ss /\ delete_id ss' = delete_id ss.
Proof.
  intros fe ss db. cbv zeta. unfold render_new_entry_tab.
  destruct (sec_rerun (render_section (typed_b_amt fe) _ _ _ _ _));
    [split; reflexivity|].
  destruct (sec_rerun (render_section (typed_k_amt fe) _ _ _ _ _));
    [split; reflexivity|].
  destruct (st_button fe BtnSave); [|split; reflexivity].
  unfold save_entry.
  destruct (negb (truthy (strip _))); [split; reflexivity|].
  destruct (validate_amount _ "Total B Amount") as [[|] shown_b];
    [|split; reflexivity].
  destruct (validate_amount _ "Total K Amount") as [[|] shown_k];
    split; reflexivity.
Qed.

Lemma all_entries_tab_keeps_pending :
  forall fe ss db,
    confirm_delete ss = true ->
    pressed fe <> Some BtnYesDelete ->
    pressed fe <> Some BtnCancel ->
    let r := render_all_entries_tab fe ss db in
    confirm_state_of (r_session r) = confirm_state_of ss /\
    (pressed fe <> Some BtnUpdate -> r_db r = db).
Proof.
  intros fe ss db Hc Hyes Hno. cbv zeta. unfold render_all_entries_tab.
  destruct (list_by_range (start_date fe) (end_date fe) db) as [|first rest];
    [split; reflexivity|].
  unfold st_button.
  destruct (pressed fe) as [[]|] eqn:Hp; cbn [button_eqb];
    try congruence;
    try (unfold update_entry; destruct (negb (truthy _));
         split; [reflexivity|congruence|reflexivity|congruence]);
    unfold delete_flow, st_button; rewrite Hc, Hp; cbn [negb button_eqb];
    destruct (delete_id ss) as [d|]; try (split; reflexivity);
    destruct (d =? _)%Z; split; reflexivity.
Qed.

(** *** ORDER BY returns the rows it was given *)

Lemma insert_by_perm :
  forall (A : Type) (before : A -> A -> bool) x l,
    Permutation (x :: l) (insert_by before x l).
Proof.
  intros A before x l. induction l as [|y l IH]; cbn; [apply Permutation_refl|].
  destruct (before x y); [apply Permutation_refl|].
  eapply Permutation_trans; [apply perm_swap|].
  apply perm_skip. exact IH.
Qed.

Lemma order_by_perm :
  forall (A : Type) (before : A -> A -> bool) l,
    Permutation l (order_by before l).
Proof.
  intros A before l. induction l as [|x l IH]; cbn; [constructor|].
  eapply Permutation_trans; [|apply insert_by_perm].
  apply perm_skip. exact IH.
Qed.

Lemma list_by_range_in_store :
  forall lo hi db r,
    In r (list_by_range lo hi db) -> In r (Db.rows db).
Proof.
  intros lo hi db r H. unfold list_by_range in H.
  apply (Permutation_in r (Permutation_sym (order_by_perm _ _ _))) in H.
  apply filter_In in H. tauto.
Qed.

(** The entry chosen in the select box is an entry of the table. *)
Lemma selected_entry_exists :
  forall lo hi db first rest choice,
    list_by_range lo hi db = first :: rest ->
    In (selectbox (map Db.id (first :: rest)) (Db.id first) choice)
       (Db.ids db).
Proof.
  intros lo hi db first rest choice Heq.
  assert (Hsub : forall r, In r (first :: rest) -> In (Db.id r) (Db.ids db)).
  { intros r Hr. rewrite <- Heq in Hr. apply list_by_range_in_store in Hr.
    unfold Db.ids. apply in_map. exact Hr. }
  unfold selectbox. destruct choice as [v|]; [|apply Hsub; left; reflexivity].
  destruct (existsb (Z.eqb v) (map Db.id (first :: rest))) eqn:E;
    [|apply Hsub; left; reflexivity].
  apply existsb_exists in E. destruct E as (i & Hi & Hv).
  apply Z.eqb_eq in Hv. subst i. apply in_map_iff in Hi.
  destruct Hi as (r & <- & Hr). apply Hsub. exact Hr.
Qed.

(** C9 (counterexample). With the confirmation pending for entry 1,
    selecting entry 2 leaves the state pending for 1 instead of resetting
    it; no delete button is offered there, and a press of "Delete Entry"
    would change nothing. *)
Lemma pending_survives_navigation :
  let s1 := fst (run request_delete_1 initial_session db_two) in
  let s2 := fst (run then_select_2 initial_session db_two) in
  let s3 := run then_press_delete_on_2 initial_session db_two in
  confirm_state_of s1 = PendingConfirm (Some 1%Z) /\
  confirm_state_of s2 = PendingConfirm (Some 1%Z) /\
  confirm_state_of s2 <> Idle /\
  confirm_state_of (fst s3) = PendingConfirm (Some 1%Z) /\
  snd s3 = db_two.
Proof.
  vm_compute. repeat split. discriminate.
Qed.

Lemma idle_inv : forall ss, confirm_state_of ss = Idle -> confirm_delete ss = false.
Proof.
  intros ss. unfold confirm_state_of.
  destruct (confirm_delete ss); [discriminate|reflexivity].
Qed.

Lemma pending_inv :
  forall ss d,
    confirm_state_of ss = PendingConfirm d ->
    confirm_delete ss = true /\ delete_id ss = d.
Proof.
  intros ss d. unfold confirm_state_of.
  destruct (confirm_delete ss); [|discriminate].
  intros H. inversion H. split; reflexivity.
Qed.

(** C9 (amended). The delete confirmation has the states Idle and
    PendingConfirm(id). A delete request moves Idle to PendingConfirm(id)
    for the selected entry; with that entry selected, cancel returns to
    Idle and leaves the store alone, and confirm returns to Idle and
    removes exactly the row with that id. The selected entry is always one
    of the table. Moving away does not reset the state: while another
    entry is selected the flow shows nothing and changes nothing, and in
    any run in which neither confirm nor cancel is pressed a pending
    confirmation stays pending. *)
Theorem delete_confirmation_flow :
  (forall fe eid ss db,
      confirm_state_of ss = Idle ->
      pressed fe = Some BtnDelete ->
      let r := delete_flow fe eid ss db in
      confirm_state_of (r_session r) = PendingConfirm (Some eid) /\
      r_db r = db) /\
  (forall fe eid ss db,
      confirm_state_of ss = PendingConfirm (Some eid) ->
      pressed fe = Some BtnCancel ->
      let r := delete_flow fe eid ss db in
      confirm_state_of (r_session r) = Idle /\ r_db r = db) /\
  (forall fe eid ss db,
      confirm_state_of ss = PendingConfirm (Some eid) ->
      pressed fe = Some BtnYesDelete ->
      NoDup (Db.ids db) ->
      In eid (Db.ids db) ->
      let r := delete_flow fe eid ss db in
      confirm_state_of (r_session r) = Idle /\
      S (List.length (Db.rows (r_db r))) = List.length (Db.rows db) /\
      forall x, In x (Db.rows (r_db r)) <->
                In x (Db.rows db) /\ Db.id x <> eid) /\
  (forall fe ss db,
      let r := render_all_entries_tab fe ss db in
      r = mkResult ss db [] Stop \/
      exists eid,
        In eid (Db.ids db) /\
        (r = delete_flow fe eid ss db \/ pressed fe = Some BtnUpdate)) /\
  (forall fe eid d ss db,
      confirm_state_of ss = PendingConfirm (Some d) ->
      d <> eid ->
      delete_flow fe eid ss db = mkResult ss db [] Finished) /\
  (forall fe ss db,
      confirm_delete ss = true ->
      pressed fe <> Some BtnYesDelete ->
      pressed fe <> Some BtnCancel ->
      confirm_state_of (r_session (main fe ss db)) = confirm_state_of ss).
Proof.
  split.
  { intros fe eid ss db Hidle Hp. apply idle_inv in Hidle. cbv zeta.
    unfold delete_flow, st_button. rewrite Hidle, Hp. cbn. split; reflexivity. }
  split.
  { intros fe eid ss db Hpend Hp. apply pending_inv in Hpend.
    destruct Hpend as [Hc Hd]. cbv zeta.
    unfold delete_flow, st_button. rewrite Hc, Hd, Hp, Z.eqb_refl. cbn.
    split; reflexivity. }
  split.
  { intros fe eid ss db Hpend Hp Hnd Hin. apply pending_inv in Hpend.
    destruct Hpend as [Hc Hd]. cbv zeta.
    unfold delete_flow, st_button. rewrite Hc, Hd, Hp, Z.eqb_refl.
    cbn [negb button_eqb r_session r_db].
    split; [reflexivity|]. apply delete_removes_one_row; assumption. }
  split.
  { intros fe ss db. cbv zeta. unfold render_all_entries_tab.
    destruct (list_by_range (start_date fe) (end_date fe) db)
      as [|first rest] eqn:E; [left; reflexivity|].
    right.
    exists (selectbox (map Db.id (first :: rest)) (Db.id first) (selected fe)).
    split; [eapply selected_entry_exists; exact E|].
    unfold st_button at 1.
    destruct (pressed fe) as [[]|]; cbn [button_eqb];
      try (left; reflexivity).
    right. reflexivity. }
  split.
  { intros fe eid d ss db Hpend Hne. apply pending_inv in Hpend.
    destruct Hpend as [Hc Hd]. unfold delete_flow. rewrite Hc, Hd.
    cbn [negb]. destruct (Z.eqb_spec d eid); [contradiction|reflexivity]. }
  intros fe ss db Hc Hyes Hno. unfold main.
  destruct (new_entry_tab_keeps_confirm fe ss db) as [Hc' Hd'].
  assert (Hsame : confirm_state_of (r_session (render_new_entry_tab fe ss db))
                  = confirm_state_of ss).
  { unfold confirm_state_of. rewrite Hc', Hd'. reflexivity. }
  destruct (r_control (render_new_entry_tab fe ss db)); try exact Hsame.
  cbn [r_session]. rewrite <- Hsame.
  apply all_entries_tab_keeps_pending; [congruence|assumption|assumption].
Qed.

Lemma delete_confirmation_flow_witness :
  (confirm_state_of initial_session = Idle /\
   pressed (press BtnDelete today) = Some BtnDelete /\
   confirm_state_of
     (r_session (delete_flow (press BtnDelete today) 1 initial_session db_two))
   = PendingConfirm (Some 1%Z)) /\
  (confirm_state_of pending_1 = PendingConfirm (Some 1%Z) /\
   pressed (press BtnCancel today) = Some BtnCancel /\
   r_db (delete_flow (press BtnCancel today) 1 pending_1 db_two) = db_two) /\
  (pressed (press BtnYesDelete today) = Some BtnYesDelete /\
   NoDup (Db.ids db_two) /\ In 1%Z (Db.ids db_two) /\
   S (List.length
        (Db.rows (r_db (delete_flow (press BtnYesDelete today) 1
                                    pending_1 db_two))))
   = List.length (Db.rows db_two)) /\
  (1%Z <> 2%Z /\
   delete_flow (press BtnDelete today) 2 pending_1 db_two
   = mkResult pending_1 db_two [] Finished) /\
  (confirm_delete pending_1 = true /\
   pressed (select 2 today) <> Some BtnYesDelete /\
   pressed (select 2 today) <> Some BtnCancel /\
   confirm_state_of (r_session (main (select 2 today) pending_1 db_two))
   = confirm_state_of pending_1).
Proof.
  destruct delete_confirmation_flow as (Hreq & Hcancel & Hyes & _ & Hother & Hstay).
  assert (Hnd : NoDup (Db.ids db_two)).
  { vm_compute. constructor; [intros [H|[]]; discriminate H|].
    constructor; [intros []|constructor]. }
  assert (Hin : In 1%Z (Db.ids db_two)) by (left; reflexivity).
  split.
  { split; [reflexivity|]. split; [reflexivity|].
    apply (Hreq (press BtnDelete today) 1%Z initial_session db_two);
      reflexivity. }
  split.
  { split; [reflexivity|]. split; [reflexivity|].
    apply (Hcancel (press BtnCancel today) 1%Z pending_1 db_two);
      reflexivity. }
  split.
  { split; [reflexivity|]. split; [exact Hnd|]. split; [exact Hin|].
    apply (Hyes (press BtnYesDelete today) 1%Z pending_1 db_two);
      [reflexivity|reflexivity|exact Hnd|exact Hin]. }
  split.
  { split; [discriminate|].
    apply (Hother (press BtnDelete today) 2%Z 1%Z pending_1 db_two);
      [reflexivity|discriminate]. }
  split; [reflexivity|]. split; [discriminate|]. split; [discriminate|].
  apply (Hstay (select 2 today) pending_1 db_two);
    [reflexivity|discriminate|discriminate].
Defined.

(** *** The listing and the export *)

Lemma insert_by_agree :
  forall (A : Type) (b1 b2 : A -> A -> bool) x l,
    (forall y, In y l -> b1 x y = b2 x y) ->
    insert_by b1 x l = insert_by b2 x l.
Proof.
  intros A b1 b2 x l. induction l as [|y l IH]; intros H; cbn; [reflexivity|].
  rewrite <- (H y) by (left; reflexivity).
  destruct (b1 x y); [reflexivity|].
  f_equal. apply IH. intros z Hz. apply H. right. exact Hz.
Qed.

(** Two orders that agree on every pair taken in table order sort alike. *)
Lemma order_by_agree :
  forall (A : Type) (b1 b2 : A -> A -> bool) l,
    ForallOrdPairs (fun x y => b1 x y = b2 x y) l ->
    order_by b1 l = order_by b2 l.
Proof.
  intros A b1 b2 l H. induction H as [|x l Hx Hl IH]; cbn; [reflexivity|].
  fold (order_by b1 l). fold (order_by b2 l). rewrite IH.
  apply insert_by_agree. intros y Hy.
  apply (Permutation_in y (Permutation_sym (order_by_perm _ b2 l))) in Hy.
  rewrite Forall_forall in Hx. exact (Hx y Hy).
Qed.

Lemma ltb_leb : forall a b : string,
    (a <? b)%string = true ->
    (a <=? b)%string = true /\ (b <=? a)%string = false.
Proof.
  intros a b. unfold String.ltb, String.leb.
  rewrite (String.compare_antisym a b).
  destruct (b ?= a)%string; cbn; intros H; try discriminate.
  split; reflexivity.
Qed.

Lemma orders_agree :
  forall x y,
    Db.id x <> Db.id y ->
    (Db.entry_date x = Db.entry_date y ->
     (Db.id x < Db.id y)%Z ->
     (Db.entry_time x <? Db.entry_time y)%string = true) ->
    (Db.entry_date y = Db.entry_date x ->
     (Db.id y < Db.id x)%Z ->
     (Db.entry_time y <? Db.entry_time x)%string = true) ->
    date_desc_id_desc x y = date_desc_time_desc x y.
Proof.
  intros x y Hne Hxy Hyx. unfold date_desc_id_desc, date_desc_time_desc.
  destruct (Db.entry_date y ?= Db.entry_date x)%string eqn:E;
    try reflexivity.
  apply String.compare_eq_iff in E.
  destruct (Z.lt_total (Db.id x) (Db.id y)) as [Hlt|[Heq|Hgt]];
    [|contradiction|].
  - destruct (ltb_leb _ _ (Hxy (eq_sym E) Hlt)) as [_ ->].
    apply Z.leb_gt. exact Hlt.
  - destruct (ltb_leb _ _ (Hyx E Hgt)) as [-> _].
    apply Z.leb_le. lia.
Qed.

Lemma pairs_of_filter :
  forall (R : Db.row -> Db.row -> Prop) keep rows,
    NoDup (map Db.id rows) ->
    (forall x y, In x rows -> In y rows -> Db.id x <> Db.id y -> R x y) ->
    ForallOrdPairs R (filter keep rows).
Proof.
  intros R keep rows. induction rows as [|x rows IH]; intros Hnd H; cbn.
  - constructor.
  - inversion Hnd as [|? ? Hnotin Hnd']; subst.
    assert (IH' : ForallOrdPairs R (filter keep rows)).
    { apply IH; [exact Hnd'|]. intros a b Ha Hb. apply H; right; assumption. }
    destruct (keep x); [|exact IH'].
    constructor; [|exact IH'].
    apply Forall_forall. intros y Hy. apply filter_In in Hy.
    destruct Hy as [Hy _]. apply H; [left; reflexivity|right; exact Hy|].
    intro Heq. apply Hnotin. rewrite Heq. apply in_map. exact Hy.
Qed.

(** C8 (counterexample). Two entries are saved on 2024-11-03, the first at
    01:59:50 and, after the clock was set back, the second at 01:00:10. The
    listing puts entry 2 first (id descending), the export entry 1 (time
    descending). *)
Lemma export_order_differs_from_listing :
  let listing := list_by_range "2024-11-01" "2024-11-30" db_night in
  let export := export_rows (Between "2024-11-01" "2024-11-30") db_night in
  map Db.id listing = [2; 1]%Z /\
  map Db.entry_time listing = ["01:00:10"; "01:59:50"]%string /\
  map ex_Time export = ["01:59:50"; "01:00:10"]%string /\
  map ex_Customer export = [name_A; name_B] /\
  nth_error (map project listing) 0 <> nth_error export 0 /\
  map project listing <> export.
Proof.
  vm_compute. repeat split; discriminate.
Qed.

(** C8 (amended). For every date range the export returns the same rows as
    the listing, projected on the export columns; they come in the same
    order, position by position, whenever within each date the entries
    with larger ids have later times. *)
Theorem export_matches_listing :
  (forall lo hi db,
      Permutation (map project (list_by_range lo hi db))
                  (export_rows (Between lo hi) db)) /\
  (forall lo hi db,
      NoDup (Db.ids db) ->
      times_follow_ids db ->
      map project (list_by_range lo hi db)
      = export_rows (Between lo hi) db).
Proof.
  split.
  - intros lo hi db. unfold list_by_range, export_rows.
    apply Permutation_map.
    eapply Permutation_trans;
      [apply Permutation_sym; apply order_by_perm|apply order_by_perm].
  - intros lo hi db Hnd Htimes. unfold list_by_range, export_rows.
    f_equal. apply order_by_agree. apply pairs_of_filter; [exact Hnd|].
    intros x y Hx Hy Hne. apply orders_agree; [exact Hne| |].
    + apply Htimes; assumption.
    + apply Htimes; assumption.
Qed.

Lemma export_matches_listing_witness :
  NoDup (Db.ids db_day) /\ times_follow_ids db_day /\
  map project (list_by_range "2024-01-01" "2024-01-31" db_day)
  = export_rows (Between "2024-01-01" "2024-01-31") db_day.
Proof.
  assert (Hnd : NoDup (Db.ids db_day)).
  { vm_compute. constructor; [intros [H|[]]; discriminate H|].
    constructor; [intros []|constructor]. }
  assert (Htimes : times_follow_ids db_day).
  { intros x y [<-|[<-|[]]] [<-|[<-|[]]]; cbn; intros Hd Hlt;
      try reflexivity; lia. }
  split; [exact Hnd|]. split; [exact Htimes|].
  apply (proj2 export_matches_listing "2024-01-01"%string "2024-01-31"%string
               db_day Hnd Htimes).
Defined.

(** *** The primary key

    The stores reached by the script keep their ids distinct, so the
    assumption of distinct ids made above holds for them. *)

Lemma insert_well_formed :
  forall date time ct name pm b_amt b_chg k_amt k_chg total rm db,
    Db.well_formed db ->
    Db.well_formed
      (Db.insert date time ct name pm b_amt b_chg k_amt k_chg total rm db).
Proof.
  intros date time ct name pm b_amt b_chg k_amt k_chg tot rm [rows seq].
  unfold Db.well_formed, Db.ids, Db.insert. cbn [Db.rows Db.seq].
  intros [Hnd Hrange]. rewrite map_app. cbn [map Db.id]. split.
  - apply NoDup_app; [exact Hnd|constructor; [intros []|constructor]|].
    intros a Ha [<-|[]]. rewrite Forall_forall in Hrange.
    specialize (Hrange _ Ha). cbn in Hrange. lia.
  - apply Forall_app. split.
    + eapply Forall_impl; [|exact Hrange]. cbn. intros; lia.
    + constructor; [lia|constructor].
Qed.

Lemma update_keeps_ids :
  forall en ct pm b_amt b_chg k_amt k_chg total rm eid db,
    Db.ids (Db.update en ct pm b_amt b_chg k_amt k_chg total rm eid db)
    = Db.ids db.
Proof.
  intros en ct pm b_amt b_chg k_amt k_chg tot rm eid [rows seq].
  unfold Db.ids, Db.update. cbn [Db.rows]. rewrite map_map.
  apply map_ext. intros r. destruct (Db.id r =? eid)%Z; reflexivity.
Qed.

Lemma NoDup_map_filter :
  forall (A B : Type) (f : A -> B) keep l,
    NoDup (map f l) -> NoDup (map f (filter keep l)).
Proof.
  intros A B f keep l. induction l as [|x l IH]; cbn; intros H; [exact H|].
  inversion H as [|? ? Hnotin Hnd]; subst.
  destruct (keep x); cbn; [|apply IH; exact Hnd].
  constructor; [|apply IH; exact Hnd].
  intro Hin. apply Hnotin. apply in_map_iff in Hin.
  destruct Hin as (y & Hy & Hin). apply filter_In in Hin.
  apply in_map_iff. exists y. tauto.
Qed.

Lemma delete_well_formed :
  forall eid db, Db.well_formed db -> Db.well_formed (Db.delete eid db).
Proof.
  intros eid [rows seq]. unfold Db.well_formed, Db.ids, Db.delete.
  cbn [Db.rows Db.seq]. intros [Hnd Hrange]. split.
  - apply NoDup_map_filter. exact Hnd.
  - apply Forall_forall. intros i Hi. apply in_map_iff in Hi.
    destruct Hi as (r & <- & Hr). apply filter_In in Hr.
    rewrite Forall_forall in Hrange. apply Hrange. apply in_map. tauto.
Qed.

Lemma main_well_formed :
  forall fe ss db,
    Db.well_formed db -> Db.well_formed (r_db (main fe ss db)).
Proof.
  intros fe ss db Hwf.
  assert (Hnew : Db.well_formed (r_db (render_new_entry_tab fe ss db))).
  { destruct (new_entry_tab_writes_through_save fe ss db)
      as [->|(b_amt & b_chg & k_amt & k_chg & ss' & ->)]; [exact Hwf|].
    unfold save_entry.
    destruct (negb (truthy (strip _))); [exact Hwf|].
    destruct (validate_amount b_amt _) as [[|] shown_b]; [|exact Hwf].
    destruct (validate_amount k_amt _) as [[|] shown_k]; [|exact Hwf].
    apply insert_well_formed. exact Hwf. }
  unfold main.
  destruct (r_control (render_new_entry_tab fe ss db)); try exact Hnew.
  cbn [r_db]. revert Hnew.
  generalize (r_db (render_new_entry_tab fe ss db)) as db'.
  generalize (r_session (render_new_entry_tab fe ss db)) as ss'.
  intros ss' db' Hwf'. unfold render_all_entries_tab.
  destruct (list_by_range (start_date fe) (end_date fe) db')
    as [|first rest]; [exact Hwf'|].
  destruct (st_button fe BtnUpdate).
  - unfold update_entry. destruct (negb (truthy _)); [exact Hwf'|].
    cbn [r_db]. unfold Db.well_formed. rewrite update_keeps_ids.
    exact Hwf'.
  - unfold delete_flow.
    destruct (negb (confirm_delete ss'));
      [destruct (st_button fe BtnDelete); exact Hwf'|].
    destruct (delete_id ss') as [d|]; [|exact Hwf'].
    destruct (d =? _)%Z; [|exact Hwf'].
    destruct (st_button fe BtnYesDelete);
      [apply delete_well_formed; exact Hwf'|].
    destruct (st_button fe BtnCancel); exact Hwf'.
Qed.

Lemma run_well_formed :
  forall events ss db,
    Db.well_formed db -> Db.well_formed (snd (run events ss db)).
Proof.
  induction events as [|fe rest IH]; intros ss db Hwf; cbn; [exact Hwf|].
  apply IH. apply main_well_formed. exact Hwf.
Qed.

Lemma empty_well_formed : Db.well_formed Db.empty.
Proof. split; constructor. Qed.

(** *** What one run writes *)

Lemma st_button_pressed :
  forall fe b, st_button fe b = true -> pressed fe = Some b.
Proof.
  intros fe b. unfold st_button. destruct (pressed fe) as [p|]; [|discriminate].
  destruct p, b; cbn; intros H; try discriminate; try reflexivity;
    apply Z.eqb_eq in H; subst; reflexivity.
Qed.

Lemma save_entry_cases :
  forall fe b_amt b_chg k_amt k_chg ss db,
    let r := save_entry fe b_amt b_chg k_amt k_chg ss db in
    (r_control r = Stop /\ r_db r = db /\ r_session r = ss /\
     ~ In OkEntrySaved (r_shown r) /\
     exists m, r_shown r = [m] /\ kind_of m <> None) \/
    (r_control r = Stop /\ r_shown r = [OkEntrySaved; ErrUnexpected] /\
     r_session r = ss /\
     Db.rows (r_db r)
     = Db.rows db ++ [saved_row fe ss b_amt b_chg k_amt k_chg db] /\
     Db.seq (r_db r) = (Db.seq db + 1)%Z /\
     strip (customer_name ss) <> [] /\
     fst (validate_amount b_amt "Total B Amount") = true /\
     fst (validate_amount k_amt "Total K Amount") = true).
Proof.
  intros fe b_amt b_chg k_amt k_chg ss db. cbv zeta. unfold save_entry.
  destruct (strip (customer_name ss)) as [|c t] eqn:En; cbn [truthy negb].
  { left. cbn. repeat split; try (intros [H|[]]; discriminate H).
    eexists. split; [reflexivity|discriminate]. }
  unfold validate_amount.
  destruct (b_amt <? 0)%float; cbn [negb].
  { left. cbn. repeat split; try (intros [H|[]]; discriminate H).
    eexists. split; [reflexivity|discriminate]. }
  destruct (MAX_AMOUNT <? b_amt)%float; cbn [negb].
  { left. cbn. repeat split; try (intros [H|[]]; discriminate H).
    eexists. split; [reflexivity|discriminate]. }
  destruct (k_amt <? 0)%float; cbn [negb].
  { left. cbn. repeat split; try (intros [H|[]]; discriminate H).
    eexists. split; [reflexivity|discriminate]. }
  destruct (MAX_AMOUNT <? k_amt)%float; cbn [negb].
  { left. cbn. repeat split; try (intros [H|[]]; discriminate H).
    eexists. split; [reflexivity|discriminate]. }
  right. unfold saved_row. rewrite En. cbn. repeat split. discriminate.
Qed.

(** The form as the "New Entry" tab has read it when it reaches the save
    button, and the four totals. *)
Lemma new_entry_tab_cases :
  forall fe ss db,
    let r := render_new_entry_tab fe ss db in
    (r_db r = db /\ r_shown r = [] /\ r_control r <> Stop /\
     (pressed fe = Some BtnSave -> False)) \/
    (pressed fe = Some BtnSave /\
     exists b_amt b_chg k_amt k_chg,
       r = save_entry fe b_amt b_chg k_amt k_chg
                      (r_session (render_new_entry_tab (release fe) ss db))
                      db).
Proof.
  intros fe ss db. cbv zeta.
  destruct (st_button fe BtnSave) eqn:Hsave.
  - right. apply st_button_pressed in Hsave. split; [exact Hsave|].
    unfold render_new_entry_tab, st_button. rewrite Hsave.
    cbn [release pressed button_eqb typed_b_amt typed_b_chg typed_k_amt
                 typed_k_chg typed_customer_type typed_payment_mode
                 typed_customer_name typed_remarks].
    rewrite render_section_not_pressed by reflexivity.
    cbn [set_b set_form b_entries k_entries b_counter k_counter].
    rewrite render_section_not_pressed by reflexivity.
    do 4 eexists. reflexivity.
  - left. unfold render_new_entry_tab. rewrite Hsave.
    assert (Hno : pressed fe = Some BtnSave -> False).
    { intros Hp. unfold st_button in Hsave. rewrite Hp in Hsave.
      discriminate Hsave. }
    destruct (sec_rerun (render_section (typed_b_amt fe) _ _ _ _ _));
      [cbn; repeat split; [discriminate|exact Hno]|].
    destruct (sec_rerun (render_section (typed_k_amt fe) _ _ _ _ _));
      cbn; repeat split; try discriminate; exact Hno.
Qed.

(** X1. A run of the "New Entry" tab either leaves the table alone, and
    then shows no success message, or it saves: it shows the success
    message and appends exactly one row, with the next id, the date and
    time of the run, the customer name and the remarks trimmed, a
    non-empty name, both amounts accepted by the amount check, and
    grand_charges equal to b_charges + k_charges. *)
Theorem save_appends_one_checked_row :
  forall fe ss db,
    let r := render_new_entry_tab fe ss db in
    (~ In OkEntrySaved (r_shown r) /\ r_db r = db) \/
    (In OkEntrySaved (r_shown r) /\
     exists row,
       Db.rows (r_db r) = Db.rows db ++ [row] /\
       Db.id row = (Db.seq db + 1)%Z /\ Db.seq (r_db r) = Db.id row /\
       Db.entry_date row = now_date fe /\ Db.entry_time row = now_time fe /\
       strip (Db.customer_name row) = Db.customer_name row /\
       Db.customer_name row <> [] /\
       strip (Db.remarks row) = Db.remarks row /\
       fst (validate_amount (Db.b_amount row) "Total B Amount") = true /\
       fst (validate_amount (Db.k_amount row) "Total K Amount") = true /\
       Db.grand_charges row = (Db.b_charges row + Db.k_charges row)%float).
Proof.
  intros fe ss db. cbv zeta.
  destruct (new_entry_tab_cases fe ss db)
    as [(Hdb & Hshown & _)|(_ & b_amt & b_chg & k_amt & k_chg & ->)].
  - left. rewrite Hshown. split; [intros []|exact Hdb].
  - destruct (save_entry_cases fe b_amt b_chg k_amt k_chg
                (r_session (render_new_entry_tab (release fe) ss db)) db)
      as [(_ & Hdb & _ & Hnot & _)
         |(_ & Hshown & _ & Hrows & Hseq & Hname & Hb & Hk)].
    + left. split; assumption.
    + right. split; [rewrite Hshown; left; reflexivity|].
      eexists. split; [exact Hrows|]. rewrite Hseq.
      unfold saved_row. cbn [Db.id Db.entry_date Db.entry_time
                             Db.customer_name Db.remarks Db.b_amount
                             Db.k_amount Db.grand_charges Db.b_charges
                             Db.k_charges].
      repeat split; try assumption; apply strip_idempotent.
Qed.

(** X2. A save that is refused changes nothing but the screen: when the
    save button is pressed and no success message is shown, the run
    stops, the table is as before, exactly one error message of a known
    kind is shown, and the form holds what it would hold had the button
    not been pressed, so nothing the user typed is lost. *)
Theorem refused_save_keeps_the_form :
  forall fe ss db,
    let r := render_new_entry_tab fe ss db in
    pressed fe = Some BtnSave ->
    ~ In OkEntrySaved (r_shown r) ->
    r_control r = Stop /\
    r_db r = db /\
    r_session r = r_session (render_new_entry_tab (release fe) ss db) /\
    exists m, r_shown r = [m] /\ kind_of m <> None.
Proof.
  intros fe ss db. cbv zeta. intros Hp.
  destruct (new_entry_tab_cases fe ss db)
    as [(_ & _ & _ & Hno)|(_ & b_amt & b_chg & k_amt & k_chg & ->)].
  - exfalso. exact (Hno Hp).
  - destruct (save_entry_cases fe b_amt b_chg k_amt k_chg
                (r_session (render_new_entry_tab (release fe) ss db)) db)
      as [(Hc & Hdb & Hss & _ & Hm)|(_ & Hshown & _)].
    + intros _. repeat split; assumption.
    + intros Hnot. exfalso. apply Hnot. rewrite Hshown. left. reflexivity.
Qed.

Lemma refused_save_keeps_the_form_witness :
  let fe := press BtnSave today in
  let ss := form_with name_A lines_1000001 in
  let r := render_new_entry_tab fe ss Db.empty in
  pressed fe = Some BtnSave /\
  ~ In OkEntrySaved (r_shown r) /\
  r_control r = Stop /\
  r_db r = Db.empty /\
  b_entries (r_session r) = lines_1000001.
Proof.
  cbv zeta.
  assert (Hp : pressed (press BtnSave today) = Some BtnSave) by reflexivity.
  assert (Hnot : ~ In OkEntrySaved
                   (r_shown (render_new_entry_tab (press BtnSave today)
                               (form_with name_A lines_1000001) Db.empty))).
  { intros [H|[]]. discriminate H. }
  split; [exact Hp|]. split; [exact Hnot|].
  destruct (refused_save_keeps_the_form (press BtnSave today)
              (form_with name_A lines_1000001) Db.empty Hp Hnot)
    as (Hc & Hdb & Hss & _).
  split; [exact Hc|]. split; [exact Hdb|]. rewrite Hss. reflexivity.
Defined.

(** One run of the script writes at most once: nothing, one INSERT, one
    UPDATE or one DELETE. *)
Lemma main_writes :
  forall fe ss db,
    let db' := r_db (main fe ss db) in
    db' = db \/
    (exists ss' b_amt b_chg k_amt k_chg,
        Db.rows db' = Db.rows db ++ [saved_row fe ss' b_amt b_chg k_amt k_chg db]
        /\ Db.seq db' = (Db.seq db + 1)%Z
        /\ strip (customer_name ss') <> []) \/
    (exists en ct pm b_amt b_chg k_amt k_chg rm eid,
        In eid (Db.ids db) /\ truthy (strip en) = true /\
        db' = Db.update en ct pm b_amt b_chg k_amt k_chg
                        (b_chg + k_chg)%float rm eid db) \/
    (exists eid, In eid (Db.ids db) /\ db' = Db.delete eid db).
Proof.
  intros fe ss db. cbv zeta. unfold main.
  destruct (new_entry_tab_cases fe ss db)
    as [(Hdb & _ & _ & _)|(_ & b_amt & b_chg & k_amt & k_chg & Heq)].
  - destruct (r_control (render_new_entry_tab fe ss db));
      try (left; exact Hdb).
    cbn [r_db]. rewrite Hdb.
    generalize (r_session (render_new_entry_tab fe ss db)) as ss'.
    intros ss'. unfold render_all_entries_tab.
    destruct (list_by_range (start_date fe) (end_date fe) db)
      as [|first rest] eqn:E; [left; reflexivity|].
    pose proof (selected_entry_exists _ _ _ _ _ (selected fe) E) as Hin.
    destruct (st_button fe BtnUpdate).
    + unfold update_entry.
      destruct (truthy (strip _)) eqn:Hname; cbn [negb]; [|left; reflexivity].
      right. right. left. do 9 eexists.
      split; [exact Hin|]. split; [exact Hname|reflexivity].
    + unfold delete_flow.
      destruct (negb (confirm_delete ss'));
        [destruct (st_button fe BtnDelete); left; reflexivity|].
      destruct (delete_id ss') as [d|]; [|left; reflexivity].
      destruct (d =? _)%Z; [|left; reflexivity].
      destruct (st_button fe BtnYesDelete).
      * right. right. right. eexists. split; [exact Hin|reflexivity].
      * destruct (st_button fe BtnCancel); left; reflexivity.
  - rewrite Heq.
    destruct (save_entry_cases fe b_amt b_chg k_amt k_chg
                (r_session (render_new_entry_tab (release fe) ss db)) db)
      as [(Hc & Hdb & _)|(Hc & _ & _ & Hrows & Hseq & Hname & _)]; rewrite Hc.
    + left. exact Hdb.
    + right. left. do 5 eexists.
      split; [exact Hrows|]. split; [exact Hseq|exact Hname].
Qed.

Lemma update_rows_in :
  forall en ct pm b_amt b_chg k_amt k_chg total rm eid db r,
    In r (Db.rows (Db.update en ct pm b_amt b_chg k_amt k_chg total rm eid db))
    ->
    In r (Db.rows db) \/
    exists old,
      In old (Db.rows db) /\
      r = Db.mkRow (Db.id old) (Db.entry_date old) (Db.entry_time old)
                   ct en pm b_amt b_chg k_amt k_chg total rm.
Proof.
  intros en ct pm b_amt b_chg k_amt k_chg tot rm eid db r.
  unfold Db.update. cbn [Db.rows]. rewrite in_map_iff.
  intros (old & Hr & Hold).
  destruct (Db.id old =? eid)%Z; [right|left; subst; exact Hold].
  exists old. split; [exact Hold|symmetry; exact Hr].
Qed.

(** X3. Every row of the table keeps
    grand_charges = b_charges + k_charges along any sequence of runs:
    insert and update both write the sum, and delete only removes rows. *)
Theorem grand_charges_stay_the_sum :
  forall events ss db,
    charges_add_up db ->
    charges_add_up (snd (run events ss db)).
Proof.
  induction events as [|fe rest IH]; intros ss db Hdb; cbn; [exact Hdb|].
  apply IH. clear IH.
  destruct (main_writes fe ss db)
    as [->|[(ss' & b_amt & b_chg & k_amt & k_chg & Hrows & _)
           |[(en & ct & pm & b_amt & b_chg & k_amt & k_chg & rm & eid & _ & _
              & ->)
            |(eid & _ & ->)]]].
  - exact Hdb.
  - intros r Hr. rewrite Hrows in Hr. apply in_app_or in Hr.
    destruct Hr as [Hr|[<-|[]]]; [apply Hdb; exact Hr|reflexivity].
  - intros r Hr. apply update_rows_in in Hr.
    destruct Hr as [Hr|(old & _ & ->)]; [apply Hdb; exact Hr|reflexivity].
  - intros r Hr. unfold Db.delete in Hr. cbn [Db.rows] in Hr.
    apply filter_In in Hr. apply Hdb. tauto.
Qed.

Lemma grand_charges_stay_the_sum_witness :
  charges_add_up db_one /\
  charges_add_up (snd (run add_and_save initial_session db_one)).
Proof.
  assert (H : charges_add_up db_one).
  { intros r [<-|[]]. reflexivity. }
  split; [exact H|].
  apply (grand_charges_stay_the_sum add_and_save initial_session db_one H).
Defined.

(** X4. The ids of the table are never reused. Along any sequence of runs
    the ids stay pairwise distinct, the sequence of the table never steps
    back, and every id that is new in the table lies above the old
    sequence, so above every id handed out before, deleted or not. *)
Theorem table_ids_are_never_reused :
  forall events ss db,
    Db.well_formed db ->
    let db' := snd (run events ss db) in
    Db.well_formed db' /\
    (Db.seq db <= Db.seq db')%Z /\
    forall i, In i (Db.ids db') -> In i (Db.ids db) \/ (Db.seq db < i)%Z.
Proof.
  induction events as [|fe rest IH]; intros ss db Hwf; cbn.
  - split; [exact Hwf|]. split; [lia|]. intros i Hi. left. exact Hi.
  - pose proof (main_well_formed fe ss db Hwf) as Hwf1.
    destruct (IH (r_session (main fe ss db)) (r_db (main fe ss db)) Hwf1)
      as (Hwf' & Hseq' & Hids').
    cbv zeta in *.
    assert (Hstep : (Db.seq db <= Db.seq (r_db (main fe ss db)))%Z /\
                    forall i, In i (Db.ids (r_db (main fe ss db))) ->
                              In i (Db.ids db) \/ (Db.seq db < i)%Z).
    { destruct (main_writes fe ss db)
        as [->|[(ss' & b_amt & b_chg & k_amt & k_chg & Hrows & Hs & _)
               |[(en & ct & pm & b_amt & b_chg & k_amt & k_chg & rm & eid
                  & _ & _ & ->)
                |(eid & _ & ->)]]].
      - split; [lia|]. intros i Hi. left. exact Hi.
      - split; [lia|]. intros i Hi. unfold Db.ids in Hi.
        rewrite Hrows, map_app in Hi. apply in_app_or in Hi.
        destruct Hi as [Hi|[<-|[]]]; [left; exact Hi|right; cbn; lia].
      - split; [cbn; lia|]. intros i Hi. rewrite update_keeps_ids in Hi.
        left. exact Hi.
      - split; [cbn; lia|]. intros i Hi. left. unfold Db.ids, Db.delete in *.
        cbn [Db.rows] in Hi. apply in_map_iff in Hi.
        destruct Hi as (r & <- & Hr). apply filter_In in Hr.
        apply in_map. tauto. }
    destruct Hstep as [Hseq1 Hids1].
    split; [exact Hwf'|]. split; [lia|].
    intros i Hi. destruct (Hids' i Hi) as [H|H]; [|right; lia].
    exact (Hids1 i H).
Qed.

Lemma table_ids_are_never_reused_witness :
  Db.well_formed Db.empty /\
  Db.well_formed (snd (run add_and_save initial_session Db.empty)) /\
  (Db.seq Db.empty <= Db.seq (snd (run add_and_save initial_session Db.empty)))%Z.
Proof.
  assert (H : Db.well_formed Db.empty) by (split; constructor).
  split; [exact H|].
  destruct (table_ids_are_never_reused add_and_save initial_session
              Db.empty H) as (Hwf & Hseq & _).
  split; [exact Hwf|exact Hseq].
Defined.

(** *** Update and delete by id *)

Lemma lookup_update :
  forall en ct pm b_amt b_chg k_amt k_chg total rm eid db other,
    lookup other
           (Db.update en ct pm b_amt b_chg k_amt k_chg total rm eid db)
    = if (other =? eid)%Z
      then match lookup eid db with
           | Some old =>
               Some (Db.mkRow eid (Db.entry_date old) (Db.entry_time old)
                              ct en pm b_amt b_chg k_amt k_chg total rm)
           | None => None
           end
      else lookup other db.
Proof.
  intros en ct pm b_amt b_chg k_amt k_chg tot rm eid [rows seq] other.
  unfold lookup, Db.update. cbn [Db.rows].
  induction rows as [|r rows IH]; cbn [map find].
  - destruct (other =? eid)%Z; reflexivity.
  - destruct (Z.eqb_spec (Db.id r) eid) as [E|E]; cbn [Db.id].
    + destruct (Z.eqb_spec other eid) as [E'|E'].
      * subst other. rewrite E, Z.eqb_refl. reflexivity.
      * rewrite E. destruct (Z.eqb_spec eid other) as [E''|_];
          [congruence|].
        rewrite IH. reflexivity.
    + destruct (Z.eqb_spec other eid) as [E'|E'].
      * subst other. destruct (Z.eqb_spec (Db.id r) eid); [contradiction|].
        exact IH.
      * destruct (Db.id r =? other)%Z; [reflexivity|exact IH].
Qed.

(** X5. A successful update rewrites the entry in place: read back by its
    id, the entry has the values of the edit form, grand_charges equal to
    the two charges added, and the id, date and time it had before; the
    other entries read back unchanged and the table keeps its ids, dates
    and times in the same order. The session is not touched. *)
Theorem update_rewrites_in_place :
  forall eid en ct pm b_amt b_chg k_amt k_chg rm ss db old,
    truthy (strip en) = true ->
    lookup eid db = Some old ->
    let r := update_entry eid en ct pm b_amt b_chg k_amt k_chg rm ss db in
    lookup eid (r_db r)
    = Some (Db.mkRow eid (Db.entry_date old) (Db.entry_time old)
                     ct en pm b_amt b_chg k_amt k_chg
                     (b_chg + k_chg)%float rm) /\
    (forall other, other <> eid ->
                   lookup other (r_db r) = lookup other db) /\
    map Db.id (Db.rows (r_db r)) = map Db.id (Db.rows db) /\
    map Db.entry_date (Db.rows (r_db r)) = map Db.entry_date (Db.rows db) /\
    map Db.entry_time (Db.rows (r_db r)) = map Db.entry_time (Db.rows db) /\
    r_session r = ss /\ r_shown r = [OkEntryUpdated].
Proof.
  intros eid en ct pm b_amt b_chg k_amt k_chg rm ss db old Hname Hold.
  cbv zeta. unfold update_entry. rewrite Hname. cbn [negb r_db r_session r_shown].
  split; [rewrite lookup_update, Z.eqb_refl, Hold; reflexivity|].
  split.
  { intros other Hne. rewrite lookup_update.
    destruct (Z.eqb_spec other eid); [contradiction|reflexivity]. }
  unfold Db.update. cbn [Db.rows]. rewrite !map_map.
  repeat split; apply map_ext; intros r;
    destruct (Db.id r =? eid)%Z; reflexivity.
Qed.

Lemma update_rewrites_in_place_witness :
  let r := update_entry 1 name_B Others UPI 700 7 100 1 [] initial_session
                        db_two in
  truthy (strip name_B) = true /\
  (exists old, lookup 1 db_two = Some old) /\
  option_map Db.customer_name (lookup 1 (r_db r)) = Some name_B /\
  lookup 2 (r_db r) = lookup 2 db_two.
Proof.
  cbv zeta.
  assert (Hname : truthy (strip name_B) = true) by reflexivity.
  split; [exact Hname|]. split; [eexists; reflexivity|].
  destruct (update_rewrites_in_place 1 name_B Others UPI 700 7 100 1 []
              initial_session db_two _ Hname eq_refl) as (Hnew & Hother & _).
  split; [rewrite Hnew; reflexivity|].
  apply Hother. discriminate.
Defined.

Lemma filter_fixed :
  forall (A : Type) (keep : A -> bool) l,
    (forall x, In x l -> keep x = true) -> filter keep l = l.
Proof.
  intros A keep l. induction l as [|x l IH]; intros H; cbn; [reflexivity|].
  rewrite (H x) by (left; reflexivity). f_equal. apply IH.
  intros y Hy. apply H. right. exact Hy.
Qed.

(** X6. DELETE by id: afterwards no entry has the id; deleting again, or
    deleting an id that is not in the table, changes nothing and raises
    nothing; the entries with other ids read back unchanged and the
    sequence of the table stays, so the id is not handed out again. *)
Theorem delete_is_exact_and_idempotent :
  forall eid db,
    ~ In eid (Db.ids (Db.delete eid db)) /\
    lookup eid (Db.delete eid db) = None /\
    Db.delete eid (Db.delete eid db) = Db.delete eid db /\
    (~ In eid (Db.ids db) -> Db.delete eid db = db) /\
    (forall other, other <> eid ->
                   lookup other (Db.delete eid db) = lookup other db) /\
    Db.seq (Db.delete eid db) = Db.seq db.
Proof.
  intros eid [rows seq]. unfold Db.delete, Db.ids, lookup. cbn [Db.rows Db.seq].
  assert (Hgone : ~ In eid (map Db.id
                              (filter (fun r => negb (Db.id r =? eid)%Z) rows))).
  { intros Hin. apply in_map_iff in Hin. destruct Hin as (r & Hid & Hr).
    apply filter_In in Hr. destruct Hr as [_ Hr].
    rewrite Hid, Z.eqb_refl in Hr. discriminate. }
  split; [exact Hgone|]. split.
  { destruct (find _ _) as [r|] eqn:E; [|reflexivity].
    apply find_some in E. destruct E as [Hin Hid]. apply Z.eqb_eq in Hid.
    exfalso. apply Hgone. apply in_map_iff. exists r. split; assumption. }
  split.
  { f_equal. apply filter_fixed. intros x Hx. apply filter_In in Hx. tauto. }
  split.
  { intros Habsent. f_equal. apply filter_fixed. intros x Hx.
    apply negb_true_iff, Z.eqb_neq. intros E. apply Habsent.
    rewrite <- E. apply in_map. exact Hx. }
  split; [|reflexivity].
  intros other Hne. clear Hgone.
  induction rows as [|r rows IH]; cbn; [reflexivity|].
  destruct (Z.eqb_spec (Db.id r) eid) as [E|E]; cbn.
  - destruct (Z.eqb_spec (Db.id r) other); [congruence|]. exact IH.
  - destruct (Db.id r =? other)%Z; [reflexivity|]. exact IH.
Qed.

Lemma delete_is_exact_and_idempotent_witness :
  ~ In 7%Z (Db.ids db_two) /\ Db.delete 7 db_two = db_two /\
  (2%Z <> 1%Z /\ lookup 2 (Db.delete 1 db_two) = lookup 2 db_two).
Proof.
  assert (Habsent : ~ In 7%Z (Db.ids db_two)).
  { intros [H|[H|[]]]; discriminate H. }
  destruct (delete_is_exact_and_idempotent 7 db_two)
    as (_ & _ & _ & Hnoop & _).
  destruct (delete_is_exact_and_idempotent 1 db_two)
    as (_ & _ & _ & _ & Hother & _).
  split; [exact Habsent|]. split; [exact (Hnoop Habsent)|].
  split; [discriminate|]. apply Hother. discriminate.
Defined.

(** X7. The tabs do not interfere. The "All Entries" tab leaves the whole
    entry form as it is (name, type, mode, remarks, both collections and
    both counters). The "New Entry" tab leaves the delete confirmation as
    it is, and the table it returns is the old table with at most one row
    appended: it never changes or removes an entry. *)
Theorem tabs_do_not_interfere :
  (forall fe ss db,
      let ss' := r_session (render_all_entries_tab fe ss db) in
      customer_name ss' = customer_name ss /\
      customer_type ss' = customer_type ss /\
      payment_mode ss' = payment_mode ss /\
      remarks ss' = remarks ss /\
      b_entries ss' = b_entries ss /\ b_counter ss' = b_counter ss /\
      k_entries ss' = k_entries ss /\ k_counter ss' = k_counter ss) /\
  (forall fe ss db,
      let r := render_new_entry_tab fe ss db in
      confirm_delete (r_session r) = confirm_delete ss /\
      delete_id (r_session r) = delete_id ss /\
      exists appended,
        Db.rows (r_db r) = Db.rows db ++ appended /\
        (List.length appended <= 1)%nat).
Proof.
  split.
  - intros fe ss db. cbv zeta. unfold render_all_entries_tab.
    destruct (list_by_range (start_date fe) (end_date fe) db)
      as [|first rest]; [repeat split|].
    destruct (st_button fe BtnUpdate).
    + unfold update_entry. destruct (negb (truthy _)); repeat split.
    + unfold delete_flow.
      destruct (negb (confirm_delete ss));
        [destruct (st_button fe BtnDelete); repeat split|].
      destruct (delete_id ss) as [d|]; [|repeat split].
      destruct (d =? _)%Z; [|repeat split].
      destruct (st_button fe BtnYesDelete); [repeat split|].
      destruct (st_button fe BtnCancel); repeat split.
  - intros fe ss db. cbv zeta.
    destruct (new_entry_tab_keeps_confirm fe ss db) as [Hc Hd].
    split; [exact Hc|]. split; [exact Hd|].
    destruct (new_entry_tab_cases fe ss db)
      as [(Hdb & _)|(_ & b_amt & b_chg & k_amt & k_chg & ->)].
    + exists []. rewrite Hdb, app_nil_r. split; [reflexivity|cbn; lia].
    + destruct (save_entry_cases fe b_amt b_chg k_amt k_chg
                  (r_session (render_new_entry_tab (release fe) ss db)) db)
        as [(_ & Hdb & _)|(_ & _ & _ & Hrows & _)].
      * exists []. rewrite Hdb, app_nil_r. split; [reflexivity|cbn; lia].
      * eexists. split; [exact Hrows|cbn; lia].
Qed.

(** *** The values of the lines *)

Lemma number_input_in_bounds :
  forall lo hi value typed,
    in_bounds lo hi value = true ->
    in_bounds lo hi (number_input lo (Some hi) value typed) = true.
Proof.
  intros lo hi value typed Hv. unfold number_input.
  destruct typed as [v|]; [|exact Hv].
  destruct ((lo <=? v)%float && (v <=? hi)%float)%bool eqn:E; [exact E|exact Hv].
Qed.

Lemma read_line_in_bounds :
  forall typed_amt typed_chg e i,
    line_in_bounds e = true ->
    line_in_bounds (read_line typed_amt typed_chg e i) = true.
Proof.
  intros typed_amt typed_chg e i H. unfold line_in_bounds in *.
  apply andb_true_iff in H. destruct H as [Ha Hp].
  unfold read_line. cbn [amount charge_pct].
  rewrite !number_input_in_bounds by assumption. reflexivity.
Qed.

Lemma assign_ids_in_bounds :
  forall entries counter,
    Forall (fun e => line_in_bounds e = true) entries ->
    Forall (fun e => line_in_bounds e = true)
           (fst (assign_ids entries counter)).
Proof.
  induction entries as [|e rest IH]; intros c H; cbn [assign_ids];
    [constructor|].
  inversion H as [|? ? He Hrest]; subst.
  destruct (line_id e).
  - specialize (IH c Hrest). destruct (assign_ids rest c). cbn [fst] in *.
    constructor; assumption.
  - specialize (IH (c + 1)%Z Hrest). destruct (assign_ids rest (c + 1)).
    cbn [fst] in *. constructor; [exact He|exact IH].
Qed.

Lemma render_lines_in_bounds :
  forall typed_amt typed_chg remove_pressed len entries i amt chg,
    Forall (fun e => line_in_bounds e = true) entries ->
    Forall (fun e => line_in_bounds e = true)
           (fst (fst (fst (render_lines typed_amt typed_chg remove_pressed
                                        len i entries amt chg)))).
Proof.
  induction entries as [|e rest IH]; intros i amt chg H; cbn [render_lines];
    [constructor|].
  inversion H as [|? ? He Hrest]; subst.
  specialize (IH (S i)
                 (amt + amount (read_line typed_amt typed_chg e i))%float
                 (chg + charge (read_line typed_amt typed_chg e i))%float
                 Hrest).
  destruct (render_lines typed_amt typed_chg remove_pressed len (S i) rest _ _)
    as [[[rest' rm] a'] c'].
  cbn [fst] in *. constructor; [apply read_line_in_bounds; exact He|exact IH].
Qed.

Lemma pop_Forall :
  forall (A : Type) (P : A -> Prop) idx l, Forall P l -> Forall P (pop idx l).
Proof.
  intros A P idx l H.
  destruct (pop_cases _ idx l) as [[_ ->]|(x & _ & Heq)]; [exact H|].
  rewrite Heq in H. apply Forall_app in H. destruct H as [H1 H2].
  inversion H2; subst. unfold pop. apply Forall_app. split; assumption.
Qed.

Lemma remove_marked_Forall :
  forall (P : line -> Prop) to_remove l,
    Forall P l -> Forall P (remove_marked to_remove l).
Proof.
  intros P to_remove l. unfold remove_marked.
  generalize (rev to_remove) as idxs. intros idxs. revert l.
  induction idxs as [|idx idxs IH]; intros l H; cbn; [exact H|].
  apply IH. apply pop_Forall. exact H.
Qed.

Lemma render_section_in_bounds :
  forall typed_amt typed_chg remove_pressed add_pressed entries counter,
    Forall (fun e => line_in_bounds e = true) entries ->
    Forall (fun e => line_in_bounds e = true)
           (sec_entries (render_section typed_amt typed_chg remove_pressed
                                        add_pressed entries counter)).
Proof.
  intros typed_amt typed_chg remove_pressed add_pressed entries counter H.
  unfold render_section.
  pose proof (assign_ids_in_bounds entries counter H) as H1.
  destruct (assign_ids entries counter) as [entries1 counter1].
  cbn [fst] in H1.
  pose proof (render_lines_in_bounds typed_amt typed_chg remove_pressed
                (List.length entries1) entries1 0 0 0 H1) as H2.
  destruct (render_lines typed_amt typed_chg remove_pressed
              (List.length entries1) 0 entries1 0 0)
    as [[[entries2 rm] amt] chg].
  cbn [fst] in H2.
  pose proof (remove_marked_Forall _ rm entries2 H2) as H3.
  destruct rm as [|j rm]; [destruct add_pressed|]; cbn [sec_entries];
    try exact H3.
  apply Forall_app. split; [exact H3|]. constructor; [reflexivity|constructor].
Qed.

Lemma main_in_bounds :
  forall fe ss db,
    Forall (fun e => line_in_bounds e = true) (b_entries ss) /\
    Forall (fun e => line_in_bounds e = true) (k_entries ss) ->
    Forall (fun e => line_in_bounds e = true)
           (b_entries (r_session (main fe ss db))) /\
    Forall (fun e => line_in_bounds e = true)
           (k_entries (r_session (main fe ss db))).
Proof.
  intros fe ss db [Hb Hk].
  assert (Hnew :
            Forall (fun e => line_in_bounds e = true)
                   (b_entries (r_session (render_new_entry_tab fe ss db))) /\
            Forall (fun e => line_in_bounds e = true)
                   (k_entries (r_session (render_new_entry_tab fe ss db)))).
  { unfold render_new_entry_tab.
    cbn [set_form b_entries b_counter k_entries k_counter set_b].
    pose proof (render_section_in_bounds (typed_b_amt fe) (typed_b_chg fe)
                  (fun key => st_button fe (BtnRemoveB key))
                  (st_button fe BtnAddB) _ (b_counter ss) Hb) as Hb'.
    pose proof (render_section_in_bounds (typed_k_amt fe) (typed_k_chg fe)
                  (fun key => st_button fe (BtnRemoveK key))
                  (st_button fe BtnAddK) _ (k_counter ss) Hk) as Hk'.
    destruct (sec_rerun (render_section (typed_b_amt fe) _ _ _ _ _));
      [split; assumption|].
    destruct (sec_rerun (render_section (typed_k_amt fe) _ _ _ _ _));
      [split; assumption|].
    destruct (st_button fe BtnSave); [|split; assumption].
    rewrite save_entry_keeps_session. split; assumption. }
  unfold main.
  destruct (r_control (render_new_entry_tab fe ss db)); try exact Hnew.
  cbn [r_session].
  destruct (all_entries_tab_keeps_form fe
              (r_session (render_new_entry_tab fe ss db))
              (r_db (render_new_entry_tab fe ss db)))
    as (Hbe & _ & Hke & _).
  rewrite Hbe, Hke. exact Hnew.
Qed.

(** X8. Along every sequence of runs of a session, every deposit and
    withdrawal line holds an amount within [0, MAX_AMOUNT] and a charge
    percentage within [0, MAX_CHARGE_PERCENTAGE]: the number inputs take
    nothing else, new lines start at zero, and removing lines or saving
    the entry keeps it so. *)
Theorem line_values_stay_within_bounds :
  forall events db,
    let ss := fst (run events initial_session db) in
    Forall (fun e => in_bounds 0 MAX_AMOUNT (amount e) = true /\
                     in_bounds 0 MAX_CHARGE_PERCENTAGE (charge_pct e) = true)
           (b_entries ss ++ k_entries ss).
Proof.
  intros events db. cbv zeta.
  assert (H : forall evs ss db0,
             Forall (fun e => line_in_bounds e = true) (b_entries ss) /\
             Forall (fun e => line_in_bounds e = true) (k_entries ss) ->
             Forall (fun e => line_in_bounds e = true)
                    (b_entries (fst (run evs ss db0))) /\
             Forall (fun e => line_in_bounds e = true)
                    (k_entries (fst (run evs ss db0)))).
  { induction evs as [|fe rest IH]; intros ss db0 Hss; cbn; [exact Hss|].
    apply IH. apply main_in_bounds. exact Hss. }
  destruct (H events initial_session db) as [Hb Hk].
  { split; (constructor; [reflexivity|constructor]). }
  apply Forall_app. split;
    (eapply Forall_impl; [|eassumption]); intros e He;
    unfold line_in_bounds in He; apply andb_true_iff in He; exact He.
Qed.

(** *** Removing a line by its button *)

(** The lines as read do not depend on the buttons. *)
Lemma render_lines_read :
  forall typed_amt typed_chg rp rp' len len' entries i amt chg,
    fst (fst (fst (render_lines typed_amt typed_chg rp len i entries amt chg)))
    = fst (fst (fst (render_lines typed_amt typed_chg rp' len' i entries
                                  amt chg))).
Proof.
  induction entries as [|e rest IH]; intros i amt chg; cbn [render_lines];
    [reflexivity|].
  specialize (IH (S i)
                 (amt + amount (read_line typed_amt typed_chg e i))%float
                 (chg + charge (read_line typed_amt typed_chg e i))%float).
  destruct (render_lines typed_amt typed_chg rp len (S i) rest _ _)
    as [[[rest1 rm1] a1] c1].
  destruct (render_lines typed_amt typed_chg rp' len' (S i) rest _ _)
    as [[[rest2 rm2] a2] c2].
  cbn [fst] in *. rewrite IH. reflexivity.
Qed.

Lemma pop_cons :
  forall (A : Type) n (x : A) l, pop (S n) (x :: l) = x :: pop n l.
Proof. reflexivity. Qed.

Lemma render_lines_remove_one :
  forall typed_amt typed_chg k len,
    (1 < len)%nat ->
    forall entries i amt chg,
      Forall (fun e => has_id e = true) entries ->
      NoDup (ids_of entries) ->
      let res := render_lines typed_amt typed_chg (fun key => (k =? key)%Z)
                              len i entries amt chg in
      let entries' := fst (fst (fst res)) in
      let to_remove := snd (fst (fst res)) in
      (In k (ids_of entries) ->
       exists j, to_remove = [j] /\
                 (i <= j < i + List.length entries)%nat /\
                 pop (j - i) entries' = filter (keeps k) entries') /\
      (~ In k (ids_of entries) ->
       to_remove = [] /\ filter (keeps k) entries' = entries').
Proof.
  intros typed_amt typed_chg k len Hlen.
  assert (Hon : (1 <? len)%nat = true) by (apply Nat.ltb_lt; exact Hlen).
  induction entries as [|e rest IH]; intros i amt chg Hid Hnd;
    cbn [render_lines].
  - cbn. split; [intros []|]. intros _. split; reflexivity.
  - inversion Hid as [|? ? He Hrest]; subst.
    unfold has_id in He. destruct (line_id e) as [k0|] eqn:E; [|discriminate].
    rewrite (ids_of_cons_some _ _ _ E) in *.
    inversion Hnd as [|? ? Hnotin Hnd']; subst.
    specialize (IH (S i)
                   (amt + amount (read_line typed_amt typed_chg e i))%float
                   (chg + charge (read_line typed_amt typed_chg e i))%float
                   Hrest Hnd').
    cbv zeta in IH.
    destruct (render_lines typed_amt typed_chg (fun key => (k =? key)%Z)
                len (S i) rest _ _) as [[[rest' rm] a'] c'].
    cbn [fst snd] in *. destruct IH as [IHin IHout].
    assert (Hkey : unique_key e i = k0)
      by (unfold unique_key; rewrite E; reflexivity).
    assert (Hkeep : keeps k (read_line typed_amt typed_chg e i)
                    = negb (k0 =? k)%Z).
    { unfold keeps, read_line. cbn [line_id]. rewrite E. reflexivity. }
    rewrite Hkey, Hon. cbn [andb filter]. rewrite Hkeep. clear Hkey Hkeep.
    destruct (Z.eqb_spec k k0) as [Ek|Ek].
    + subst k0. rewrite Z.eqb_refl. cbn [negb].
      destruct (IHout Hnotin) as [-> Hfix].
      split.
      * intros _. exists i. split; [reflexivity|]. split; [cbn; lia|].
        rewrite Nat.sub_diag. unfold pop. cbn. symmetry. exact Hfix.
      * intros Hout. exfalso. apply Hout. left. reflexivity.
    + destruct (Z.eqb_spec k0 k) as [Ek'|_]; [congruence|]. cbn [negb].
      split.
      * intros [Hin|Hin]; [congruence|].
        destruct (IHin Hin) as (j & -> & Hj & Hpop).
        exists j. split; [reflexivity|]. split; [cbn; lia|].
        replace (j - i)%nat with (S (j - S i)) by lia.
        rewrite pop_cons, Hpop. reflexivity.
      * intros Hout.
        destruct IHout as [-> Hfix]; [intros Hin; apply Hout; right; exact Hin|].
        split; [reflexivity|]. rewrite Hfix. reflexivity.
Qed.

(** X9. In a collection of two or more lines with distinct ids, pressing
    the remove button of the line with id k removes exactly that line: the
    collection becomes the lines as just read without the one with id k,
    the others keeping their values, ids and order; the counter stays and
    the script reruns. *)
Theorem remove_takes_out_exactly_that_line :
  forall typed_amt typed_chg k add_pressed entries counter,
    Forall (fun e => has_id e = true) entries ->
    NoDup (ids_of entries) ->
    (2 <= List.length entries)%nat ->
    In k (ids_of entries) ->
    let s := render_section typed_amt typed_chg (fun key => (k =? key)%Z)
                            add_pressed entries counter in
    let s0 := render_section typed_amt typed_chg not_pressed false
                             entries counter in
    sec_entries s = filter (keeps k) (sec_entries s0) /\
    S (List.length (sec_entries s)) = List.length entries /\
    sec_counter s = counter /\
    sec_rerun s = true.
Proof.
  intros typed_amt typed_chg k add_pressed entries counter Hid Hnd Hlen Hin.
  cbv zeta. unfold render_section.
  rewrite assign_ids_fixed by exact Hid.
  pose proof (render_lines_not_pressed typed_amt typed_chg not_pressed
                (List.length entries) entries 0 0 0 (fun _ => eq_refl))
    as Hrm0.
  pose proof (render_lines_read typed_amt typed_chg
                (fun key => (k =? key)%Z) not_pressed
                (List.length entries) (List.length entries) entries 0 0 0)
    as Hread.
  pose proof (render_lines_length typed_amt typed_chg
                (fun key => (k =? key)%Z)
                (List.length entries) entries 0 0 0) as Hlen'.
  destruct (render_lines_remove_one typed_amt typed_chg k
              (List.length entries) ltac:(lia) entries 0 0 0 Hid Hnd)
    as [Hone _].
  cbv zeta in Hone. specialize (Hone Hin).
  destruct (render_lines typed_amt typed_chg not_pressed
              (List.length entries) 0 entries 0 0)
    as [[[entries0 rm0] amt0] chg0].
  destruct (render_lines typed_amt typed_chg (fun key => (k =? key)%Z)
              (List.length entries) 0 entries 0 0)
    as [[[entries2 rm] amt] chg].
  cbn [fst snd] in *. subst rm0 entries0.
  destruct Hone as (j & -> & Hj & Hpop). rewrite Nat.sub_0_r in Hpop.
  rewrite remove_marked_nil. cbn [sec_entries sec_counter sec_rerun].
  unfold remove_marked. cbn [rev app fold_left].
  split; [exact Hpop|]. split; [|split; reflexivity].
  rewrite (pop_length _ j entries2) by lia. exact Hlen'.
Qed.

Lemma remove_takes_out_exactly_that_line_witness :
  let s := render_section nothing_typed nothing_typed
                          (fun key => (1 =? key)%Z) false two_lines 3 in
  Forall (fun e => has_id e = true) two_lines /\
  NoDup (ids_of two_lines) /\
  (2 <= List.length two_lines)%nat /\
  In 1%Z (ids_of two_lines) /\
  sec_entries s = [mkLine 300 3 (Some 2%Z)] /\ sec_rerun s = true.
Proof.
  cbv zeta.
  assert (Hid : Forall (fun e => has_id e = true) two_lines)
    by (repeat constructor).
  assert (Hnd : NoDup (ids_of two_lines)).
  { constructor; [intros [H|[]]; discriminate H|].
    constructor; [intros []|constructor]. }
  assert (Hlen : (2 <= List.length two_lines)%nat) by (cbn; lia).
  assert (Hin : In 1%Z (ids_of two_lines)) by (left; reflexivity).
  destruct (remove_takes_out_exactly_that_line nothing_typed nothing_typed
              1%Z false two_lines 3%Z Hid Hnd Hlen Hin)
    as (Hentries & _ & _ & Hrerun).
  split; [exact Hid|]. split; [exact Hnd|]. split; [exact Hlen|].
  split; [exact Hin|]. split; [rewrite Hentries; reflexivity|exact Hrerun].
Defined.

(** *** Order of the listings *)

Lemma string_compare_refl : forall s : string, (s ?= s)%string = Eq.
Proof.
  intros s. apply (proj2 (OrderedTypeEx.String_as_OT.cmp_eq s s)).
  reflexivity.
Qed.

Lemma string_compare_lt_trans :
  forall a b c : string,
    (a ?= b)%string = Lt -> (b ?= c)%string = Lt -> (a ?= c)%string = Lt.
Proof.
  intros a b c Hab Hbc.
  apply (proj2 (OrderedTypeEx.String_as_OT.cmp_lt a c)).
  eapply OrderedTypeEx.String_as_OT.lt_trans;
    apply OrderedTypeEx.String_as_OT.cmp_lt; eassumption.
Qed.

Lemma string_leb_refl : forall s : string, (s <=? s)%string = true.
Proof. intros s. unfold String.leb. rewrite string_compare_refl. reflexivity. Qed.

Lemma string_leb_trans :
  forall a b c : string,
    (a <=? b)%string = true -> (b <=? c)%string = true ->
    (a <=? c)%string = true.
Proof.
  intros a b c. unfold String.leb.
  destruct (a ?= b)%string eqn:Hab; try discriminate;
    destruct (b ?= c)%string eqn:Hbc; try discriminate; intros _ _.
  - apply String.compare_eq_iff in Hab, Hbc. subst.
    rewrite string_compare_refl. reflexivity.
  - apply String.compare_eq_iff in Hab. subst. rewrite Hbc. reflexivity.
  - apply String.compare_eq_iff in Hbc. subst. rewrite Hab. reflexivity.
  - rewrite (string_compare_lt_trans a b c Hab Hbc). reflexivity.
Qed.

(** [ORDER BY] sorts: for a total and transitive order the result is
    sorted. *)
Lemma order_by_sorted :
  forall (A : Type) (before : A -> A -> bool),
    (forall x y, before x y = false -> before y x = true) ->
    (forall x y z, before x y = true -> before y z = true ->
                   before x z = true) ->
    forall l, StronglySorted (fun x y => before x y = true) (order_by before l).
Proof.
  intros A before Htotal Htrans.
  assert (Hins : forall x l,
             StronglySorted (fun x y => before x y = true) l ->
             StronglySorted (fun x y => before x y = true)
                            (insert_by before x l)).
  { intros x l. induction l as [|y l IH]; intros Hs; cbn.
    - constructor; constructor.
    - inversion Hs as [|? ? Hs' Hy]; subst.
      destruct (before x y) eqn:E.
      + constructor; [exact Hs|]. constructor; [exact E|].
        eapply Forall_impl; [|exact Hy]. cbn. intros z Hz.
        exact (Htrans x y z E Hz).
      + constructor; [apply IH; exact Hs'|].
        apply Forall_forall. intros z Hz.
        apply (Permutation_in z (Permutation_sym (insert_by_perm _ before x l)))
          in Hz.
        destruct Hz as [<-|Hz]; [apply Htotal; exact E|].
        rewrite Forall_forall in Hy. exact (Hy z Hz). }
  induction l as [|x l IH]; cbn; [constructor|].
  apply Hins. exact IH.
Qed.

Lemma id_desc_total : forall x y, id_desc x y = false -> id_desc y x = true.
Proof. intros x y. unfold id_desc. rewrite Z.leb_gt, Z.leb_le. lia. Qed.

Lemma id_desc_trans :
  forall x y z, id_desc x y = true -> id_desc y z = true -> id_desc x z = true.
Proof. intros x y z. unfold id_desc. rewrite !Z.leb_le. lia. Qed.

Lemma date_desc_id_desc_total :
  forall x y, date_desc_id_desc x y = false -> date_desc_id_desc y x = true.
Proof.
  intros x y. unfold date_desc_id_desc.
  rewrite (String.compare_antisym (Db.entry_date y) (Db.entry_date x)).
  destruct (Db.entry_date x ?= Db.entry_date y)%string; cbn;
    try discriminate; try reflexivity.
  rewrite Z.leb_gt, Z.leb_le. lia.
Qed.

Lemma date_desc_time_desc_total :
  forall x y, date_desc_time_desc x y = false -> date_desc_time_desc y x = true.
Proof.
  intros x y. unfold date_desc_time_desc.
  rewrite (String.compare_antisym (Db.entry_date y) (Db.entry_date x)).
  destruct (Db.entry_date x ?= Db.entry_date y)%string; cbn;
    try discriminate; try reflexivity.
  intros H. destruct (String.leb_total (Db.entry_time x) (Db.entry_time y))
    as [H'|H']; [exact H'|congruence].
Qed.

(** Date descending, then a total and transitive order within a date. *)
Lemma date_desc_then_trans :
  forall (within : Db.row -> Db.row -> bool),
    (forall x y z, within x y = true -> within y z = true ->
                   within x z = true) ->
    forall x y z,
      match (Db.entry_date y ?= Db.entry_date x)%string with
      | Lt => true | Eq => within x y | Gt => false
      end = true ->
      match (Db.entry_date z ?= Db.entry_date y)%string with
      | Lt => true | Eq => within y z | Gt => false
      end = true ->
      match (Db.entry_date z ?= Db.entry_date x)%string with
      | Lt => true | Eq => within x z | Gt => false
      end = true.
Proof.
  intros within Htrans x y z.
  destruct (Db.entry_date y ?= Db.entry_date x)%string eqn:Hyx;
    try discriminate;
    destruct (Db.entry_date z ?= Db.entry_date y)%string eqn:Hzy;
    try discriminate; intros Hxy Hyz.
  - apply String.compare_eq_iff in Hyx, Hzy. rewrite Hzy, Hyx.
    rewrite string_compare_refl. exact (Htrans x y z Hxy Hyz).
  - apply String.compare_eq_iff in Hyx. rewrite <- Hyx, Hzy. reflexivity.
  - apply String.compare_eq_iff in Hzy. rewrite Hzy, Hyx. reflexivity.
  - rewrite (string_compare_lt_trans _ _ _ Hzy Hyx). reflexivity.
Qed.

Lemma date_desc_id_desc_trans :
  forall x y z,
    date_desc_id_desc x y = true -> date_desc_id_desc y z = true ->
    date_desc_id_desc x z = true.
Proof.
  intros x y z. unfold date_desc_id_desc.
  apply (date_desc_then_trans (fun a b => (Db.id b <=? Db.id a)%Z)).
  intros a b c. rewrite !Z.leb_le. lia.
Qed.

Lemma date_desc_time_desc_trans :
  forall x y z,
    date_desc_time_desc x y = true -> date_desc_time_desc y z = true ->
    date_desc_time_desc x z = true.
Proof.
  intros x y z. unfold date_desc_time_desc.
  apply (date_desc_then_trans
           (fun a b => (Db.entry_time b <=? Db.entry_time a)%string)).
  intros a b c Hab Hbc. exact (string_leb_trans _ _ _ Hbc Hab).
Qed.

Lemma order_by_app_first :
  forall (A : Type) (before : A -> A -> bool) l n,
    (forall x, In x l -> before x n = false) ->
    order_by before (l ++ [n]) = n :: order_by before l.
Proof.
  intros A before l n. induction l as [|x l IH]; intros H; cbn; [reflexivity|].
  fold (order_by before (l ++ [n])). fold (order_by before l).
  rewrite IH by (intros y Hy; apply H; right; exact Hy).
  cbn. rewrite (H x) by (left; reflexivity). reflexivity.
Qed.

Lemma filter_none :
  forall (A : Type) (keep : A -> bool) l,
    (forall x, In x l -> keep x = false) -> filter keep l = [].
Proof.
  intros A keep l. induction l as [|x l IH]; intros H; cbn; [reflexivity|].
  rewrite (H x) by (left; reflexivity). apply IH.
  intros y Hy. apply H. right. exact Hy.
Qed.

(** X10. "Today's Entries" lists exactly the entries whose date is today,
    by descending id, and as many as the count of that date. An entry
    saved today comes first in the list, before the ones that were there;
    an entry saved on another date does not change the list. *)
Theorem todays_entries_are_newest_first :
  (forall today db r,
      In r (rows_of_date today db) <->
      In r (Db.rows db) /\ Db.entry_date r = today) /\
  (forall today db,
      StronglySorted (fun x y => (Db.id y <= Db.id x)%Z)
                     (rows_of_date today db)) /\
  (forall today db,
      List.length (today_entries today db) = summary_count (OnDate today) db) /\
  (forall date time ct name pm b_amt b_chg k_amt k_chg total rm db,
      Db.well_formed db ->
      rows_of_date date
                   (Db.insert date time ct name pm b_amt b_chg k_amt k_chg
                              total rm db)
      = Db.mkRow (Db.seq db + 1) date time ct name pm b_amt b_chg k_amt
                 k_chg total rm
        :: rows_of_date date db) /\
  (forall today date time ct name pm b_amt b_chg k_amt k_chg total rm db,
      today <> date ->
      rows_of_date today
                   (Db.insert date time ct name pm b_amt b_chg k_amt k_chg
                              total rm db)
      = rows_of_date today db).
Proof.
  split.
  { intros today db r. unfold rows_of_date. split.
    - intros H.
      apply (Permutation_in r (Permutation_sym (order_by_perm _ _ _))) in H.
      apply filter_In in H. destruct H as [Hin Hm]. cbn in Hm.
      apply String.eqb_eq in Hm. split; assumption.
    - intros [Hin Hd].
      apply (Permutation_in r (order_by_perm _ _ _)).
      apply filter_In. split; [exact Hin|]. cbn. apply String.eqb_eq.
      exact Hd. }
  split.
  { intros today db. unfold rows_of_date.
    pose proof (order_by_sorted _ id_desc id_desc_total id_desc_trans
                  (filter (matches (OnDate today)) (Db.rows db))) as H.
    induction H as [|x l Hs IH Hx]; constructor; [exact IH|].
    eapply Forall_impl; [|exact Hx]. cbn. intros y Hy.
    unfold id_desc in Hy. apply Z.leb_le. exact Hy. }
  split.
  { intros today db. unfold today_entries, rows_of_date, summary_count.
    rewrite length_map.
    apply Permutation_length. apply Permutation_sym. apply order_by_perm. }
  split.
  { intros date time ct name pm b_amt b_chg k_amt k_chg tot rm db [_ Hle].
    unfold rows_of_date, Db.insert. cbn [Db.rows].
    rewrite filter_app. cbn [filter matches Db.entry_date].
    rewrite String.eqb_refl. apply order_by_app_first.
    intros x Hx. apply filter_In in Hx. destruct Hx as [Hx _].
    unfold id_desc. cbn [Db.id]. apply Z.leb_gt.
    rewrite Forall_forall in Hle.
    specialize (Hle (Db.id x) (in_map Db.id _ _ Hx)). cbn in Hle. lia. }
  intros today date time ct name pm b_amt b_chg k_amt k_chg tot rm db Hne.
  unfold rows_of_date, Db.insert. cbn [Db.rows].
  rewrite filter_app. cbn [filter matches Db.entry_date].
  destruct (String.eqb_spec date today) as [E|_]; [congruence|].
  rewrite app_nil_r. reflexivity.
Qed.

Lemma todays_entries_are_newest_first_witness :
  Db.well_formed db_one /\
  map Db.id (rows_of_date "2024-01-01" db_day) = [2; 1]%Z /\
  ("2024-01-01" <> "2024-01-02")%string /\
  rows_of_date "2024-01-01" db_two = rows_of_date "2024-01-01" db_one.
Proof.
  destruct todays_entries_are_newest_first as (_ & _ & _ & Hnew & Hother).
  assert (Hwf : Db.well_formed db_one).
  { split; [constructor; [intros []|constructor]|].
    constructor; [cbn; lia|constructor]. }
  assert (Hne : ("2024-01-01" <> "2024-01-02")%string) by discriminate.
  split; [exact Hwf|]. split; [|split; [exact Hne|]].
  - unfold db_day. rewrite (Hnew _ _ _ _ _ _ _ _ _ _ _ db_one Hwf).
    reflexivity.
  - unfold db_two. apply Hother. exact Hne.
Defined.

(** X11. The listing of the "All Entries" tab holds exactly the entries
    whose date lies between the two dates, both included, ordered by date
    descending and then by id descending; there are as many as the count
    of that range, and a range whose end lies before its start lists
    nothing. *)
Theorem range_listing_is_exact_and_sorted :
  (forall lo hi db r,
      In r (list_by_range lo hi db) <->
      In r (Db.rows db) /\
      (lo <=? Db.entry_date r)%string = true /\
      (Db.entry_date r <=? hi)%string = true) /\
  (forall lo hi db,
      StronglySorted (fun x y => date_desc_id_desc x y = true)
                     (list_by_range lo hi db)) /\
  (forall lo hi db,
      List.length (list_by_range lo hi db) = summary_count (Between lo hi) db)
  /\
  (forall lo hi db,
      (hi <? lo)%string = true -> list_by_range lo hi db = []).
Proof.
  split.
  { intros lo hi db r. unfold list_by_range. split.
    - intros H.
      apply (Permutation_in r (Permutation_sym (order_by_perm _ _ _))) in H.
      apply filter_In in H. destruct H as [Hin Hm]. cbn in Hm.
      apply andb_true_iff in Hm. tauto.
    - intros (Hin & Hlo & Hhi).
      apply (Permutation_in r (order_by_perm _ _ _)).
      apply filter_In. split; [exact Hin|]. cbn. rewrite Hlo, Hhi.
      reflexivity. }
  split.
  { intros lo hi db. unfold list_by_range.
    apply order_by_sorted;
      [exact date_desc_id_desc_total|exact date_desc_id_desc_trans]. }
  split.
  { intros lo hi db. unfold list_by_range, summary_count.
    apply Permutation_length. apply Permutation_sym. apply order_by_perm. }
  intros lo hi db Hrev. unfold list_by_range.
  rewrite filter_none; [reflexivity|].
  intros r _. cbn.
  destruct (lo <=? Db.entry_date r)%string eqn:Hlo; [|reflexivity].
  destruct (Db.entry_date r <=? hi)%string eqn:Hhi; [|reflexivity].
  pose proof (string_leb_trans _ _ _ Hlo Hhi) as Hle.
  destruct (ltb_leb _ _ Hrev) as [_ Hgt]. congruence.
Qed.

Lemma range_listing_is_exact_and_sorted_witness :
  ("2024-01-01" <? "2024-01-31")%string = true /\
  list_by_range "2024-01-31" "2024-01-01" db_two = [] /\
  map Db.id (list_by_range "2024-01-01" "2024-01-31" db_two) = [2; 1]%Z.
Proof.
  assert (H : ("2024-01-01" <? "2024-01-31")%string = true) by reflexivity.
  split; [exact H|]. split; [|reflexivity].
  apply (proj2 (proj2 (proj2 range_listing_is_exact_and_sorted))
               "2024-01-31"%string "2024-01-01"%string db_two H).
Defined.

(** *** The summary and the export *)

Lemma count_by_mode :
  forall (keep : Db.row -> bool) rows,
    List.length (filter keep rows)
    = (List.length
         (filter (fun r => (keep r && pmode_eqb (Db.payment_mode r) Cash)%bool)
                 rows)
       + List.length
           (filter (fun r => (keep r && pmode_eqb (Db.payment_mode r) UPI)%bool)
                   rows))%nat.
Proof.
  intros keep rows. induction rows as [|r rows IH]; cbn; [reflexivity|].
  destruct (keep r); cbn [andb]; [|exact IH].
  destruct (Db.payment_mode r); cbn; lia.
Qed.

(** X12. The figures of a report agree with one another: the export has as
    many rows as the summary counts entries, the groups of the payment
    mode breakdown add up to that count and each group has at least one
    entry, and there is nothing to export exactly when the count is 0.
    The exported rows are the matching entries, ordered by date and then
    time, both descending. *)
Theorem report_figures_agree :
  forall c db,
    List.length (export_rows c db) = summary_count c db /\
    list_sum (map snd (breakdown c db)) = summary_count c db /\
    (forall pm n, In (pm, n) (breakdown c db) -> (0 < n)%nat) /\
    (export_rows c db = [] <-> summary_count c db = 0%nat) /\
    exists sorted,
      export_rows c db = map project sorted /\
      Permutation sorted (filter (matches c) (Db.rows db)) /\
      StronglySorted (fun x y => date_desc_time_desc x y = true) sorted.
Proof.
  intros c db.
  assert (Hlen : List.length (export_rows c db) = summary_count c db).
  { unfold export_rows, summary_count. rewrite length_map.
    apply Permutation_length. apply Permutation_sym. apply order_by_perm. }
  split; [exact Hlen|]. split.
  { unfold breakdown, summary_count. rewrite (count_by_mode (matches c)).
    cbn [flat_map].
    destruct (List.length (filter (fun r => (matches c r &&
                 pmode_eqb (Db.payment_mode r) Cash)%bool) (Db.rows db)));
      destruct (List.length (filter (fun r => (matches c r &&
                 pmode_eqb (Db.payment_mode r) UPI)%bool) (Db.rows db)));
      cbn; lia. }
  split.
  { intros pm n. unfold breakdown. cbn [flat_map].
    destruct (List.length (filter (fun r => (matches c r &&
                 pmode_eqb (Db.payment_mode r) Cash)%bool) (Db.rows db)));
      destruct (List.length (filter (fun r => (matches c r &&
                 pmode_eqb (Db.payment_mode r) UPI)%bool) (Db.rows db)));
      cbn; intros H; repeat (destruct H as [H|H]; [inversion H; lia|]);
      contradiction. }
  split.
  { rewrite <- Hlen. split; [intros ->; reflexivity|].
    destruct (export_rows c db); [reflexivity|discriminate]. }
  exists (order_by date_desc_time_desc (filter (matches c) (Db.rows db))).
  split; [reflexivity|]. split.
  - apply Permutation_sym. apply order_by_perm.
  - apply order_by_sorted;
      [exact date_desc_time_desc_total|exact date_desc_time_desc_trans].
Qed.

Lemma report_figures_agree_witness :
  In (Cash, 1%nat) (breakdown (Between "2024-01-01" "2024-01-31") db_two) /\
  (0 < 1)%nat.
Proof.
  assert (H : In (Cash, 1%nat)
                 (breakdown (Between "2024-01-01" "2024-01-31") db_two)).
  { left. reflexivity. }
  split; [exact H|].
  apply (proj1 (proj2 (proj2 (report_figures_agree
                                (Between "2024-01-01" "2024-01-31") db_two)))
               Cash 1%nat H).
Defined.

Lemma on_date_is_between :
  forall d r, matches (OnDate d) r = matches (Between d d) r.
Proof.
  intros d r. cbn. destruct (String.eqb_spec (Db.entry_date r) d) as [E|E].
  - rewrite E, string_leb_refl. reflexivity.
  - destruct (d <=? Db.entry_date r)%string eqn:Hlo; [|reflexivity].
    destruct (Db.entry_date r <=? d)%string eqn:Hhi; [|reflexivity].
    exfalso. apply E. symmetry. apply String.leb_antisym; assumption.
Qed.

Lemma sorted_permutation_unique :
  forall (A : Type) (R : A -> A -> Prop) l1 l2,
    StronglySorted R l1 ->
    StronglySorted R l2 ->
    Permutation l1 l2 ->
    (forall x y, In x l1 -> In y l1 -> R x y -> R y x -> x = y) ->
    l1 = l2.
Proof.
  intros A R l1. induction l1 as [|a l1 IH]; intros l2 Hs1 Hs2 Hp Hanti.
  - apply Permutation_nil in Hp. symmetry. exact Hp.
  - destruct l2 as [|b l2].
    { apply Permutation_sym, Permutation_nil in Hp. discriminate Hp. }
    inversion Hs1 as [|? ? Hs1' Ha]; subst.
    inversion Hs2 as [|? ? Hs2' Hb]; subst.
    assert (Hab : a = b).
    { assert (Hb1 : In b (a :: l1)).
      { apply (Permutation_in b (Permutation_sym Hp)). left. reflexivity. }
      assert (Ha2 : In a (b :: l2)).
      { apply (Permutation_in a Hp). left. reflexivity. }
      destruct Hb1 as [E|Hb1]; [exact E|].
      destruct Ha2 as [E|Ha2]; [symmetry; exact E|].
      rewrite Forall_forall in Ha, Hb.
      apply Hanti; [left; reflexivity|right; exact Hb1|apply Ha; exact Hb1
                   |apply Hb; exact Ha2]. }
    subst b. f_equal. apply IH; try assumption.
    + apply Permutation_cons_inv in Hp. exact Hp.
    + intros x y Hx Hy. apply Hanti; right; assumption.
Qed.

Lemma same_time_same_row :
  forall rows x y,
    NoDup (map Db.entry_time rows) -> In x rows -> In y rows ->
    Db.entry_time x = Db.entry_time y -> x = y.
Proof.
  induction rows as [|r rows IH]; intros x y Hnd Hx Hy Ht; [contradiction|].
  cbn in Hnd. inversion Hnd as [|? ? Hnotin Hnd']; subst.
  destruct Hx as [<-|Hx]; destruct Hy as [<-|Hy].
  - reflexivity.
  - exfalso. apply Hnotin. rewrite Ht. apply in_map. exact Hy.
  - exfalso. apply Hnotin. rewrite <- Ht. apply in_map. exact Hx.
  - apply IH; assumption.
Qed.

Lemma date_desc_time_desc_antisym :
  forall x y,
    date_desc_time_desc x y = true -> date_desc_time_desc y x = true ->
    Db.entry_time x = Db.entry_time y.
Proof.
  intros x y. unfold date_desc_time_desc.
  rewrite (String.compare_antisym (Db.entry_date y) (Db.entry_date x)).
  destruct (Db.entry_date x ?= Db.entry_date y)%string; cbn;
    try discriminate.
  intros Hyx Hxy. apply String.leb_antisym; assumption.
Qed.

Lemma order_by_is_ordered_result :
  forall lo hi db,
    ordered_result date_desc_time_desc
                   (filter (matches (Between lo hi)) (Db.rows db))
                   (order_by date_desc_time_desc
                             (filter (matches (Between lo hi)) (Db.rows db))).
Proof.
  intros lo hi db. split; [apply order_by_perm|].
  apply order_by_sorted;
    [exact date_desc_time_desc_total|exact date_desc_time_desc_trans].
Qed.

(** X13. A daily report is the date range report whose two dates are that
    day: the same count, the same breakdown and the same rows to export.
    Whatever order the two export queries give to entries that tie on
    date and time, their results hold the same rows, and they are the
    same row by row when the entries of the day have pairwise distinct
    times. *)
Theorem daily_report_is_a_one_day_range :
  forall report_date db,
    let daily := query_condition Daily report_date report_date report_date in
    let range := query_condition DateRange report_date report_date
                                 report_date in
    summary_count daily db = summary_count range db /\
    breakdown daily db = breakdown range db /\
    Permutation (export_rows daily db) (export_rows range db) /\
    forall from_daily from_range,
      ordered_result date_desc_time_desc
                     (filter (matches daily) (Db.rows db)) from_daily ->
      ordered_result date_desc_time_desc
                     (filter (matches range) (Db.rows db)) from_range ->
      Permutation (map project from_daily) (map project from_range) /\
      (NoDup (map Db.entry_time from_daily) ->
       map project from_daily = map project from_range).
Proof.
  intros d db. cbv zeta. cbn [query_condition].
  assert (Hf : filter (matches (OnDate d)) (Db.rows db)
               = filter (matches (Between d d)) (Db.rows db)).
  { apply filter_ext. intros r. apply on_date_is_between. }
  split; [unfold summary_count; rewrite Hf; reflexivity|].
  split.
  { unfold breakdown. cbn [flat_map].
    rewrite !(filter_ext
                (fun r => (matches (OnDate d) r &&
                           pmode_eqb (Db.payment_mode r) _)%bool)
                (fun r => (matches (Between d d) r &&
                           pmode_eqb (Db.payment_mode r) _)%bool))
      by (intros r; rewrite on_date_is_between; reflexivity).
    reflexivity. }
  split; [unfold export_rows; rewrite Hf; apply Permutation_refl|].
  intros from_daily from_range [Hp1 Hs1] [Hp2 Hs2]. rewrite Hf in Hp1.
  assert (Hp : Permutation from_daily from_range).
  { eapply Permutation_trans; [apply Permutation_sym; exact Hp1|exact Hp2]. }
  split; [apply Permutation_map; exact Hp|].
  intros Hnd. f_equal.
  apply (sorted_permutation_unique _ _ from_daily from_range Hs1 Hs2 Hp).
  intros x y Hx Hy Hxy Hyx.
  apply (same_time_same_row from_daily); try assumption.
  apply date_desc_time_desc_antisym; assumption.
Qed.

Lemma daily_report_is_a_one_day_range_witness :
  let day := filter (matches (Between "2024-01-01" "2024-01-01"))
                    (Db.rows db_day) in
  let sorted := order_by date_desc_time_desc day in
  ordered_result date_desc_time_desc
                 (filter (matches (OnDate "2024-01-01")) (Db.rows db_day))
                 sorted /\
  ordered_result date_desc_time_desc day sorted /\
  NoDup (map Db.entry_time sorted) /\
  map project sorted = map project sorted.
Proof.
  cbv zeta.
  assert (H : ordered_result date_desc_time_desc
                (filter (matches (Between "2024-01-01" "2024-01-01"))
                        (Db.rows db_day))
                (order_by date_desc_time_desc
                   (filter (matches (Between "2024-01-01" "2024-01-01"))
                           (Db.rows db_day)))).
  { apply order_by_is_ordered_result. }
  assert (Hnd : NoDup (map Db.entry_time
                         (order_by date_desc_time_desc
                            (filter (matches (Between "2024-01-01"
                                                      "2024-01-01"))
                                    (Db.rows db_day))))).
  { vm_compute. constructor; [intros [E|[]]; discriminate E|].
    constructor; [intros []|constructor]. }
  split; [exact H|]. split; [exact H|]. split; [exact Hnd|].
  apply (proj2 (proj2 (proj2 (proj2 (daily_report_is_a_one_day_range
                                       "2024-01-01"%string db_day)))
                      _ _ H H) Hnd).
Defined.

(** *** The PDF report *)

Lemma cells_drawn_app :
  forall a b, cells_drawn (a ++ b) = cells_drawn a ++ cells_drawn b.
Proof. intros a b. unfold cells_drawn. apply flat_map_app. Qed.

Lemma row_heights_app :
  forall a b, row_heights (a ++ b) = row_heights a ++ row_heights b.
Proof. intros a b. unfold row_heights. apply flat_map_app. Qed.

Lemma draw_rows_cells :
  forall height rows y,
    cells_drawn (draw_rows height rows y) = flat_map row_cells rows.
Proof.
  induction rows as [|r rows IH]; intros y; cbn [draw_rows flat_map];
    [reflexivity|].
  destruct (y <? PDF_BOTTOM_MARGIN)%float.
  - change (ShowPage :: SetFont "Helvetica" 9
              :: draw_cells 0 (row_cells r) (height - PDF_TOP_MARGIN)%float
              ++ draw_rows height rows (height - PDF_TOP_MARGIN - 14)%float)
      with ([ShowPage; SetFont "Helvetica" 9]
              ++ draw_cells 0 (row_cells r) (height - PDF_TOP_MARGIN)%float
              ++ draw_rows height rows (height - PDF_TOP_MARGIN - 14)%float).
    rewrite !cells_drawn_app, IH. reflexivity.
  - rewrite cells_drawn_app, IH. reflexivity.
Qed.

Lemma draw_rows_pages :
  forall height rows y,
    (pages (draw_rows height rows y) <= S (List.length rows))%nat.
Proof.
  unfold pages. induction rows as [|r rows IH]; intros y;
    cbn [draw_rows List.length]; [cbn; lia|].
  destruct (y <? PDF_BOTTOM_MARGIN)%float.
  - specialize (IH (height - PDF_TOP_MARGIN - 14)%float).
    cbn [filter]. cbn [draw_cells row_cells filter app List.length] in *. lia.
  - specialize (IH (y - 14)%float).
    cbn [draw_cells row_cells filter app List.length] in *. lia.
Qed.

(** X14. The PDF writes the title, the six column headers once, and then
    every row of the report exactly once and in order, six cells per row,
    whatever the page breaks; the customer name is cut to its first 15
    characters. A report of n rows has at most n + 1 pages, and the column
    headers are not repeated on the pages that follow the first. *)
Theorem pdf_writes_every_row_once :
  forall width height df report_date,
    let ops := generate_pdf width height df report_date in
    cells_drawn ops
    = Title report_date :: map Header headers ++ flat_map row_cells df /\
    (forall name, In (CellCustomer name) (cells_drawn ops) ->
                  (List.length name <= 15)%nat /\
                  exists r, In r df /\ name = firstn 15 (ex_Customer r)) /\
    (pages ops <= S (List.length df))%nat.
Proof.
  intros width height df report_date. cbv zeta.
  assert (Hcells : cells_drawn (generate_pdf width height df report_date)
                   = Title report_date :: map Header headers
                       ++ flat_map row_cells df).
  { unfold generate_pdf. rewrite !cells_drawn_app, draw_rows_cells.
    cbn. rewrite app_nil_r. reflexivity. }
  split; [exact Hcells|]. split.
  - rewrite Hcells. intros name [H|H]; [discriminate H|].
    apply in_app_or in H. destruct H as [H|H].
    + cbn in H. repeat (destruct H as [H|H]; [discriminate H|]).
      contradiction.
    + apply in_flat_map in H. destruct H as (r & Hr & Hc).
      unfold row_cells in Hc. cbn [In] in Hc.
      repeat (destruct Hc as [Hc|Hc]; try discriminate Hc).
      * assert (Hn : name = firstn 15 (ex_Customer r)) by congruence.
        clear Hc. subst name. split; [apply firstn_le_length|].
        exists r. split; [exact Hr|reflexivity].
      * contradiction.
  - unfold generate_pdf, pages.
    pose proof (draw_rows_pages height df
                  (height - PDF_TOP_MARGIN - 30 - 15 - 15)%float) as Hp.
    unfold pages in Hp. cbn [app filter draw_headers headers].
    rewrite filter_app. cbn [filter]. rewrite app_nil_r. exact Hp.
Qed.

Lemma pdf_writes_every_row_once_witness :
  let ops := generate_pdf 595 842 report_of_one "2024-01-01" in
  In (CellCustomer (text "Ramachandra Des")) (cells_drawn ops) /\
  (List.length (text "Ramachandra Des") <= 15)%nat.
Proof.
  cbv zeta.
  assert (H : In (CellCustomer (text "Ramachandra Des"))
                 (cells_drawn (generate_pdf 595 842 report_of_one
                                            "2024-01-01"))).
  { vm_compute. do 8 right. left. reflexivity. }
  split; [exact H|].
  apply (proj1 (proj2 (pdf_writes_every_row_once 595 842 report_of_one
                         "2024-01-01"%string))
               (text "Ramachandra Des") H).
Defined.

Lemma draw_rows_heights :
  forall height,
    (height - PDF_TOP_MARGIN <? PDF_BOTTOM_MARGIN)%float = false ->
    forall rows y,
      Forall (fun h => (h <? PDF_BOTTOM_MARGIN)%float = false)
             (row_heights (draw_rows height rows y)) /\
      List.length (row_heights (draw_rows height rows y))
      = (6 * List.length rows)%nat.
Proof.
  intros height Htop. induction rows as [|r rows IH]; intros y;
    cbn [draw_rows]; [split; [constructor|reflexivity]|].
  destruct (y <? PDF_BOTTOM_MARGIN)%float eqn:Hy.
  - destruct (IH (height - PDF_TOP_MARGIN - 14)%float) as [IHf IHl].
    change (ShowPage :: SetFont "Helvetica" 9
              :: draw_cells 0 (row_cells r) (height - PDF_TOP_MARGIN)%float
              ++ draw_rows height rows (height - PDF_TOP_MARGIN - 14)%float)
      with ([ShowPage; SetFont "Helvetica" 9]
              ++ draw_cells 0 (row_cells r) (height - PDF_TOP_MARGIN)%float
              ++ draw_rows height rows (height - PDF_TOP_MARGIN - 14)%float).
    rewrite !row_heights_app. split.
    + apply Forall_app. split; [constructor|].
      apply Forall_app. split; [|exact IHf].
      cbn. repeat constructor; exact Htop.
    + rewrite !length_app, IHl. cbn [List.length]. cbn. lia.
  - destruct (IH (y - 14)%float) as [IHf IHl].
    rewrite row_heights_app. split.
    + apply Forall_app. split; [|exact IHf].
      cbn. repeat constructor; exact Hy.
    + rewrite length_app, IHl. cbn. lia.
Qed.

(** X15. On a page tall enough for one row below the top margin, no row of
    the PDF is written below the bottom margin: each of the six cells of
    every row is written at a height that is not under PDF_BOTTOM_MARGIN,
    a new page being started first when the cursor has passed it. *)
Theorem pdf_rows_stay_above_the_bottom_margin :
  forall width height df report_date,
    (height - PDF_TOP_MARGIN <? PDF_BOTTOM_MARGIN)%float = false ->
    let heights := row_heights (generate_pdf width height df report_date) in
    Forall (fun h => (h <? PDF_BOTTOM_MARGIN)%float = false) heights /\
    List.length heights = (6 * List.length df)%nat.
Proof.
  intros width height df report_date Htop. cbv zeta.
  unfold generate_pdf. rewrite !row_heights_app.
  destruct (draw_rows_heights height Htop df
              (height - PDF_TOP_MARGIN - 30 - 15 - 15)%float) as [Hf Hl].
  cbn [row_heights flat_map draw_headers headers app].
  rewrite app_nil_r. fold (row_heights (draw_rows height df
                             (height - PDF_TOP_MARGIN - 30 - 15 - 15)%float)).
  split; assumption.
Qed.

Lemma pdf_rows_stay_above_the_bottom_margin_witness :
  (842 - PDF_TOP_MARGIN <? PDF_BOTTOM_MARGIN)%float = false /\
  Forall (fun h => (h <? PDF_BOTTOM_MARGIN)%float = false)
         (row_heights (generate_pdf 595 842 report_of_one "2024-01-01")).
Proof.
  assert (H : (842 - PDF_TOP_MARGIN <? PDF_BOTTOM_MARGIN)%float = false)
    by reflexivity.
  split; [exact H|].
  apply (proj1 (pdf_rows_stay_above_the_bottom_margin
                  595 842 report_of_one "2024-01-01"%string H)).
Defined.

(** *** Typing into a line; what a save stores *)

Lemma render_lines_retyped :
  forall typed_amt typed_chg k rp len,
    (forall key, key <> k -> typed_amt key = None /\ typed_chg key = None) ->
    forall entries i amt chg,
      Forall (fun e => has_id e = true) entries ->
      fst (fst (fst (render_lines typed_amt typed_chg rp len i entries
                                  amt chg)))
      = map (retyped typed_amt typed_chg k) entries.
Proof.
  intros typed_amt typed_chg k rp len Hother.
  induction entries as [|e rest IH]; intros i amt chg Hid;
    cbn [render_lines map]; [reflexivity|].
  inversion Hid as [|? ? He Hrest]; subst.
  specialize (IH (S i)
                 (amt + amount (read_line typed_amt typed_chg e i))%float
                 (chg + charge (read_line typed_amt typed_chg e i))%float
                 Hrest).
  destruct (render_lines typed_amt typed_chg rp len (S i) rest _ _)
    as [[[rest' rm] a'] c'].
  cbn [fst] in *. rewrite IH. f_equal.
  unfold has_id in He. unfold retyped, keeps, read_line, unique_key.
  destruct e as [a p [k0|]]; [|discriminate]. cbn [line_id amount charge_pct].
  destruct (Z.eqb_spec k0 k) as [->|Hne]; cbn [negb]; [reflexivity|].
  destruct (Hother k0 Hne) as [-> ->]. reflexivity.
Qed.

(** X16. A value typed into the inputs of the line with id k reaches that
    line and no other: when every line carries an id and only the inputs
    keyed by k were typed into, the collection after the run is the old
    one with the line of id k taking the typed values (when they are
    within the bounds of the input) and every other line unchanged,
    wherever the lines stand in the list. *)
Theorem typing_reaches_only_its_line :
  forall typed_amt typed_chg k entries counter,
    Forall (fun e => has_id e = true) entries ->
    (forall key, key <> k -> typed_amt key = None /\ typed_chg key = None) ->
    let s := render_section typed_amt typed_chg not_pressed false
                            entries counter in
    sec_entries s = map (retyped typed_amt typed_chg k) entries /\
    sec_counter s = counter /\
    ids_of (sec_entries s) = ids_of entries.
Proof.
  intros typed_amt typed_chg k entries counter Hid Hother. cbv zeta.
  unfold render_section. rewrite assign_ids_fixed by exact Hid.
  pose proof (render_lines_retyped typed_amt typed_chg k not_pressed
                (List.length entries) Hother entries 0 0 0 Hid) as Hread.
  pose proof (render_lines_not_pressed typed_amt typed_chg not_pressed
                (List.length entries) entries 0 0 0 (fun _ => eq_refl)) as Hrm.
  pose proof (render_lines_ids_of typed_amt typed_chg not_pressed
                (List.length entries) entries 0 0 0) as Hids.
  destruct (render_lines typed_amt typed_chg not_pressed
              (List.length entries) 0 entries 0 0)
    as [[[entries2 rm] amt] chg].
  cbn [fst snd] in *. subst rm. rewrite remove_marked_nil.
  cbn [sec_entries sec_counter]. rewrite <- Hread.
  split; [reflexivity|]. split; [reflexivity|exact Hids].
Qed.

Lemma typing_reaches_only_its_line_witness :
  let typed := fun key => if (key =? 2)%Z then Some 250%float else None in
  let s := render_section typed nothing_typed not_pressed false two_lines 3 in
  Forall (fun e => has_id e = true) two_lines /\
  (forall key, key <> 2%Z -> typed key = None /\ nothing_typed key = None) /\
  sec_entries s = [mkLine 100 1 (Some 1%Z); mkLine 250 3 (Some 2%Z)].
Proof.
  cbv zeta.
  assert (Hid : Forall (fun e => has_id e = true) two_lines)
    by (repeat constructor).
  assert (Hother : forall key, key <> 2%Z ->
             (if (key =? 2)%Z then Some 250%float else None) = None /\
             nothing_typed key = None).
  { intros key Hne. destruct (Z.eqb_spec key 2); [contradiction|].
    split; reflexivity. }
  split; [exact Hid|]. split; [exact Hother|].
  destruct (typing_reaches_only_its_line
              (fun key => if (key =? 2)%Z then Some 250%float else None)
              nothing_typed 2%Z two_lines 3%Z Hid Hother) as (Hentries & _).
  rewrite Hentries. reflexivity.
Defined.

Lemma section_totals :
  forall typed_amt typed_chg remove_pressed add_pressed entries counter,
    let s := render_section typed_amt typed_chg remove_pressed add_pressed
                            entries counter in
    sec_rerun s = false ->
    sec_amt s = total (map amount (sec_entries s)) /\
    sec_chg s = total (map charge (sec_entries s)).
Proof.
  intros typed_amt typed_chg remove_pressed add_pressed entries counter.
  cbv zeta. unfold render_section.
  destruct (assign_ids entries counter) as [entries1 counter1].
  destruct (render_lines typed_amt typed_chg remove_pressed
              (List.length entries1) 0 entries1 0 0)
    as [[[entries2 rm] amt] chg] eqn:E.
  apply render_lines_totals in E. destruct E as [Ha Hc].
  destruct rm as [|j rm]; cbn; [|discriminate].
  destruct add_pressed; cbn; [discriminate|].
  intros _. split; assumption.
Qed.

(** X17. What a save stores is what the form shows: the row appended by a
    successful save holds, as b_amount and b_charges, the sums of the
    amounts and of the charges of the deposit lines as read in that run,
    as k_amount and k_charges the same sums over the withdrawal lines, and
    the customer type and payment mode chosen in the form. *)
Theorem saved_totals_are_the_line_sums :
  forall fe ss db,
    let r := render_new_entry_tab fe ss db in
    let shown := r_session (render_new_entry_tab (release fe) ss db) in
    In OkEntrySaved (r_shown r) ->
    exists row,
      Db.rows (r_db r) = Db.rows db ++ [row] /\
      Db.b_amount row = total (map amount (b_entries shown)) /\
      Db.b_charges row = total (map charge (b_entries shown)) /\
      Db.k_amount row = total (map amount (k_entries shown)) /\
      Db.k_charges row = total (map charge (k_entries shown)) /\
      Db.customer_type row = customer_type shown /\
      Db.payment_mode row = payment_mode shown /\
      Db.customer_name row = strip (customer_name shown).
Proof.
  intros fe ss db. cbv zeta. intros Hsaved.
  destruct (new_entry_tab_cases fe ss db) as [(_ & Hshown & _)|(Hp & _)].
  { rewrite Hshown in Hsaved. contradiction. }
  revert Hsaved.
  unfold render_new_entry_tab, st_button. rewrite Hp.
  cbn [release pressed button_eqb typed_b_amt typed_b_chg typed_k_amt
               typed_k_chg typed_customer_type typed_payment_mode
               typed_customer_name typed_remarks
               set_form b_entries b_counter k_entries k_counter].
  pose proof (section_totals (typed_b_amt fe) (typed_b_chg fe)
                (fun _ => false) false (b_entries ss) (b_counter ss)) as Hb.
  pose proof (section_totals (typed_k_amt fe) (typed_k_chg fe)
                (fun _ => false) false (k_entries ss) (k_counter ss)) as Hk.
  cbv zeta in Hb, Hk.
  rewrite (render_section_not_pressed (typed_b_amt fe) (typed_b_chg fe)
             (fun _ => false) (b_entries ss) (b_counter ss) (fun _ => eq_refl))
    in *.
  cbn [set_b set_form k_entries k_counter] in *.
  rewrite (render_section_not_pressed (typed_k_amt fe) (typed_k_chg fe)
             (fun _ => false) (k_entries ss) (k_counter ss) (fun _ => eq_refl))
    in *.
  destruct (Hb eq_refl) as [Hba Hbc]. destruct (Hk eq_refl) as [Hka Hkc].
  cbv beta iota zeta. intros Hsaved.
  match goal with
  | H : In OkEntrySaved (r_shown (save_entry ?f ?ba ?bc ?ka ?kc ?s ?d)) |- _ =>
      destruct (save_entry_cases f ba bc ka kc s d)
        as [(_ & _ & _ & Hnot & _)|(_ & _ & _ & Hrows & _)];
        [contradiction|]
  end.
  eexists. split; [exact Hrows|].
  unfold saved_row. cbn [Db.b_amount Db.b_charges Db.k_amount Db.k_charges
                         Db.customer_type Db.payment_mode Db.customer_name
                         r_session set_remarks set_k set_b set_form
                         b_entries k_entries customer_type payment_mode
                         customer_name].
  repeat split; assumption.
Qed.

Lemma saved_totals_are_the_line_sums_witness :
  let fe := press BtnSave today in
  let ss := form_with name_A two_lines in
  let r := render_new_entry_tab fe ss Db.empty in
  In OkEntrySaved (r_shown r) /\
  map Db.b_amount (Db.rows (r_db r)) = [400%float] /\
  map Db.b_charges (Db.rows (r_db r)) = [10%float].
Proof.
  cbv zeta.
  assert (H : In OkEntrySaved
                 (r_shown (render_new_entry_tab (press BtnSave today)
                             (form_with name_A two_lines) Db.empty))).
  { left. reflexivity. }
  split; [exact H|].
  destruct (saved_totals_are_the_line_sums (press BtnSave today)
              (form_with name_A two_lines) Db.empty H)
    as (row & Hrows & Hba & Hbc & _).
  rewrite Hrows. cbn [Db.rows Db.empty app map]. rewrite Hba, Hbc.
  split; reflexivity.
Defined.

(** *** One write per run; an update without edits *)

Lemma delete_gone_others_kept :
  forall eid db,
    ~ In eid (Db.ids (Db.delete eid db)) /\
    forall other, other <> eid ->
                  lookup other (Db.delete eid db) = lookup other db.
Proof.
  intros eid [rows seq]. unfold Db.delete, Db.ids, lookup. cbn [Db.rows].
  split.
  - intros Hin. apply in_map_iff in Hin. destruct Hin as (r & Hid & Hr).
    apply filter_In in Hr. destruct Hr as [_ Hr].
    rewrite Hid, Z.eqb_refl in Hr. discriminate.
  - intros other Hne. induction rows as [|r rows IH]; cbn; [reflexivity|].
    destruct (Z.eqb_spec (Db.id r) eid) as [E|E]; cbn.
    + destruct (Z.eqb_spec (Db.id r) other); [congruence|]. exact IH.
    + destruct (Db.id r =? other)%Z; [reflexivity|]. exact IH.
Qed.

(** X18. A run of the whole script writes at most once. It leaves the
    table as it is, or appends one row with the next id, or rewrites the
    entry of one id that is in the table, or deletes the entry of one id
    that is in the table; in the last two cases every entry with another
    id reads back as before. *)
Theorem a_run_writes_at_most_once :
  forall fe ss db,
    let db' := r_db (main fe ss db) in
    db' = db \/
    (exists row,
        Db.rows db' = Db.rows db ++ [row] /\
        Db.id row = (Db.seq db + 1)%Z) \/
    (exists eid,
        In eid (Db.ids db) /\ Db.ids db' = Db.ids db /\
        forall other, other <> eid -> lookup other db' = lookup other db) \/
    (exists eid,
        In eid (Db.ids db) /\ ~ In eid (Db.ids db') /\
        forall other, other <> eid -> lookup other db' = lookup other db).
Proof.
  intros fe ss db. cbv zeta.
  destruct (main_writes fe ss db)
    as [H|[(ss' & b_amt & b_chg & k_amt & k_chg & Hrows & _)
          |[(en & ct & pm & b_amt & b_chg & k_amt & k_chg & rm & eid & Hin & _
             & H)
           |(eid & Hin & H)]]].
  - left. exact H.
  - right. left. eexists. split; [exact Hrows|reflexivity].
  - right. right. left. exists eid. rewrite H.
    split; [exact Hin|]. split; [apply update_keeps_ids|].
    intros other Hne. rewrite lookup_update.
    destruct (Z.eqb_spec other eid); [contradiction|reflexivity].
  - right. right. right. exists eid. rewrite H.
    destruct (delete_gone_others_kept eid db) as (Hgone & Hother).
    split; [exact Hin|]. split; [exact Hgone|exact Hother].
Qed.

Lemma find_by_id :
  forall eid rows,
    In eid (map Db.id rows) ->
    exists r, find (fun r => (Db.id r =? eid)%Z) rows = Some r /\
              In r rows /\ Db.id r = eid.
Proof.
  intros eid rows. induction rows as [|x rows IH]; cbn; [intros []|].
  intros Hin. destruct (Z.eqb_spec (Db.id x) eid) as [E|E].
  - exists x. split; [reflexivity|]. split; [left; reflexivity|exact E].
  - destruct Hin as [Hin|Hin]; [contradiction|].
    destruct (IH Hin) as (r & Hf & Hr & Hid).
    exists r. split; [exact Hf|]. split; [right; exact Hr|exact Hid].
Qed.

Lemma same_id_same_row :
  forall rows x y,
    NoDup (map Db.id rows) -> In x rows -> In y rows ->
    Db.id x = Db.id y -> x = y.
Proof.
  induction rows as [|r rows IH]; intros x y Hnd Hx Hy Hid; [contradiction|].
  cbn in Hnd. inversion Hnd as [|? ? Hnotin Hnd']; subst.
  destruct Hx as [<-|Hx]; destruct Hy as [<-|Hy].
  - reflexivity.
  - exfalso. apply Hnotin. rewrite Hid. apply in_map. exact Hy.
  - exfalso. apply Hnotin. rewrite <- Hid. apply in_map. exact Hx.
  - apply IH; assumption.
Qed.

Lemma number_input_of_its_value :
  forall lo hi v, number_input lo hi v (Some v) = v.
Proof.
  intros lo hi v. unfold number_input.
  destruct (_ && _)%bool; reflexivity.
Qed.

Lemma update_with_own_values :
  forall row db,
    In row (Db.rows db) ->
    NoDup (Db.ids db) ->
    Db.grand_charges row = (Db.b_charges row + Db.k_charges row)%float ->
    Db.update (Db.customer_name row) (Db.customer_type row)
              (Db.payment_mode row) (Db.b_amount row) (Db.b_charges row)
              (Db.k_amount row) (Db.k_charges row)
              (Db.b_charges row + Db.k_charges row)%float (Db.remarks row)
              (Db.id row) db
    = db.
Proof.
  intros row [rows seq] Hin Hnd Hsum. unfold Db.update, Db.ids in *.
  cbn [Db.rows Db.seq] in *.
  f_equal. rewrite <- (map_id rows) at 2. apply map_ext_in.
  intros x Hx. destruct (Z.eqb_spec (Db.id x) (Db.id row)) as [Ex|_];
    [|reflexivity].
  assert (Hsame : x = row) by (apply (same_id_same_row rows); assumption).
  subst x. rewrite <- Hsum. destruct row. reflexivity.
Qed.

(** X19. Updating an entry with its own values changes nothing in the
    table. For an entry of a table with distinct ids, whose grand_charges
    is b_charges + k_charges and whose name is not blank: the update
    written with the entry's id and its own values leaves the table as it
    is and reports success; and so does pressing "Update Entry" in a run
    where that entry is selected and the edit widgets show its values. *)
Theorem update_with_own_values_changes_nothing :
  forall row ss db,
    In row (Db.rows db) ->
    NoDup (Db.ids db) ->
    Db.grand_charges row = (Db.b_charges row + Db.k_charges row)%float ->
    truthy (strip (Db.customer_name row)) = true ->
    update_entry (Db.id row) (Db.customer_name row) (Db.customer_type row)
                 (Db.payment_mode row) (Db.b_amount row) (Db.b_charges row)
                 (Db.k_amount row) (Db.k_charges row) (Db.remarks row) ss db
    = mkResult ss db [OkEntryUpdated] Rerun /\
    forall fe,
      pressed fe = Some BtnUpdate ->
      In row (list_by_range (start_date fe) (end_date fe) db) ->
      selected fe = Some (Db.id row) ->
      edit_form_shows row fe ->
      render_all_entries_tab fe ss db = mkResult ss db [OkEntryUpdated] Rerun.
Proof.
  intros row ss db Hin Hnd Hsum Hname.
  assert (Hupd : update_entry (Db.id row) (Db.customer_name row)
                   (Db.customer_type row) (Db.payment_mode row)
                   (Db.b_amount row) (Db.b_charges row) (Db.k_amount row)
                   (Db.k_charges row) (Db.remarks row) ss db
                 = mkResult ss db [OkEntryUpdated] Rerun).
  { unfold update_entry. rewrite Hname. cbn [negb].
    rewrite (update_with_own_values row db Hin Hnd Hsum). reflexivity. }
  split; [exact Hupd|].
  intros fe Hp Hlisted Hsel (Hn & Hct & Hpm & Hba & Hbc & Hka & Hkc & Hrm).
  unfold render_all_entries_tab.
  destruct (list_by_range (start_date fe) (end_date fe) db)
    as [|first rest] eqn:E; [contradiction|].
  unfold st_button. rewrite Hp. cbn [button_eqb].
  assert (Heid : selectbox (map Db.id (first :: rest)) (Db.id first)
                           (selected fe) = Db.id row).
  { unfold selectbox. rewrite Hsel.
    destruct (existsb (Z.eqb (Db.id row)) (map Db.id (first :: rest)))
      eqn:Ex; [reflexivity|].
    assert (Hex : existsb (Z.eqb (Db.id row)) (map Db.id (first :: rest))
                  = true).
    { apply existsb_exists. exists (Db.id row).
      split; [apply in_map; exact Hlisted|apply Z.eqb_refl]. }
    congruence. }
  rewrite Heid.
  destruct (find_by_id (Db.id row) (first :: rest))
    as (found & Hfind & Hfound & Hid); [apply in_map; exact Hlisted|].
  rewrite Hfind.
  assert (Hsame : found = row).
  { destruct db as [rows seq]. unfold Db.ids in Hnd. cbn [Db.rows] in *.
    apply (same_id_same_row rows); try assumption.
    apply (list_by_range_in_store (start_date fe) (end_date fe)
                                  {| Db.rows := rows; Db.seq := seq |}).
    rewrite E. exact Hfound. }
  subst found. rewrite Hn, Hct, Hpm, Hba, Hbc, Hka, Hkc, Hrm. exact Hupd.
Qed.

Lemma update_with_own_values_changes_nothing_witness :
  let fe := holding entry_1 (press BtnUpdate (select 1 today)) in
  In entry_1 (Db.rows db_two) /\
  NoDup (Db.ids db_two) /\
  pressed fe = Some BtnUpdate /\
  In entry_1 (list_by_range (start_date fe) (end_date fe) db_two) /\
  selected fe = Some (Db.id entry_1) /\
  edit_form_shows entry_1 fe /\
  render_all_entries_tab fe initial_session db_two
  = mkResult initial_session db_two [OkEntryUpdated] Rerun.
Proof.
  cbv zeta.
  assert (Hin : In entry_1 (Db.rows db_two)) by (left; reflexivity).
  assert (Hnd : NoDup (Db.ids db_two)).
  { constructor; [intros [H|[]]; discriminate H|].
    constructor; [intros []|constructor]. }
  assert (Hsum : Db.grand_charges entry_1
                 = (Db.b_charges entry_1 + Db.k_charges entry_1)%float)
    by reflexivity.
  assert (Hname : truthy (strip (Db.customer_name entry_1)) = true)
    by reflexivity.
  assert (Hp : pressed (holding entry_1 (press BtnUpdate (select 1 today)))
               = Some BtnUpdate) by reflexivity.
  assert (Hlisted : In entry_1
                       (list_by_range
                          (start_date (holding entry_1
                                         (press BtnUpdate (select 1 today))))
                          (end_date (holding entry_1
                                       (press BtnUpdate (select 1 today))))
                          db_two)).
  { vm_compute. right. left. reflexivity. }
  assert (Hsel : selected (holding entry_1 (press BtnUpdate (select 1 today)))
                 = Some (Db.id entry_1)) by reflexivity.
  assert (Hshows : edit_form_shows entry_1
                     (holding entry_1 (press BtnUpdate (select 1 today)))).
  { unfold edit_form_shows, holding.
    cbn [edit_name edit_ct edit_pm edit_ba edit_bc edit_ka edit_kc edit_rm
         widget].
    rewrite !number_input_of_its_value. repeat split. }
  split; [exact Hin|]. split; [exact Hnd|]. split; [exact Hp|].
  split; [exact Hlisted|]. split; [exact Hsel|]. split; [exact Hshows|].
  apply (proj2 (update_with_own_values_changes_nothing
                  entry_1 initial_session db_two Hin Hnd Hsum Hname)
               _ Hp Hlisted Hsel Hshows).
Defined.

(** X20. No entry of the table ever has a blank customer name: along any
    sequence of runs, from a table whose names are not blank, every stored
    name still has a character that is not white space. Both the save and
    the update refuse a name that is empty once trimmed. *)
Theorem customer_names_are_never_blank :
  forall events ss db,
    names_not_blank db ->
    names_not_blank (snd (run events ss db)).
Proof.
  induction events as [|fe rest IH]; intros ss db Hdb; cbn; [exact Hdb|].
  apply IH. clear IH.
  destruct (main_writes fe ss db)
    as [->|[(ss' & b_amt & b_chg & k_amt & k_chg & Hrows & _ & Hname)
           |[(en & ct & pm & b_amt & b_chg & k_amt & k_chg & rm & eid & _
              & Hname & ->)
            |(eid & _ & ->)]]].
  - exact Hdb.
  - intros r Hr. rewrite Hrows in Hr. apply in_app_or in Hr.
    destruct Hr as [Hr|[<-|[]]]; [apply Hdb; exact Hr|].
    unfold saved_row. cbn [Db.customer_name]. rewrite strip_idempotent.
    destruct (strip (customer_name ss')); [contradiction|reflexivity].
  - intros r Hr. apply update_rows_in in Hr.
    destruct Hr as [Hr|(old & _ & ->)]; [apply Hdb; exact Hr|exact Hname].
  - intros r Hr. unfold Db.delete in Hr. cbn [Db.rows] in Hr.
    apply filter_In in Hr. apply Hdb. tauto.
Qed.

Lemma customer_names_are_never_blank_witness :
  names_not_blank db_one /\
  names_not_blank (snd (run add_and_save initial_session db_one)).
Proof.
  assert (H : names_not_blank db_one).
  { intros r [<-|[]]. reflexivity. }
  split; [exact H|].
  apply (customer_names_are_never_blank add_and_save initial_session db_one H).
Defined.
